(** * Simple Time Tracker Invoice: extraction, normalisation, flattening
      and invoice computation.

    A shallow embedding of the TypeScript sources
    - [main.ts]                      (module [Main]),
    - [src/time-tracker-parser.ts]   (module [Parser]),
    - [src/invoice-modal.ts]         (module [Modal]),
    - [src/invoice-generator.ts]     (module [Generator]),
    - [src/settings.ts]              (module [Settings]),
    together with the properties of the specification.

    Conventions.
    - A JavaScript string is the list of its UTF-16 code units.
    - A JavaScript number that is always an integer is a [Z]; [NaN] is the
      [None] of [option Z].  Hours and amounts are exact rationals ([Q]):
      the rounding of binary floating point is not modelled.
    - The host runtime ([Date], [Math.random], jsPDF, the Obsidian vault) is
      not part of the sources: it enters as section variables, and a
      reference calendar [RefDate] instantiates [Date] for closed examples. *)

From Stdlib Require Import List ZArith NArith QArith Qminmax Qround Qabs Lia Bool.
From Stdlib Require String Ascii DecimalString.
Import ListNotations String.StringSyntax.

Close Scope Q_scope.
Open Scope Z_scope.

(* ================================================================== *)
(** * JavaScript strings                                                *)
(* ================================================================== *)

Module JS.

Definition char := N.
Definition jsstring := list char.

(** String literals of the sources, as code units. *)
Definition js (s : String.string) : jsstring :=
  List.map Ascii.N_of_ascii (String.list_ascii_of_string s).
Delimit Scope string_scope with string.
Arguments js s%_string.

Definition SPACE : char := 32%N.
Definition HYPHEN : char := 45%N.
Definition COLON : char := 58%N.
Definition ZERO : char := 48%N.

Definition char_eqb (a b : char) : bool := N.eqb a b.

Fixpoint str_eqb (a b : jsstring) : bool :=
  match a, b with
  | [], [] => true
  | x :: a', y :: b' => char_eqb x y && str_eqb a' b'
  | _, _ => false
  end.

Definition between (lo hi c : N) : bool := (N.leb lo c && N.leb c hi)%bool.

(** [\d] without the unicode flag: the ten ASCII digits. *)
Definition isDigit (c : char) : bool := between 48 57 c.

Definition digitValue (c : char) : Z := Z.of_N c - 48.

(** WhiteSpace and LineTerminator code points of ECMAScript, the class
    behind [String.prototype.trim] and the regular expression [\s]. *)
Definition isWhiteSpace (c : char) : bool :=
  between 9 13 c || N.eqb c 32 || N.eqb c 160 || N.eqb c 5760
  || between 8192 8202 c || N.eqb c 8232 || N.eqb c 8233 || N.eqb c 8239
  || N.eqb c 8287 || N.eqb c 12288 || N.eqb c 65279.

Fixpoint trimStart (s : jsstring) : jsstring :=
  match s with
  | c :: r => if isWhiteSpace c then trimStart r else s
  | [] => []
  end.

Definition trimEnd (s : jsstring) : jsstring := rev (trimStart (rev s)).

Definition trim (s : jsstring) : jsstring := trimEnd (trimStart s).

(** [s.split(sep)] for a one-character separator: every occurrence cuts,
    so the result is never empty and may hold empty pieces. *)
Fixpoint split (sep : char) (s : jsstring) : list jsstring :=
  match s with
  | [] => [[]]
  | c :: r =>
      if char_eqb c sep then [] :: split sep r
      else match split sep r with
           | w :: ws => (c :: w) :: ws
           | [] => [[c]]
           end
  end.

Fixpoint join (sep : jsstring) (l : list jsstring) : jsstring :=
  match l with
  | [] => []
  | [w] => w
  | w :: ws => w ++ sep ++ join sep ws
  end.

Fixpoint startsWith (p s : jsstring) : bool :=
  match p, s with
  | [], _ => true
  | x :: p', y :: s' => char_eqb x y && startsWith p' s'
  | _ :: _, [] => false
  end.

(** [s.includes(p)]. *)
Fixpoint includes (p s : jsstring) : bool :=
  startsWith p s ||
  match s with
  | [] => false
  | _ :: r => includes p r
  end.

(** [s.replace(p, r)] with a string pattern: the first occurrence only. *)
Fixpoint replaceFirst (p r s : jsstring) : jsstring :=
  if startsWith p s then r ++ skipn (length p) s
  else match s with
       | [] => []
       | c :: s' => c :: replaceFirst p r s'
       end.

(** [s.substring(0, n)]. *)
Definition substring0 (n : nat) (s : jsstring) : jsstring := firstn n s.

(** [s.replace(/[class]/g, r)]: every character of the class is replaced. *)
Fixpoint replaceClass (cls : char -> bool) (r : jsstring) (s : jsstring)
  : jsstring :=
  match s with
  | [] => []
  | c :: s' => if cls c then r ++ replaceClass cls r s'
               else c :: replaceClass cls r s'
  end.

(** [s.replace(/[class]+/g, r)]: every maximal run of the class is replaced
    by one [r]. *)
Fixpoint replaceRuns (cls : char -> bool) (r : jsstring) (s : jsstring)
  : jsstring :=
  match s with
  | [] => []
  | c :: s' =>
      if cls c then
        match s' with
        | c' :: _ => if cls c' then replaceRuns cls r s'
                     else r ++ replaceRuns cls r s'
        | [] => r
        end
      else c :: replaceRuns cls r s'
  end.

(** [String(n)] for an integer number, [NaN] being [None]. *)
Definition toStringZ (z : Z) : jsstring := js (DecimalString.NilZero.string_of_int (Z.to_int z)).

Definition toString (n : option Z) : jsstring :=
  match n with
  | Some z => toStringZ z
  | None => js "NaN"
  end.

(** [s.padStart(n, "0")]. *)
Definition padStart0 (n : nat) (s : jsstring) : jsstring :=
  repeat ZERO (n - length s) ++ s.

(** ** [parseInt(s)] without a radix

    Leading white space is skipped, one sign is read, a [0x]/[0X] prefix
    selects radix 16, and the longest prefix of digits is the value;
    no digit at all gives [NaN]. *)

Definition hexValue (c : char) : option Z :=
  if between 48 57 c then Some (Z.of_N c - 48)
  else if between 97 102 c then Some (Z.of_N c - 87)
  else if between 65 70 c then Some (Z.of_N c - 55)
  else None.

Definition decValue (c : char) : option Z :=
  if isDigit c then Some (digitValue c) else None.

Fixpoint digitsPrefix (value : char -> option Z) (radix : Z) (acc : option Z)
  (s : jsstring) : option Z :=
  match s with
  | [] => acc
  | c :: r =>
      match value c with
      | Some d =>
          digitsPrefix value radix
            (Some (radix * match acc with Some a => a | None => 0 end + d)) r
      | None => acc
      end
  end.

Definition parseInt (s : jsstring) : option Z :=
  let s := trimStart s in
  let (sign, s) :=
    match s with
    | c :: r => if N.eqb c 45 then (-1, r)
                else if N.eqb c 43 then (1, r) else (1, s)
    | [] => (1, s)
    end in
  let magnitude :=
    match s with
    | z :: x :: r =>
        if N.eqb z 48 && (N.eqb x 120 || N.eqb x 88)
        then digitsPrefix hexValue 16 None r
        else digitsPrefix decValue 10 None s
    | _ => digitsPrefix decValue 10 None s
    end in
  option_map (Z.mul sign) magnitude.

(** Comparisons of a possibly-[NaN] integer: every comparison with [NaN]
    is false. *)
Definition lt (a : option Z) (b : Z) : bool :=
  match a with Some x => x <? b | None => false end.
Definition gt (a : option Z) (b : Z) : bool :=
  match a with Some x => b <? x | None => false end.

(** A JavaScript number whose value matters beyond the integers: an exact
    rational, or one of the three non-finite values. *)
Inductive number :=
| Num (q : Q)
| NaN
| Infinity
| NegInfinity.

Definition isNaN (x : number) : bool :=
  match x with NaN => true | _ => false end.

Definition isFinite (x : number) : bool :=
  match x with Num _ => true | _ => false end.

(** [x > 0] *)
Definition positive (x : number) : bool :=
  match x with
  | Num q => negb (Qle_bool q 0)
  | Infinity => true
  | NaN | NegInfinity => false
  end.

(** [!s] on a string that may be null or undefined. *)
Definition falsy (s : option jsstring) : bool :=
  match s with
  | Some (_ :: _) => false
  | _ => true
  end.

(** Outcome of a computation that may raise: the value, or the [message] of
    the error raised. *)
Inductive result (A : Type) :=
| Ok (a : A)
| Throw (message : jsstring).
Arguments Ok {A} a.
Arguments Throw {A} message.

(** [x + y] *)
Definition add (x y : number) : number :=
  match x, y with
  | NaN, _ | _, NaN => NaN
  | Infinity, NegInfinity | NegInfinity, Infinity => NaN
  | Infinity, _ | _, Infinity => Infinity
  | NegInfinity, _ | _, NegInfinity => NegInfinity
  | Num a, Num b => Num (a + b)
  end.

(** [x || 0] on a number: [NaN] and zero are falsy. *)
Definition orZero (x : number) : number :=
  match x with
  | NaN => Num 0
  | Num q => if Qeq_bool q 0 then Num 0 else Num q
  | Infinity => Infinity
  | NegInfinity => NegInfinity
  end.

(** [x >= 0] *)
Definition nonNegative (x : number) : bool :=
  match x with
  | Num q => Qle_bool 0 q
  | Infinity => true
  | NaN | NegInfinity => false
  end.

End JS.
Import JS.

(* ================================================================== *)
(** * A reference calendar for [Date]                                   *)
(* ================================================================== *)

(** [new Date(s).getTime()] belongs to the runtime.  The developments below
    take it as a variable; this module gives one instance, for the
    date-time form [YYYY-MM-DDTHH:MM:SS] as the V8 engine of the host
    application reads it, on a host whose local time is UTC: a month from
    1 to 12, a day from 1 to 31 whatever the month, a day past the end of
    the month counting on into the next month, and a time up to 23:59:59
    or 24:00:00.  Strings of other forms are not read by this instance.
    [None] is the time value [NaN]. *)

Module RefDate.

Definition leap (y : Z) : bool :=
  ((y mod 4 =? 0) && negb (y mod 100 =? 0)) || (y mod 400 =? 0).

Definition daysInMonth (y m : Z) : Z :=
  if m =? 2 then (if leap y then 29 else 28)
  else if (m =? 4) || (m =? 6) || (m =? 9) || (m =? 11) then 30
  else 31.

(** Days between 1970-01-01 and the civil date [y-m-d]. *)
Definition daysFromCivil (y m d : Z) : Z :=
  let y' := if m <=? 2 then y - 1 else y in
  let era := y' / 400 in
  let yoe := y' - era * 400 in
  let mp := if 2 <? m then m - 3 else m + 9 in
  let doy := (153 * mp + 2) / 5 + d - 1 in
  let doe := yoe * 365 + yoe / 4 - yoe / 100 + doy in
  era * 146097 + doe - 719468.

Definition num2 (a b : char) : Z := 10 * digitValue a + digitValue b.

Definition getTime (s : jsstring) : option Z :=
  match s with
  | [y1; y2; y3; y4; h1; m1; m2; h2; d1; d2; t; H1; H2; c1; M1; M2; c2; S1; S2] =>
      if forallb isDigit [y1; y2; y3; y4; m1; m2; d1; d2; H1; H2; M1; M2; S1; S2]
         && char_eqb h1 HYPHEN && char_eqb h2 HYPHEN && char_eqb t 84%N
         && char_eqb c1 COLON && char_eqb c2 COLON
      then
        let year := 100 * num2 y1 y2 + num2 y3 y4 in
        let month := num2 m1 m2 in
        let day := num2 d1 d2 in
        let hour := num2 H1 H2 in
        let minute := num2 M1 M2 in
        let second := num2 S1 S2 in
        if (1 <=? month) && (month <=? 12) && (1 <=? day) && (day <=? 31)
           && ((hour <=? 23) && (minute <=? 59) && (second <=? 59)
               || (hour =? 24) && (minute =? 0) && (second =? 0))
        then Some (((daysFromCivil year month day * 24 + hour) * 60 + minute)
                   * 60000 + second * 1000)
        else None
      else None
  | _ => None
  end.

End RefDate.

(* ================================================================== *)
(** * main.ts: the date/time normalizer and the table extractor         *)
(* ================================================================== *)

Module Main.

(** [/^\d{2}-\d{2}-\d{2}$/.test(s)] *)
Definition test_datePart (s : jsstring) : bool :=
  match s with
  | [a; b; h; c; d; h'; e; f] =>
      isDigit a && isDigit b && char_eqb h HYPHEN
      && isDigit c && isDigit d && char_eqb h' HYPHEN
      && isDigit e && isDigit f
  | _ => false
  end.

(** [/^\d{2}:\d{2}:\d{2}$/.test(s)] *)
Definition test_timePart (s : jsstring) : bool :=
  match s with
  | [a; b; h; c; d; h'; e; f] =>
      isDigit a && isDigit b && char_eqb h COLON
      && isDigit c && isDigit d && char_eqb h' COLON
      && isDigit e && isDigit f
  | _ => false
  end.

Definition isEmpty (s : jsstring) : bool :=
  match s with [] => true | _ => false end.

(** [year += k] on a possibly-[NaN] integer. *)
Definition plus (a : option Z) (k : Z) : option Z := option_map (fun x => x + k) a.

Section Normalizer.

(** [new Date(s).getTime()], [None] for [NaN]. *)
Variable Date_getTime : jsstring -> option Z.

(** [parseTimeTrackerDate].  Nothing in the body can raise in this model,
    so the [catch] branch of the source has no counterpart. *)
Definition parseTimeTrackerDate (dateStr : option jsstring) : option jsstring :=
  match dateStr with
  | None => None
  | Some dateStr =>
      if isEmpty dateStr || isEmpty (trim dateStr) then None
      else
        match split SPACE dateStr with
        | [datePart; timePart] =>
            if negb (test_datePart datePart) || negb (test_timePart timePart)
            then None
            else
              match split HYPHEN datePart with
              | [c0; c1; c2] =>
                  let year := parseInt c0 in
                  let month := parseInt c1 in
                  let day := parseInt c2 in
                  if lt month 1 || gt month 12 || lt day 1 || gt day 31
                  then None
                  else
                    let year :=
                      if lt year 50 then plus year 2000 else plus year 1900 in
                    if lt year 1900 || gt year 2100 then None
                    else
                      let isoDate :=
                        toString year ++ js "-"
                        ++ padStart0 2 (toString month) ++ js "-"
                        ++ padStart0 2 (toString day) ++ js "T" ++ timePart in
                      match Date_getTime isoDate with
                      | None => None
                      | Some _ => Some isoDate
                      end
              | _ => None
              end
        | _ => None
        end
  end.

End Normalizer.

(** [sanitizeText] *)
Definition isControl (c : char) : bool := between 0 31 c || between 127 159 c.
Definition isAngle (c : char) : bool := N.eqb c 60 || N.eqb c 62.

Definition sanitizeText (text : jsstring) : jsstring :=
  if isEmpty text then []
  else substring0 500 (replaceClass isAngle [] (replaceClass isControl [] text)).

(** The part of the DOM the extractor reads: [cells[k].querySelector('span')]
    is a span or null, a row is its [querySelectorAll('td')], a table its
    [querySelectorAll('tr')]. *)
Record Span := { textContent : jsstring; marginLeft : jsstring }.
Definition Cell := option Span.
Definition Row := list Cell.
Definition Table := list Row.

Record Entry := {
  name : jsstring;
  startTime : option jsstring;
  endTime : option jsstring;
  level : Z
}.

(** [x || d] on a string that may be undefined. *)
Definition orString (x : option jsstring) (d : jsstring) : jsstring :=
  match x with
  | Some (c :: r) => c :: r
  | _ => d
  end.

(** [cells[k].querySelector('span')]; a missing cell has no span. *)
Definition spanOf (cells : Row) (k : nat) : option Span :=
  match nth_error cells k with
  | Some c => c
  | None => None
  end.

Section Extractor.

Variable Date_getTime : jsstring -> option Z.

Definition extractRow (cells : Row) : Entry :=
  let nameSpan := spanOf cells 0 in
  let name :=
    sanitizeText
      (orString (option_map (fun s => trim (textContent s)) nameSpan)
                (js "Unknown Task")) in
  let marginLeft := orString (option_map marginLeft nameSpan) (js "0em") in
  let level :=
    Z.min (Z.max (match parseInt (replaceFirst (js "em") [] marginLeft) with
                  | Some v => v
                  | None => 0
                  end) 0) 10 in
  let startTimeText := option_map (fun s => trim (textContent s)) (spanOf cells 1) in
  let endTimeText := option_map (fun s => trim (textContent s)) (spanOf cells 2) in
  {| name := name;
     startTime := parseTimeTrackerDate Date_getTime startTimeText;
     endTime := parseTimeTrackerDate Date_getTime endTimeText;
     level := level |}.

(** The loop [for (i = 1; i < Math.min(rows.length, 1001); i++)] with
    [entries.push]. *)
Definition extractEntries (rows : Table) : list Entry :=
  fold_left
    (fun entries i =>
       match nth_error rows i with
       | Some cells =>
           if (4 <=? length cells)%nat then entries ++ [extractRow cells]
           else entries
       | None => entries
       end)
    (seq 1 (Nat.min (length rows) 1001 - 1)) [].

(** [extractDataFromTable]: the JSON text [{entries: [...]}] is represented
    by the entry list it serialises. *)
Definition extractDataFromTable (rows : Table) : option (list Entry) :=
  let entries := extractEntries rows in
  if (0 <? length entries)%nat then Some entries else None.

End Extractor.

End Main.


(* ================================================================== *)
(** * src/time-tracker-parser.ts: the entry tree processor              *)
(* ================================================================== *)

Module Parser.

(** An entry of the envelope as [JSON.parse] delivers it; a missing, null
    or undefined field is [None]. *)
#[warnings="-register-all"]
Inductive RawEntry :=
| Raw (name : option jsstring) (startTime endTime : option jsstring)
      (subEntries : option (list RawEntry)).

Definition rawName (e : RawEntry) := let (n, _, _, _) := e in n.
Definition rawSubEntries (e : RawEntry) := let (_, _, _, l) := e in l.

Record TimeEntry := {
  name : option jsstring;
  startTime : option jsstring;
  endTime : option jsstring;
  level : nat;
  duration : number
}.

Section Processor.

Variable Date_getTime : jsstring -> option Z.

(** [calculateDuration]: no validity check and no clamping; an invalid
    date makes the difference [NaN]. *)
Definition calculateDuration (startTime endTime : option jsstring) : number :=
  match startTime, endTime with
  | Some (a :: s), Some (b :: e) =>
      match Date_getTime (a :: s), Date_getTime (b :: e) with
      | Some start, Some end_ => Num (inject_Z (end_ - start) / inject_Z 3600000)
      | _, _ => NaN
      end
  | _, _ => Num 0
  end.

(** One turn of the loop of [processEntries]: the entry itself, then its
    sub-entries one level deeper when there are any. *)
Fixpoint processEntry (level : nat) (entry : RawEntry) : list TimeEntry :=
  match entry with
  | Raw n s e subs =>
      {| name := n; startTime := s; endTime := e; level := level;
         duration := calculateDuration s e |}
      :: match subs with
         | Some ((_ :: _) as l) => flat_map (processEntry (level + 1)) l
         | _ => []
         end
  end.

Definition processEntries (entries : list RawEntry) (level : nat)
  : list TimeEntry :=
  flat_map (processEntry level) entries.

(** [parse]: the argument is the outcome of [JSON.parse(jsonData)], [None]
    when it raises, and otherwise the [entries] field of the value. *)
Definition parse (data : option (option (list RawEntry)))
  : result (list TimeEntry) :=
  match data with
  | None => Throw (js "Invalid JSON data in time tracker block")
  | Some entries =>
      Ok (processEntries (match entries with Some l => l | None => [] end) 0)
  end.

End Processor.

(** [getTotalHours] *)
Definition getTotalHours (entries : list TimeEntry) : number :=
  fold_left (fun total entry => add total (orZero (duration entry)))
            entries (Num 0).

End Parser.

(* ================================================================== *)
(** * src/invoice-modal.ts: the options dialog                          *)
(* ================================================================== *)

Module Modal.

Record InvoiceOptions := { flatRateAmount : option number }.

Section Dialog.

Variable parseFloat : jsstring -> number.

(** The [onChange] handler of the flat-rate field, on the dialog's
    [result]. *)
Definition onChange (value : jsstring) (result : InvoiceOptions)
  : InvoiceOptions :=
  let amount := parseFloat value in
  if negb (isNaN amount) && positive amount
  then {| flatRateAmount := Some amount |}
  else {| flatRateAmount := None |}.

(** What the user does with the open dialog: type into the field, press
    Cancel, press Generate Invoice. *)
Inductive action :=
| Change (value : jsstring)
| Cancel
| Generate.

(** The dialog after [onOpen], with its [result] so far, under the actions
    of the user: what [onSubmit] receives when Generate Invoice is pressed,
    and nothing when the dialog is cancelled or left open. *)
Fixpoint interact (actions : list action) (result : InvoiceOptions)
  : option InvoiceOptions :=
  match actions with
  | [] => None
  | Change value :: rest => interact rest (onChange value result)
  | Cancel :: _ => None
  | Generate :: _ => Some result
  end.

(** The field [result] starts as the empty object. *)
Definition open (actions : list action) : option InvoiceOptions :=
  interact actions {| flatRateAmount := None |}.

End Dialog.

End Modal.

(* ================================================================== *)
(** * src/invoice-generator.ts: computation, rendering and persistence  *)
(* ================================================================== *)

Module Generator.

Import Modal.

Record TimeEntry := {
  name : jsstring;
  startTime : option jsstring;
  endTime : option jsstring;
  (** a depth assigned by the tree processor, hence a natural number *)
  level : option nat
}.

Record InvoiceSettings := {
  companyName : jsstring;
  companyAddress : jsstring;
  companyLogo : jsstring;
  hourlyRate : Q;
  billingTerms : jsstring;
  memo : jsstring;
  invoiceDirectory : jsstring
}.

(** ** The document, as the calls made on the jsPDF object *)

Inductive align := AlignLeft | AlignRight.

Inductive op :=
| SetFontSize (size : Z)
| Text (text : jsstring) (x y : Q) (a : align)
| AutoTable (head : list jsstring) (body : list (list jsstring)) (startY : Q)
| Line (x1 y1 x2 y2 : Q).

(** The payload [doc.output('arraybuffer')] is represented by the calls
    that built the document. *)
Definition ArrayBuffer := list op.

(** ** The effects on the host, as a trace *)

Inductive event :=
| CreateFolder (path : jsstring)
| CreateBinary (path : jsstring) (data : ArrayBuffer)
| ShowNotice (message : jsstring)
| OpenFile (path : jsstring).

(** The current date as [new Date()] reports it. *)
Record Clock := {
  getFullYear : Z;
  getMonth : Z;
  getDate : Z
}.

(** State threaded through one invocation: the outcomes of [Math.random()]
    in call order, how many were consumed, and the effects performed. *)
Record State := {
  draws : nat -> Q;
  drawn : nat;
  trace : list event
}.

Definition M (A : Type) := State -> result A * State.

Definition ret {A} (a : A) : M A := fun s => (Ok a, s).

Definition bind {A B} (m : M A) (k : A -> M B) : M B :=
  fun s =>
    match m s with
    | (Ok a, s') => k a s'
    | (Throw e, s') => (Throw e, s')
    end.

Definition throw {A} (message : jsstring) : M A := fun s => (Throw message, s).

(** [try { body } catch (error) { handler(error.message) }] *)
Definition tryCatch {A} (body : M A) (handler : jsstring -> M A) : M A :=
  fun s =>
    match body s with
    | (Ok a, s') => (Ok a, s')
    | (Throw e, s') => handler e s'
    end.

Definition emit (e : event) : M unit :=
  fun s => (Ok tt, {| draws := draws s; drawn := drawn s;
                      trace := trace s ++ [e] |}).

(** [Math.random()] *)
Definition Math_random : M Q :=
  fun s => (Ok (draws s (drawn s)),
            {| draws := draws s; drawn := S (drawn s); trace := trace s |}).

Notation "x <- m ;; k" := (bind m (fun x => k))
  (at level 61, m at next level, right associativity).
Notation "m ;;; k" := (bind m (fun _ => k))
  (at level 61, right associativity).

Fixpoint mapi_from {A B} (i : nat) (f : A -> nat -> B) (l : list A) : list B :=
  match l with
  | [] => []
  | a :: r => f a i :: mapi_from (S i) f r
  end.

(** [l.forEach((x, index) => ...)] collecting what each turn produces. *)
Definition mapi {A B} (f : A -> nat -> B) (l : list A) : list B :=
  mapi_from 0 f l.

Definition qnat (n : nat) : Q := inject_Z (Z.of_nat n).

(** [x || d] on strings. *)
Definition orElse (x d : jsstring) : jsstring :=
  match x with [] => d | _ => x end.

(** [escapeText] *)
Definition isControl (c : char) : bool := between 0 31 c || between 127 159 c.

Definition escapeText (text : jsstring) : jsstring :=
  match text with
  | [] => []
  | _ => substring0 1000 (replaceClass isControl [] text)
  end.

(** [sanitizeFilename] *)
Definition isUnsafe (c : char) : bool :=
  N.eqb c 60 || N.eqb c 62 || N.eqb c 58 || N.eqb c 34 || N.eqb c 47
  || N.eqb c 92 || N.eqb c 124 || N.eqb c 63 || N.eqb c 42 || between 0 31 c.

Definition isHyphen (c : char) : bool := N.eqb c 45.

(** [s.replace(/^-|-$/g, '')]: a hyphen at the start is removed, and then a
    hyphen at the end of what follows. *)
Fixpoint stripTrailingHyphen (s : jsstring) : jsstring :=
  match s with
  | [] => []
  | [c] => if isHyphen c then [] else [c]
  | c :: r => c :: stripTrailingHyphen r
  end.

Definition stripHyphens (s : jsstring) : jsstring :=
  match s with
  | c :: r => if isHyphen c then stripTrailingHyphen r
              else stripTrailingHyphen s
  | [] => []
  end.

Definition sanitizeFilename (filename : jsstring) : jsstring :=
  substring0 50
    (stripHyphens
       (replaceRuns isHyphen (js "-")
          (replaceRuns isWhiteSpace (js "-")
             (replaceClass isUnsafe (js "-") filename)))).


Section Host.

(** *** The runtime and the host application *)

(** [new Date(s).getTime()], [None] for [NaN]. *)
Variable Date_getTime : jsstring -> option Z.
(** [toLocaleDateString('en-US', {month: 'short', day: 'numeric'})] and
    [toLocaleTimeString('en-US', {hour: 'numeric', minute: '2-digit',
    hour12: true})] of a valid date, given by its time value. *)
Variable toLocaleDateString_short : Z -> jsstring.
Variable toLocaleTimeString_12h : Z -> jsstring.
(** [x.toFixed(2)] *)
Variable toFixed2 : number -> jsstring.
(** The current date, [new Date().toLocaleDateString()] and
    [moment().format(template)]. *)
Variable now : Clock.
Variable toLocaleDateString_now : jsstring.
Variable moment_format : jsstring -> jsstring.
Variable normalizePath : jsstring -> jsstring.
(** jsPDF: [lastAutoTable.finalY] once a table body is laid out; the
    message of the error raised, if any, by [require] and [new jsPDF()];
    and the message of the error raised, if any, while jsPDF performs the
    calls and produces its output. *)
Variable autoTable_finalY : list (list jsstring) -> Q.
Variable jsPDF_load_raises : option jsstring.
Variable jsPDF_raises : list op -> option jsstring.
(** The vault: whether a path exists after the effects so far, and the
    message of the error an operation raises, if any. *)
Variable adapter_exists : jsstring -> list event -> bool.
Variable createFolder_raises : jsstring -> list event -> option jsstring.
Variable createBinary_raises : jsstring -> list event -> option jsstring.
Variable openFile_raises : jsstring -> list event -> option jsstring.

Variable settings : InvoiceSettings.

(** An awaited host operation: it raises, or performs its effect. *)
Definition hostCall (raises : list event -> option jsstring) (e : event)
  : M unit :=
  fun s =>
    match raises (trace s) with
    | Some message => (Throw message, s)
    | None => emit e s
    end.

Definition vault_exists (path : jsstring) : M bool :=
  fun s => (Ok (adapter_exists path (trace s)), s).

(** *** Invoice number and output path *)

(** [generateInvoiceNumber] *)
Definition generateInvoiceNumber : M jsstring :=
  let year := getFullYear now in
  let month := padStart0 2 (toStringZ (getMonth now + 1)) in
  let day := padStart0 2 (toStringZ (getDate now)) in
  r <- Math_random ;;
  let timestamp := Qfloor (r * 10000) in
  ret (toStringZ year ++ js "-" ++ month ++ js "-" ++ day ++ js "-"
       ++ toStringZ timestamp).

(** [generateFilePath] *)
Definition generateFilePath : M jsstring :=
  let directory := orElse (invoiceDirectory settings) (js "Invoices/YYYY/MM") in
  let directory := moment_format directory in
  invoiceNumber <- generateInvoiceNumber ;;
  let companyName := orElse (companyName settings) (js "Company") in
  let safeCompanyName := sanitizeFilename companyName in
  let filename :=
    safeCompanyName ++ js "-invoice-" ++ invoiceNumber ++ js ".pdf" in
  let fullPath := directory ++ js "/" ++ filename in
  ret (normalizePath fullPath).

Definition SLASH : char := 47%N.

(** [createDirectoryRecursive]: the loop over the path components, with the
    [currentPath] built so far. *)
Fixpoint createFolders (currentPath : jsstring) (parts : list jsstring)
  : M unit :=
  match parts with
  | [] => ret tt
  | part :: rest =>
      let currentPath :=
        match currentPath with
        | [] => part
        | _ => currentPath ++ js "/" ++ part
        end in
      let normalizedPath := normalizePath currentPath in
      exists_ <- vault_exists normalizedPath ;;
      (if negb exists_
       then tryCatch
              (hostCall (createFolder_raises normalizedPath)
                        (CreateFolder normalizedPath))
              (fun message =>
                 if negb (includes (js "already exists") message)
                 then throw message else ret tt)
       else ret tt) ;;;
      createFolders currentPath rest
  end.

Definition createDirectoryRecursive (dirPath : jsstring) : M unit :=
  let parts :=
    filter (fun part => (0 <? length part)%nat) (split SLASH dirPath) in
  createFolders [] parts.

(** [ensureDirectoryExists] *)
Definition ensureDirectoryExists (filePath : jsstring) : M unit :=
  let pathParts := removelast (split SLASH filePath) in
  match pathParts with
  | [] => ret tt
  | _ =>
      let dirPath := normalizePath (join (js "/") pathParts) in
      dirExists <- vault_exists dirPath ;;
      if dirExists then ret tt
      else tryCatch (createDirectoryRecursive dirPath)
             (fun message =>
                if negb (includes (js "already exists") message)
                then throw message else ret tt)
  end.

(** *** Durations *)

(** [calculateEntryDuration] *)
Definition calculateEntryDuration (entry : TimeEntry) : Q :=
  if falsy (startTime entry) || falsy (endTime entry) then 0%Q
  else
    match startTime entry, endTime entry with
    | Some s, Some e =>
        match Date_getTime s, Date_getTime e with
        | Some start, Some end_ =>
            let diffMs := end_ - start in
            let diffHours := (inject_Z diffMs / inject_Z (1000 * 60 * 60))%Q in
            Qmax 0 (Qmin diffHours (inject_Z (24 * 365)))
        | _, _ => 0%Q
        end
    | _, _ => 0%Q
    end.

(** [calculateTotalHours] *)
Definition calculateTotalHours (entries : list TimeEntry) : Q :=
  fold_left (fun total entry => (total + calculateEntryDuration entry)%Q)
            entries 0%Q.

(** *** The document *)

(** The local [formatTime] of [addPDFContent]. *)
Definition formatTime (timeString : option jsstring) : jsstring :=
  match timeString with
  | Some (c :: r) =>
      match Date_getTime (c :: r) with
      | None => js "-"
      | Some t => toLocaleDateString_short t ++ js " " ++ toLocaleTimeString_12h t
      end
  | _ => js "-"
  end.

(** The callback of [entries.map] in [addPDFContent]: one row of the
    table. *)
Definition tableRow (isFlateRate : bool) (entry : TimeEntry) : list jsstring :=
  let duration := calculateEntryDuration entry in
  let indent :=
    concat (repeat (js "  ")
              (Nat.min (match level entry with Some l => l | None => 0%nat end)
                       10)) in
  if isFlateRate then
    [ escapeText (indent ++ name entry);
      formatTime (startTime entry);
      formatTime (endTime entry);
      toFixed2 (Num duration);
      js "-";
      js "-" ]
  else
    let amount := (duration * hourlyRate settings)%Q in
    [ escapeText (indent ++ name entry);
      formatTime (startTime entry);
      formatTime (endTime entry);
      toFixed2 (Num duration);
      toFixed2 (Num (hourlyRate settings));
      toFixed2 (Num amount) ].

(** [options?.flatRateAmount] *)
Definition flatRateOf (options : option InvoiceOptions) : option number :=
  match options with
  | Some o => flatRateAmount o
  | None => None
  end.

(** [options?.flatRateAmount !== undefined] *)
Definition isFlateRate (options : option InvoiceOptions) : bool :=
  match flatRateOf options with
  | Some _ => true
  | None => false
  end.

Definition subtotal (entries : list TimeEntry) (options : option InvoiceOptions)
  : number :=
  match flatRateOf options with
  | Some amount => amount
  | None => Num (calculateTotalHours entries * hourlyRate settings)
  end.

Definition tableHead : list jsstring :=
  [js "Task"; js "Start Time"; js "End Time"; js "Hours"; js "Rate"; js "Amount"].

(** The four zones of [addPDFContent], each as the calls it makes. *)
Definition headerOps (invoiceNumber : jsstring) : list op :=
  [ SetFontSize 24;
    Text (js "INVOICE") 200 30 AlignRight;
    SetFontSize 16;
    Text (escapeText (orElse (companyName settings) (js "Your Company")))
         20 30 AlignLeft ]
  ++ match companyAddress settings with
     | [] => []
     | address =>
         SetFontSize 10
         :: mapi (fun line index =>
                    Text (escapeText line) 20 (40 + qnat index * 5) AlignLeft)
                 (split 10%N address)
     end
  ++ [ SetFontSize 10;
       Text (js "Invoice #: " ++ escapeText invoiceNumber) 200 45 AlignRight;
       Text (js "Date: " ++ toLocaleDateString_now) 200 52 AlignRight ].

Definition summaryOps (entries : list TimeEntry)
  (options : option InvoiceOptions) (summaryStartY : Q) : list op :=
  let totalHours := calculateTotalHours entries in
  let summaryRightX := 190%Q in
  [ SetFontSize 10;
    Text (js "Total Hours:") 140 summaryStartY AlignLeft;
    Text (toFixed2 (Num totalHours)) summaryRightX summaryStartY AlignRight ]
  ++ match flatRateOf options with
     | Some amount =>
         [ Text (js "Project Rate:") 140 (summaryStartY + 7) AlignLeft;
           Text (toFixed2 amount) summaryRightX (summaryStartY + 7) AlignRight ]
     | None =>
         [ Text (js "Hourly Rate:") 140 (summaryStartY + 7) AlignLeft;
           Text (toFixed2 (Num (hourlyRate settings))) summaryRightX
                (summaryStartY + 7) AlignRight ]
     end
  ++ [ Line 140 (summaryStartY + 12) summaryRightX (summaryStartY + 12);
       SetFontSize 12;
       Text (js "Total Amount:") 140 (summaryStartY + 20) AlignLeft;
       Text (toFixed2 (subtotal entries options)) summaryRightX
            (summaryStartY + 20) AlignRight ].

Definition notesOps (summaryStartY : Q) : list op :=
  let notesY := (summaryStartY + 35)%Q in
  match memo settings with
  | [] =>
      [ SetFontSize 10;
        Text (js "Payment Terms: " ++ escapeText (billingTerms settings))
             20 notesY AlignLeft;
        Text (js "Thank you for your business!") 20 (notesY + 7) AlignLeft ]
  | memo =>
      let memoLines := split 10%N memo in
      let notesY' := (notesY + (7 + qnat (length memoLines) * 5 + 10))%Q in
      [ SetFontSize 12;
        Text (js "Notes:") 20 notesY AlignLeft;
        SetFontSize 10 ]
      ++ mapi (fun line index =>
                 Text (escapeText line) 20 (notesY + 7 + qnat index * 5)
                      AlignLeft)
              memoLines
      ++ [ SetFontSize 10;
           Text (js "Payment Terms: " ++ escapeText (billingTerms settings))
                20 notesY' AlignLeft;
           Text (js "Thank you for your business!") 20 (notesY' + 7) AlignLeft ]
  end.

(** [addPDFContent]: the calls made on [doc], in order.  The styling
    options of [autoTable] are constants and are left out. *)
Definition addPDFContent (entries : list TimeEntry)
  (options : option InvoiceOptions) : M (list op) :=
  invoiceNumber <- generateInvoiceNumber ;;
  let tableData := map (tableRow (isFlateRate options)) entries in
  let finalY := (autoTable_finalY tableData + 20)%Q in
  ret (headerOps invoiceNumber
       ++ [AutoTable tableHead tableData 70]
       ++ summaryOps entries options finalY
       ++ notesOps finalY).

(** [generatePDF] *)
Definition generatePDF (entries : list TimeEntry)
  (options : option InvoiceOptions) : M ArrayBuffer :=
  tryCatch
    (match jsPDF_load_raises with
     | Some message => throw message
     | None =>
         ops <- addPDFContent entries options ;;
         match jsPDF_raises ops with
         | Some message => throw message
         | None => ret ops
         end
     end)
    (fun message => throw (js "PDF generation failed: " ++ message)).

(** [generateInvoice] *)
Definition generateInvoice (entries : list TimeEntry)
  (options : option InvoiceOptions) : M unit :=
  tryCatch
    (pdfBuffer <- generatePDF entries options ;;
     filePath <- generateFilePath ;;
     ensureDirectoryExists filePath ;;;
     hostCall (createBinary_raises filePath) (CreateBinary filePath pdfBuffer) ;;;
     emit (ShowNotice (js "Invoice saved to: " ++ filePath)) ;;;
     hostCall (openFile_raises filePath) (OpenFile filePath))
    (fun message => throw (js "Failed to generate invoice: " ++ message)).

End Host.

End Generator.

(* ================================================================== *)
(** * src/settings.ts: the settings tab                                 *)
(* ================================================================== *)

Module Settings.

(** The settings of the plugin as the tab edits them; the hourly rate is
    whatever number [parseFloat] gave. *)
Record InvoiceSettings := {
  companyName : jsstring;
  companyAddress : jsstring;
  companyLogo : jsstring;
  hourlyRate : number;
  billingTerms : jsstring;
  memo : jsstring;
  invoiceDirectory : jsstring
}.

(** [DEFAULT_SETTINGS] of main.ts *)
Definition DEFAULT_SETTINGS : InvoiceSettings :=
  {| companyName := [];
     companyAddress := [];
     companyLogo := [];
     hourlyRate := Num 100;
     billingTerms := js "Net 30";
     memo := [];
     invoiceDirectory := js "Invoices/YYYY/MM" |}.

(** A change of one field of the tab, with the text typed. *)
Inductive edit :=
| CompanyName (value : jsstring)
| CompanyAddress (value : jsstring)
| HourlyRate (value : jsstring)
| PaymentTerms (value : jsstring)
| Memo (value : jsstring)
| InvoiceDirectory (value : jsstring).

Section Tab.

Variable parseFloat : jsstring -> number.

(** The [onChange] handlers of [display]: the settings afterwards, and
    whether [saveSettings] was called. *)
Definition onChange (e : edit) (settings : InvoiceSettings)
  : InvoiceSettings * bool :=
  match e with
  | CompanyName value =>
      ({| companyName := value;
          companyAddress := companyAddress settings;
          companyLogo := companyLogo settings;
          hourlyRate := hourlyRate settings;
          billingTerms := billingTerms settings;
          memo := memo settings;
          invoiceDirectory := invoiceDirectory settings |}, true)
  | CompanyAddress value =>
      ({| companyName := companyName settings;
          companyAddress := value;
          companyLogo := companyLogo settings;
          hourlyRate := hourlyRate settings;
          billingTerms := billingTerms settings;
          memo := memo settings;
          invoiceDirectory := invoiceDirectory settings |}, true)
  | HourlyRate value =>
      let rate := parseFloat value in
      if negb (isNaN rate) && nonNegative rate
      then ({| companyName := companyName settings;
               companyAddress := companyAddress settings;
               companyLogo := companyLogo settings;
               hourlyRate := rate;
               billingTerms := billingTerms settings;
               memo := memo settings;
               invoiceDirectory := invoiceDirectory settings |}, true)
      else (settings, false)
  | PaymentTerms value =>
      ({| companyName := companyName settings;
          companyAddress := companyAddress settings;
          companyLogo := companyLogo settings;
          hourlyRate := hourlyRate settings;
          billingTerms := value;
          memo := memo settings;
          invoiceDirectory := invoiceDirectory settings |}, true)
  | Memo value =>
      ({| companyName := companyName settings;
          companyAddress := companyAddress settings;
          companyLogo := companyLogo settings;
          hourlyRate := hourlyRate settings;
          billingTerms := billingTerms settings;
          memo := value;
          invoiceDirectory := invoiceDirectory settings |}, true)
  | InvoiceDirectory value =>
      ({| companyName := companyName settings;
          companyAddress := companyAddress settings;
          companyLogo := companyLogo settings;
          hourlyRate := hourlyRate settings;
          billingTerms := billingTerms settings;
          memo := memo settings;
          invoiceDirectory :=
            match value with
            | [] => js "Invoices/YYYY/MM"
            | _ => value
            end |}, true)
  end.

(** The settings after a sequence of changes. *)
Definition afterEdits (edits : list edit) (settings : InvoiceSettings)
  : InvoiceSettings :=
  fold_left (fun settings e => fst (onChange e settings)) edits settings.

End Tab.

End Settings.

(* ================================================================== *)
(** * main.ts: the post-processor and the invoice button                *)
(* ================================================================== *)

Module Plugin.

Import Generator.

(** What the post-processor reads of a [.simple-time-tracker-bottom]
    container: the data of the invoice buttons it holds, and the table of
    its parent container, when there is a parent and it has a table. *)
Record Container := {
  invoiceButtons : list (list Main.Entry);
  parentTable : option (option Main.Table)
}.

(** An entry of the JSON text of the extractor, read back by
    [JSON.parse]. *)
Definition toRaw (e : Main.Entry) : Parser.RawEntry :=
  Parser.Raw (Some (Main.name e)) (Main.startTime e) (Main.endTime e) None.

(** An entry of the parser as the generator reads it; an undefined name
    is concatenated as the text "undefined". *)
Definition toInvoiceEntry (t : Parser.TimeEntry) : TimeEntry :=
  {| name := match Parser.name t with
             | Some n => n
             | None => js "undefined"
             end;
     startTime := Parser.startTime t;
     endTime := Parser.endTime t;
     level := Some (Parser.level t) |}.

Section Host.

Variable Date_getTime : jsstring -> option Z.
Variable toLocaleDateString_short : Z -> jsstring.
Variable toLocaleTimeString_12h : Z -> jsstring.
Variable toFixed2 : number -> jsstring.
Variable now : Clock.
Variable toLocaleDateString_now : jsstring.
Variable moment_format : jsstring -> jsstring.
Variable normalizePath : jsstring -> jsstring.
Variable autoTable_finalY : list (list jsstring) -> Q.
Variable jsPDF_load_raises : option jsstring.
Variable jsPDF_raises : list op -> option jsstring.
Variable adapter_exists : jsstring -> list event -> bool.
Variable createFolder_raises : jsstring -> list event -> option jsstring.
Variable createBinary_raises : jsstring -> list event -> option jsstring.
Variable openFile_raises : jsstring -> list event -> option jsstring.
Variable parseFloat : jsstring -> number.
Variable settings : InvoiceSettings.

(** The callback of the post-processor on one container: a container
    that holds an invoice button is left alone; otherwise the button is
    added when the parent has a table from which data is extracted. *)
Definition processContainer (c : Container) : Container :=
  match invoiceButtons c with
  | _ :: _ => c
  | [] =>
      match parentTable c with
      | Some (Some table) =>
          match Main.extractDataFromTable Date_getTime table with
          | Some jsonData =>
              {| invoiceButtons := invoiceButtons c ++ [jsonData];
                 parentTable := parentTable c |}
          | None => c
          end
      | _ => c
      end
  end.

(** The callback given to the dialog in [addInvoiceButton]. *)
Definition onSubmit (entries : list Parser.TimeEntry)
  (options : Modal.InvoiceOptions) : M unit :=
  tryCatch
    (generateInvoice Date_getTime toLocaleDateString_short
       toLocaleTimeString_12h toFixed2 now toLocaleDateString_now
       moment_format normalizePath autoTable_finalY jsPDF_load_raises
       jsPDF_raises adapter_exists createFolder_raises createBinary_raises
       openFile_raises settings
       (map toInvoiceEntry entries) (Some options) ;;;
     emit (ShowNotice (js "Invoice generated successfully!")))
    (fun message =>
       emit (ShowNotice (js "Error generating invoice: " ++ message))).

(** The click handler of the button made for [jsonData], with what the
    user then does in the dialog. *)
Definition onClick (jsonData : list Main.Entry)
  (actions : list Modal.action) : M unit :=
  tryCatch
    (match Parser.parse Date_getTime (Some (Some (map toRaw jsonData))) with
     | Throw message => throw message
     | Ok entries =>
         match entries with
         | [] =>
             emit (ShowNotice (js "No time entries found to generate invoice"))
         | _ =>
             match Modal.open parseFloat actions with
             | Some options => onSubmit entries options
             | None => ret tt
             end
         end
     end)
    (fun message =>
       emit (ShowNotice (js "Error generating invoice: " ++ message))).

End Host.

End Plugin.

(* ================================================================== *)
(** * A reference host for closed examples                              *)
(* ================================================================== *)

(** One instance of the runtime variables, used to evaluate the functions
    above on concrete inputs.  [toFixed2] rounds the exact rational half
    up, which is [Number.prototype.toFixed] on the values used here. *)

Module RefHost.

Definition toFixed2 (x : number) : jsstring :=
  match x with
  | Num q =>
      let n := Qfloor (Qabs q * 100 + (1 # 2))%Q in
      let digits := padStart0 3 (toStringZ n) in
      (if Qle_bool 0%Q q then [] else js "-")
      ++ firstn (length digits - 2) digits ++ js "." ++ skipn (length digits - 2) digits
  | NaN => js "NaN"
  | Infinity => js "Infinity"
  | NegInfinity => js "-Infinity"
  end.

(** Dates are shown by their time value, in seconds. *)
Definition toLocaleDateString_short (t : Z) : jsstring := toStringZ (t / 1000).
Definition toLocaleTimeString_12h (t : Z) : jsstring := js "UTC".
Definition toLocaleDateString_now : jsstring := js "11/3/2026".
Definition now : Generator.Clock :=
  {| Generator.getFullYear := 2026; Generator.getMonth := 10;
     Generator.getDate := 3 |}.

(** [moment().format(template)] at the date of [now], for the templates
    made of text in square brackets, the tokens YYYY, YY, MM, M, DD and D,
    and characters that are no letter, backslash or line terminator.  The
    other tokens of the library are not read by this instance, which keeps
    their letters. *)
Definition zeroFill (n : Z) (width : nat) : jsstring :=
  (if n <? 0 then js "-" else []) ++ padStart0 width (toStringZ (Z.abs n)).

Definition token (c : char) (run : nat) : option jsstring :=
  if N.eqb c 89 then
    match run with
    | 4%nat => Some (zeroFill (Generator.getFullYear now) 4)
    | 2%nat => Some (zeroFill (Z.rem (Generator.getFullYear now) 100) 2)
    | _ => None
    end
  else if N.eqb c 77 then
    match run with
    | 2%nat => Some (zeroFill (Generator.getMonth now + 1) 2)
    | 1%nat => Some (toStringZ (Generator.getMonth now + 1))
    | _ => None
    end
  else if N.eqb c 68 then
    match run with
    | 2%nat => Some (zeroFill (Generator.getDate now) 2)
    | 1%nat => Some (toStringZ (Generator.getDate now))
    | _ => None
    end
  else None.

Fixpoint runLength (c : char) (s : jsstring) : nat :=
  match s with
  | x :: r => if char_eqb x c then S (runLength c r) else 0
  | [] => 0
  end.

(** The text up to the next opening bracket, and the place of the last
    closing bracket in it. *)
Fixpoint untilOpen (s : jsstring) : jsstring :=
  match s with
  | c :: r => if N.eqb c 91 then [] else c :: untilOpen r
  | [] => []
  end.

Fixpoint lastClose (s : jsstring) : option nat :=
  match s with
  | c :: r =>
      match lastClose r with
      | Some i => Some (S i)
      | None => if N.eqb c 93 then Some 0%nat else None
      end
  | [] => None
  end.

Fixpoint formatFrom (fuel : nat) (s : jsstring) : jsstring :=
  match fuel with
  | O => []
  | S fuel =>
      match s with
      | [] => []
      | c :: r =>
          if N.eqb c 91 then
            match lastClose (untilOpen r) with
            | Some i => firstn i r ++ formatFrom fuel (skipn (S i) r)
            | None => c :: formatFrom fuel r
            end
          else
            let run := runLength c s in
            match token c run with
            | Some text => text ++ formatFrom fuel (skipn run s)
            | None => firstn run s ++ formatFrom fuel (skipn run s)
            end
      end
  end.

Definition moment_format (template : jsstring) : jsstring :=
  formatFrom (length template) template.

Definition normalizePath (path : jsstring) : jsstring := path.
Definition autoTable_finalY (body : list (list jsstring)) : Q :=
  (70 + 10 * (1 + Generator.qnat (length body)))%Q.
Definition adapter_exists (path : jsstring) (t : list Generator.event) : bool :=
  existsb (fun e => match e with
                    | Generator.CreateFolder p => str_eqb p path
                    | Generator.CreateBinary p _ => str_eqb p path
                    | _ => false
                    end) t.
Definition noRaise (path : jsstring) (t : list Generator.event)
  : option jsstring := None.

Definition settings : Generator.InvoiceSettings :=
  {| Generator.companyName := js "Acme";
     Generator.companyAddress := js "1 Main St";
     Generator.companyLogo := [];
     Generator.hourlyRate := 100%Q;
     Generator.billingTerms := js "Net 30";
     Generator.memo := [];
     Generator.invoiceDirectory := js "[Invoices]/YYYY/MM" |}.

(** [parseFloat]: leading white space, a sign, then [Infinity] or the
    longest decimal literal (digits, a fraction, an exponent); the value is
    the exact rational. *)
Fixpoint digitRun (s : jsstring) : jsstring * jsstring :=
  match s with
  | c :: r => if isDigit c then let (d, rest) := digitRun r in (c :: d, rest)
              else ([], s)
  | [] => ([], [])
  end.

Definition digitsValue (d : jsstring) : Z :=
  fold_left (fun acc c => 10 * acc + digitValue c) d 0.

Definition pow10 (e : Z) : Q :=
  if 0 <=? e then inject_Z (10 ^ e) else (/ inject_Z (10 ^ (- e)))%Q.

Definition exponent (s : jsstring) : Z :=
  match s with
  | e :: r =>
      if N.eqb e 101 || N.eqb e 69 then
        let (sign, r) :=
          match r with
          | c :: r' => if N.eqb c 45 then (-1, r')
                       else if N.eqb c 43 then (1, r') else (1, r)
          | [] => (1, r)
          end in
        match fst (digitRun r) with
        | [] => 0
        | d => sign * digitsValue d
        end
      else 0
  | [] => 0
  end.

Definition parseFloat (s : jsstring) : number :=
  let s := trimStart s in
  let (negative, s) :=
    match s with
    | c :: r => if N.eqb c 45 then (true, r)
                else if N.eqb c 43 then (false, r) else (false, s)
    | [] => (false, s)
    end in
  if startsWith (js "Infinity") s
  then (if negative then NegInfinity else Infinity)
  else
    let (int, s) := digitRun s in
    let (frac, s) :=
      match s with
      | c :: r => if N.eqb c 46 then digitRun r else ([], s)
      | [] => ([], s)
      end in
    match int, frac with
    | [], [] => NaN
    | _, _ =>
        let magnitude :=
          ((inject_Z (digitsValue int)
            + inject_Z (digitsValue frac)
              / inject_Z (10 ^ Z.of_nat (length frac)))
           * pow10 (exponent s))%Q in
        Num (if negative then - magnitude else magnitude)%Q
    end.

(** Sample inputs. *)
Definition sampleEntry : Generator.TimeEntry :=
  {| Generator.name := js "Design";
     Generator.startTime := Some (js "2023-06-15T09:00:00");
     Generator.endTime := Some (js "2023-06-15T11:30:00");
     Generator.level := Some 0%nat |}.

Definition initial (draws : nat -> Q) : Generator.State :=
  {| Generator.draws := draws; Generator.drawn := 0; Generator.trace := [] |}.

(** A flat-rate amount of zero, and one of 500. *)
Definition zeroFlatRate : option Modal.InvoiceOptions :=
  Some {| Modal.flatRateAmount := Some (Num 0) |}.
Definition flatRate500 : option Modal.InvoiceOptions :=
  Some {| Modal.flatRateAmount := Some (Num 500) |}.

(** A company name of 51 characters: 49 letters, a space and a letter. *)
Definition longCompanyName : jsstring := repeat 97%N 49 ++ js " b".

(** A vault that is empty at first: a path exists when a folder was
    created under it. *)
Definition created_exists (path : jsstring) (t : list Generator.event) : bool :=
  existsb (fun e => match e with
                    | Generator.CreateFolder p => str_eqb p path
                    | _ => false
                    end) t.

(** jsPDF raising nothing, and a vault that refuses every file. *)
Definition jsPDF_works (ops : list Generator.op) : option jsstring := None.
Definition vault_refuses (path : jsstring) (t : list Generator.event)
  : option jsstring := Some (js "File already exists.").

(** jsPDF failing on every document. *)
Definition jsPDF_fails (ops : list Generator.op) : option jsstring :=
  Some (js "Invalid argument passed to jsPDF.text").

End RefHost.

(* ================================================================== *)
(** * Vocabulary of the specification                                   *)
(* ================================================================== *)

(** The notions in which the properties below are stated. *)

Module Spec.

(** ** Digits and dates *)

Definition allDigits (s : jsstring) : bool := forallb isDigit s.

Definition digits4 (s : jsstring) : bool :=
  (length s =? 4)%nat && allDigits s.

Definition digits2 (s : jsstring) : bool :=
  (length s =? 2)%nat && allDigits s.

Definition digits1to4 (s : jsstring) : bool :=
  (1 <=? length s)%nat && (length s <=? 4)%nat && allDigits s.

(** The value of two digits. *)
Definition twoDigits (a b : char) : Z := 10 * digitValue a + digitValue b.

(** The year of a two-digit year: 2000 + yy below 50, 1900 + yy from 50. *)
Definition century (yy : Z) : Z :=
  if yy <? 50 then yy + 2000 else yy + 1900.

(** The canonical string of the digits read: century, year, month, day,
    then the time token unchanged. *)
Definition canonical (y1 y2 m1 m2 d1 d2 : char) (time : jsstring) : jsstring :=
  (if twoDigits y1 y2 <? 50 then js "20" else js "19")
  ++ [y1; y2] ++ js "-" ++ [m1; m2] ++ js "-" ++ [d1; d2] ++ js "T" ++ time.

(** The inputs the normalizer accepts, with the string it returns: the form
    [YY-MM-DD HH:MM:SS], the year first, a month in 1..12 and a day in
    1..31, and a canonical string that [Date] takes for a valid date. *)
Definition accepts (Date_getTime : jsstring -> option Z)
  (input iso : jsstring) : Prop :=
  exists y1 y2 m1 m2 d1 d2 time,
    input = [y1; y2; HYPHEN; m1; m2; HYPHEN; d1; d2; SPACE] ++ time
    /\ forallb isDigit [y1; y2; m1; m2; d1; d2] = true
    /\ Main.test_timePart time = true
    /\ 1 <= twoDigits m1 m2 <= 12
    /\ 1 <= twoDigits d1 d2 <= 31
    /\ iso = canonical y1 y2 m1 m2 d1 d2 time
    /\ Date_getTime iso <> None.

(** The form the normalizer reads, with the string it makes of it: the
    form [YY-MM-DD HH:MM:SS], the year first, a month in 1..12 and a day
    in 1..31. *)
Definition readsAs (input iso : jsstring) : Prop :=
  exists y1 y2 m1 m2 d1 d2 time,
    input = [y1; y2; HYPHEN; m1; m2; HYPHEN; d1; d2; SPACE] ++ time
    /\ forallb isDigit [y1; y2; m1; m2; d1; d2] = true
    /\ Main.test_timePart time = true
    /\ 1 <= twoDigits m1 m2 <= 12
    /\ 1 <= twoDigits d1 d2 <= 31
    /\ iso = canonical y1 y2 m1 m2 d1 d2 time.

(** An instant of the calendar: a day that its month has in that year, and
    a time of day up to 23:59:59. *)
Definition realInstant (year month day : Z) (time : jsstring) : bool :=
  (1 <=? month) && (month <=? 12)
  && (1 <=? day) && (day <=? RefDate.daysInMonth year month)
  && match time with
     | [H1; H2; _; M1; M2; _; S1; S2] =>
         (twoDigits H1 H2 <=? 23) && (twoDigits M1 M2 <=? 59)
         && (twoDigits S1 S2 <=? 59)
     | _ => false
     end.

(** What is required of [Date]: it takes the canonical string of every
    instant of the calendar for a valid date. *)
Definition readsRealInstants (Date_getTime : jsstring -> option Z) : Prop :=
  forall y1 y2 m1 m2 d1 d2 time,
    forallb isDigit [y1; y2; m1; m2; d1; d2] = true ->
    Main.test_timePart time = true ->
    realInstant (century (twoDigits y1 y2)) (twoDigits m1 m2)
                (twoDigits d1 d2) time = true ->
    Date_getTime (canonical y1 y2 m1 m2 d1 d2 time) <> None.

(** [YYYY-MM-DD] *)
Definition isDateStamp (s : jsstring) : bool :=
  match s with
  | [y1; y2; y3; y4; h; m1; m2; h'; d1; d2] =>
      forallb isDigit [y1; y2; y3; y4; m1; m2; d1; d2]
      && char_eqb h HYPHEN && char_eqb h' HYPHEN
  | _ => false
  end.

(** ** Rows and entry trees *)

(** A row qualifies when it has at least four cells. *)
Definition qualifies (cells : Main.Row) : bool := (4 <=? length cells)%nat.

(** The sub-entries of an entry, none when the field is missing. *)
Definition children (e : Parser.RawEntry) : list Parser.RawEntry :=
  match Parser.rawSubEntries e with
  | Some l => l
  | None => []
  end.

(** Number of entries of a tree, and of a forest. *)
Fixpoint size (e : Parser.RawEntry) : nat :=
  match e with
  | Parser.Raw _ _ _ subs =>
      S (match subs with
         | Some l => list_sum (map size l)
         | None => 0
         end)
  end.

Definition forestSize (l : list Parser.RawEntry) : nat := list_sum (map size l).

(** The names of a forest with their depths, parents before children and
    siblings in input order. *)
Fixpoint preorder (d : nat) (e : Parser.RawEntry)
  : list (option jsstring * nat) :=
  match e with
  | Parser.Raw n _ _ subs =>
      (n, d) :: match subs with
                | Some l => flat_map (preorder (S d)) l
                | None => []
                end
  end.

(** The output entry of one input entry at depth [d]. *)
Definition annotate (Date_getTime : jsstring -> option Z) (d : nat)
  (e : Parser.RawEntry) : Parser.TimeEntry :=
  match e with
  | Parser.Raw n s t _ =>
      {| Parser.name := n; Parser.startTime := s; Parser.endTime := t;
         Parser.level := d;
         Parser.duration := Parser.calculateDuration Date_getTime s t |}
  end.

(** ** Durations *)

(** The time value of an endpoint: none when the endpoint is null or does
    not parse as a date. *)
Definition parsed (Date_getTime : jsstring -> option Z) (t : option jsstring)
  : option Z :=
  match t with
  | Some s => Date_getTime s
  | None => None
  end.

Definition hoursBetween (start end_ : Z) : Q :=
  (inject_Z (end_ - start) / 3600000)%Q.

Definition clampHours (h : Q) : Q := Qmax 0 (Qmin h 8760).

Definition sumQ (l : list Q) : Q := fold_right Qplus 0%Q l.

(** ** Invoice numbers and file names *)

(** The state after one call of [Math.random()]. *)
Definition afterDraw (s : Generator.State) : Generator.State :=
  {| Generator.draws := Generator.draws s;
     Generator.drawn := S (Generator.drawn s);
     Generator.trace := Generator.trace s |}.

Fixpoint noDoubleHyphen (s : jsstring) : bool :=
  match s with
  | c :: r =>
      match r with
      | c' :: _ => negb (Generator.isHyphen c && Generator.isHyphen c')
      | [] => true
      end && noDoubleHyphen r
  | [] => true
  end.

Definition startsWithHyphen (s : jsstring) : bool :=
  match s with
  | c :: _ => Generator.isHyphen c
  | [] => false
  end.

Fixpoint endsWithHyphen (s : jsstring) : bool :=
  match s with
  | [] => false
  | [c] => Generator.isHyphen c
  | _ :: r => endsWithHyphen r
  end.

(** Neither unsafe for a file name nor white space. *)
Definition isPlain (c : char) : bool :=
  negb (Generator.isUnsafe c) && negb (isWhiteSpace c).

(** [YYYY-MM-DDTHH:MM:SS] *)
Definition isIsoDateTime (s : jsstring) : bool :=
  match s with
  | [y1; y2; y3; y4; h; m1; m2; h'; d1; d2; t; H1; H2; c; M1; M2; c'; S1; S2] =>
      forallb isDigit
        [y1; y2; y3; y4; m1; m2; d1; d2; H1; H2; M1; M2; S1; S2]
      && char_eqb h HYPHEN && char_eqb h' HYPHEN && char_eqb t 84%N
      && char_eqb c COLON && char_eqb c' COLON
  | _ => false
  end.

(** An endpoint the extractor may store: null, or a string of the form
    [YYYY-MM-DDTHH:MM:SS] that [Date] takes for a valid date. *)
Definition canonicalOrNull (Date_getTime : jsstring -> option Z)
  (t : option jsstring) : Prop :=
  match t with
  | None => True
  | Some iso => isIsoDateTime iso = true /\ Date_getTime iso <> None
  end.

(** The entries the extractor may produce. *)
Definition wellFormedEntry (Date_getTime : jsstring -> option Z)
  (e : Main.Entry) : Prop :=
  0 <= Main.level e <= 10
  /\ (length (Main.name e) <= 500)%nat
  /\ forallb (fun c => negb (Main.isControl c) && negb (Main.isAngle c))
             (Main.name e) = true
  /\ canonicalOrNull Date_getTime (Main.startTime e)
  /\ canonicalOrNull Date_getTime (Main.endTime e).

(** An entry of the parser [k] levels deeper. *)
Definition deepen (k : nat) (t : Parser.TimeEntry) : Parser.TimeEntry :=
  {| Parser.name := Parser.name t;
     Parser.startTime := Parser.startTime t;
     Parser.endTime := Parser.endTime t;
     Parser.level := Parser.level t + k;
     Parser.duration := Parser.duration t |}.

(** The hours a duration of the parser counts for in a total: itself, and
    0 for [NaN]. *)
Definition hoursOrZero (x : number) : Q :=
  match x with
  | Num q => q
  | _ => 0%Q
  end.

(** Settings the tab may leave: an hourly rate that is a number and not
    negative, and an invoice directory that is not empty. *)
Definition validSettings (settings : Settings.InvoiceSettings) : Prop :=
  isNaN (Settings.hourlyRate settings) = false
  /\ nonNegative (Settings.hourlyRate settings) = true
  /\ Settings.invoiceDirectory settings <> [].

(** An amount the dialog may submit: none, or a number greater than 0. *)
Definition validOptions (options : Modal.InvoiceOptions) : Prop :=
  match Modal.flatRateAmount options with
  | None => True
  | Some amount => isNaN amount = false /\ positive amount = true
  end.

(** The state with more effects performed. *)
Definition withEvents (s : Generator.State) (events : list Generator.event)
  : Generator.State :=
  {| Generator.draws := Generator.draws s;
     Generator.drawn := Generator.drawn s;
     Generator.trace := Generator.trace s ++ events |}.

(** What a directory operation may do: create folders, and raise only an
    error that does not say "already exists". *)
Definition foldersOnly (m : Generator.M unit) : Prop :=
  forall s,
    exists created,
      snd (m s) = withEvents s (map Generator.CreateFolder created)
      /\ match fst (m s) with
         | Ok _ => True
         | Throw message => includes (js "already exists") message = false
         end.

(** An extracted entry as it reaches the generator. *)
Definition invoiceEntryOf (e : Main.Entry) : Generator.TimeEntry :=
  {| Generator.name := Main.name e;
     Generator.startTime := Main.startTime e;
     Generator.endTime := Main.endTime e;
     Generator.level := Some 0%nat |}.

(** The path of the first [k] of [parts] after [done], joined by slashes,
    and the first [n] such paths. *)
Definition prefixPath (normalizePath : jsstring -> jsstring)
  (done parts : list jsstring) (k : nat) : jsstring :=
  normalizePath (join (js "/") (done ++ firstn k parts)).

Definition prefixPaths (normalizePath : jsstring -> jsstring)
  (done parts : list jsstring) (n : nat) : list jsstring :=
  map (prefixPath normalizePath done parts) (seq 1 n).

Definition nonEmpty (part : jsstring) : bool := (0 <? length part)%nat.

End Spec.

(* ================================================================== *)
(** * Properties of the string and number helpers                       *)
(* ================================================================== *)

Module JSFacts.

Import Spec.

(** A property checked on every integer of a range holds on the range. *)
Lemma forall_range (P : Z -> bool) (lo hi : Z) :
  forallb (fun k => P (lo + Z.of_nat k)) (seq 0 (Z.to_nat (hi - lo + 1)))
  = true ->
  forall z, lo <= z <= hi -> P z = true.
Proof.
  intros H z Hz. rewrite forallb_forall in H.
  specialize (H (Z.to_nat (z - lo))).
  rewrite Z2Nat.id in H by lia.
  replace (lo + (z - lo)) with z in H by lia.
  apply H, in_seq. lia.
Qed.

Lemma toStringZ_digits4 (z : Z) :
  1000 <= z <= 9999 -> digits4 (toStringZ z) = true.
Proof.
  intros Hz.
  apply (forall_range (fun z => digits4 (toStringZ z)) 1000 9999);
    [vm_compute; reflexivity|lia].
Qed.

Lemma toStringZ_digits1to4 (z : Z) :
  0 <= z <= 9999 -> digits1to4 (toStringZ z) = true.
Proof.
  intros Hz.
  apply (forall_range (fun z => digits1to4 (toStringZ z)) 0 9999);
    [vm_compute; reflexivity|lia].
Qed.

Lemma padStart0_digits2 (z : Z) :
  0 <= z <= 99 -> digits2 (padStart0 2 (toStringZ z)) = true.
Proof.
  intros Hz.
  apply (forall_range (fun z => digits2 (padStart0 2 (toStringZ z))) 0 99);
    [vm_compute; reflexivity|lia].
Qed.

Lemma digits4_inv (s : jsstring) :
  digits4 s = true ->
  exists a b c d,
    s = [a; b; c; d]
    /\ isDigit a = true /\ isDigit b = true
    /\ isDigit c = true /\ isDigit d = true.
Proof.
  unfold digits4, allDigits.
  destruct s as [|a [|b [|c [|d [|e s]]]]];
    cbn [length Nat.eqb andb forallb]; try discriminate.
  rewrite !andb_true_iff. intros H.
  exists a, b, c, d. tauto.
Qed.

Lemma digits2_inv (s : jsstring) :
  digits2 s = true ->
  exists a b, s = [a; b] /\ isDigit a = true /\ isDigit b = true.
Proof.
  unfold digits2, allDigits.
  destruct s as [|a [|b [|c s]]];
    cbn [length Nat.eqb andb forallb]; try discriminate.
  rewrite !andb_true_iff. intros H.
  exists a, b. tauto.
Qed.

(** The ten digits, for case analysis. *)
Lemma isDigit_cases (c : char) :
  isDigit c = true ->
  c = 48%N \/ c = 49%N \/ c = 50%N \/ c = 51%N \/ c = 52%N
  \/ c = 53%N \/ c = 54%N \/ c = 55%N \/ c = 56%N \/ c = 57%N.
Proof.
  unfold isDigit, between. intros H.
  apply andb_prop in H as [H1 H2].
  apply N.leb_le in H1, H2. lia.
Qed.

Lemma digit_not_space (c : char) :
  isDigit c = true -> char_eqb c SPACE = false.
Proof.
  intros H. destruct (isDigit_cases c H) as [-> | [-> | [-> | [-> | [-> |
    [-> | [-> | [-> | [-> | ->]]]]]]]]]; reflexivity.
Qed.

Lemma digit_not_hyphen (c : char) :
  isDigit c = true -> char_eqb c HYPHEN = false.
Proof.
  intros H. destruct (isDigit_cases c H) as [-> | [-> | [-> | [-> | [-> |
    [-> | [-> | [-> | [-> | ->]]]]]]]]]; reflexivity.
Qed.

Lemma digit_not_whitespace (c : char) :
  isDigit c = true -> isWhiteSpace c = false.
Proof.
  intros H. destruct (isDigit_cases c H) as [-> | [-> | [-> | [-> | [-> |
    [-> | [-> | [-> | [-> | ->]]]]]]]]]; reflexivity.
Qed.

Lemma twoDigits_range (a b : char) :
  isDigit a = true -> isDigit b = true -> 0 <= twoDigits a b <= 99.
Proof.
  intros Ha Hb.
  destruct (isDigit_cases a Ha) as [-> | [-> | [-> | [-> | [-> |
    [-> | [-> | [-> | [-> | ->]]]]]]]]];
  destruct (isDigit_cases b Hb) as [-> | [-> | [-> | [-> | [-> |
    [-> | [-> | [-> | [-> | ->]]]]]]]]]; vm_compute; split; discriminate.
Qed.

Lemma parseInt_twoDigits (a b : char) :
  isDigit a = true -> isDigit b = true ->
  parseInt [a; b] = Some (twoDigits a b).
Proof.
  intros Ha Hb.
  destruct (isDigit_cases a Ha) as [-> | [-> | [-> | [-> | [-> |
    [-> | [-> | [-> | [-> | ->]]]]]]]]];
  destruct (isDigit_cases b Hb) as [-> | [-> | [-> | [-> | [-> |
    [-> | [-> | [-> | [-> | ->]]]]]]]]]; reflexivity.
Qed.

Lemma padStart0_twoDigits (a b : char) :
  isDigit a = true -> isDigit b = true ->
  padStart0 2 (toStringZ (twoDigits a b)) = [a; b].
Proof.
  intros Ha Hb.
  destruct (isDigit_cases a Ha) as [-> | [-> | [-> | [-> | [-> |
    [-> | [-> | [-> | [-> | ->]]]]]]]]];
  destruct (isDigit_cases b Hb) as [-> | [-> | [-> | [-> | [-> |
    [-> | [-> | [-> | [-> | ->]]]]]]]]]; reflexivity.
Qed.

Lemma toStringZ_century (a b : char) :
  isDigit a = true -> isDigit b = true ->
  toStringZ (century (twoDigits a b))
  = (if twoDigits a b <? 50 then js "20" else js "19") ++ [a; b].
Proof.
  intros Ha Hb.
  destruct (isDigit_cases a Ha) as [-> | [-> | [-> | [-> | [-> |
    [-> | [-> | [-> | [-> | ->]]]]]]]]];
  destruct (isDigit_cases b Hb) as [-> | [-> | [-> | [-> | [-> |
    [-> | [-> | [-> | [-> | ->]]]]]]]]]; reflexivity.
Qed.

(** Splitting into exactly two pieces cuts at one separator. *)
Lemma split_nonempty (sep : char) (s : jsstring) : split sep s <> [].
Proof.
  destruct s as [|c r]; simpl; [discriminate|].
  destruct (char_eqb c sep); [discriminate|].
  destruct (split sep r); discriminate.
Qed.

Lemma split_one (sep : char) (s a : jsstring) :
  split sep s = [a] -> s = a /\ forallb (fun c => negb (char_eqb c sep)) a = true.
Proof.
  revert a. induction s as [|c r IH]; intros a; simpl.
  - intros H. injection H as <-. auto.
  - destruct (char_eqb c sep) eqn:Hc.
    + intros H. injection H as _ H. destruct (split_nonempty _ _ H).
    + destruct (split sep r) as [|w ws] eqn:Hr.
      * destruct (split_nonempty _ _ Hr).
      * intros H. injection H as <- ->.
        destruct (IH w eq_refl) as [-> Hw].
        simpl. rewrite Hc, Hw. auto.
Qed.

Lemma split_two (sep : char) (s a b : jsstring) :
  split sep s = [a; b] ->
  s = a ++ sep :: b
  /\ forallb (fun c => negb (char_eqb c sep)) a = true
  /\ forallb (fun c => negb (char_eqb c sep)) b = true.
Proof.
  revert a. induction s as [|c r IH]; intros a; simpl.
  - discriminate.
  - destruct (char_eqb c sep) eqn:Hc.
    + intros H. injection H as <- H.
      apply N.eqb_eq in Hc. subst c.
      destruct (split_one _ _ _ H) as [-> Hb]. auto.
    + destruct (split sep r) as [|w ws] eqn:Hr.
      * discriminate.
      * intros H. injection H as <- ->.
        destruct (IH w eq_refl) as (-> & Hw & Hb).
        simpl. rewrite Hc, Hw. auto.
Qed.

End JSFacts.

(* ================================================================== *)
(** * Properties of the date/time normalizer                            *)
(* ================================================================== *)

Module NormalizerFacts.

Import Main Spec JSFacts.

Lemma test_datePart_inv (s : jsstring) :
  test_datePart s = true ->
  exists y1 y2 m1 m2 d1 d2,
    s = [y1; y2; HYPHEN; m1; m2; HYPHEN; d1; d2]
    /\ forallb isDigit [y1; y2; m1; m2; d1; d2] = true.
Proof.
  destruct s as [|a [|b [|h [|c [|d [|h' [|e [|f [|x s]]]]]]]]];
    try discriminate.
  unfold test_datePart. rewrite !andb_true_iff.
  intros (((((((Ha & Hb) & Hh) & Hc) & Hd) & Hh') & He) & Hf).
  apply N.eqb_eq in Hh, Hh'. subst h h'.
  exists a, b, c, d, e, f. split; [reflexivity|].
  cbn [forallb]. rewrite Ha, Hb, Hc, Hd, He, Hf. reflexivity.
Qed.

Lemma test_timePart_inv (s : jsstring) :
  test_timePart s = true ->
  exists a b c d e f,
    s = [a; b; COLON; c; d; COLON; e; f]
    /\ forallb isDigit [a; b; c; d; e; f] = true.
Proof.
  destruct s as [|a [|b [|h [|c [|d [|h' [|e [|f [|x s]]]]]]]]];
    try discriminate.
  unfold test_timePart. rewrite !andb_true_iff.
  intros (((((((Ha & Hb) & Hh) & Hc) & Hd) & Hh') & He) & Hf).
  apply N.eqb_eq in Hh, Hh'. subst h h'.
  exists a, b, c, d, e, f. split; [reflexivity|].
  cbn [forallb]. rewrite Ha, Hb, Hc, Hd, He, Hf. reflexivity.
Qed.

Lemma split_datePart (y1 y2 m1 m2 d1 d2 : char) :
  forallb isDigit [y1; y2; m1; m2; d1; d2] = true ->
  split HYPHEN [y1; y2; HYPHEN; m1; m2; HYPHEN; d1; d2]
  = [[y1; y2]; [m1; m2]; [d1; d2]].
Proof.
  cbn [forallb]. rewrite !andb_true_iff.
  intros (H1 & H2 & H3 & H4 & H5 & H6 & _).
  cbn [split].
  rewrite (digit_not_hyphen _ H1), (digit_not_hyphen _ H2),
    (digit_not_hyphen _ H3), (digit_not_hyphen _ H4),
    (digit_not_hyphen _ H5), (digit_not_hyphen _ H6).
  reflexivity.
Qed.

Lemma daysInMonth_le_31 (y m : Z) : RefDate.daysInMonth y m <= 31.
Proof.
  unfold RefDate.daysInMonth.
  destruct (m =? 2); [destruct (RefDate.leap y); lia|].
  destruct ((m =? 4) || (m =? 6) || (m =? 9) || (m =? 11)); lia.
Qed.

Section Facts.

Variable Date_getTime : jsstring -> option Z.

Let parseTimeTrackerDate := parseTimeTrackerDate Date_getTime.

(** A string the normalizer returns was accepted by [Date] and is not
    empty. *)
Lemma parse_accepted (d : option jsstring) (iso : jsstring) :
  parseTimeTrackerDate d = Some iso ->
  (exists t, Date_getTime iso = Some t) /\ iso <> [].
Proof.
  unfold parseTimeTrackerDate, Main.parseTimeTrackerDate.
  intros H.
  repeat match type of H with
         | context [match ?x with _ => _ end] =>
             destruct x eqn:?; try discriminate H
         end.
  all: injection H as <-; split; [eauto|].
  all: destruct (toString _); discriminate.
Qed.

(** The body of the normalizer once the two tokens have the right form. *)
Lemma parse_wellformed (y1 y2 m1 m2 d1 d2 : char) (time : jsstring) :
  forallb isDigit [y1; y2; m1; m2; d1; d2] = true ->
  test_timePart time = true ->
  parseTimeTrackerDate
    (Some ([y1; y2; HYPHEN; m1; m2; HYPHEN; d1; d2; SPACE] ++ time))
  = if (twoDigits m1 m2 <? 1) || (12 <? twoDigits m1 m2)
       || (twoDigits d1 d2 <? 1) || (31 <? twoDigits d1 d2)
    then None
    else match Date_getTime (canonical y1 y2 m1 m2 d1 d2 time) with
         | Some _ => Some (canonical y1 y2 m1 m2 d1 d2 time)
         | None => None
         end.
Proof.
  intros Hd Ht.
  pose proof Hd as Hd'. cbn [forallb] in Hd'. rewrite !andb_true_iff in Hd'.
  destruct Hd' as (H1 & H2 & H3 & H4 & H5 & H6 & _).
  destruct (test_timePart_inv _ Ht) as (a & b & c & d & e & f & -> & Hf).
  pose proof Hf as Hf'. cbn [forallb] in Hf'. rewrite !andb_true_iff in Hf'.
  destruct Hf' as (T1 & T2 & T3 & T4 & T5 & T6 & _).
  unfold parseTimeTrackerDate, Main.parseTimeTrackerDate.
  assert (Htrim : isEmpty (trim
            ([y1; y2; HYPHEN; m1; m2; HYPHEN; d1; d2; SPACE]
             ++ [a; b; COLON; c; d; COLON; e; f])) = false).
  { unfold trim, trimEnd. cbn [app trimStart].
    rewrite (digit_not_whitespace _ H1).
    cbn [rev app trimStart].
    rewrite (digit_not_whitespace _ T6). reflexivity. }
  rewrite Htrim. cbn [isEmpty app orb].
  assert (Hsplit : split SPACE
            [y1; y2; HYPHEN; m1; m2; HYPHEN; d1; d2; SPACE;
             a; b; COLON; c; d; COLON; e; f]
          = [[y1; y2; HYPHEN; m1; m2; HYPHEN; d1; d2];
             [a; b; COLON; c; d; COLON; e; f]]).
  { cbn [split].
    rewrite (digit_not_space _ H1), (digit_not_space _ H2),
      (digit_not_space _ H3), (digit_not_space _ H4),
      (digit_not_space _ H5), (digit_not_space _ H6),
      (digit_not_space _ T1), (digit_not_space _ T2),
      (digit_not_space _ T3), (digit_not_space _ T4),
      (digit_not_space _ T5), (digit_not_space _ T6).
    reflexivity. }
  rewrite Hsplit.
  assert (Hdate : test_datePart [y1; y2; HYPHEN; m1; m2; HYPHEN; d1; d2] = true).
  { unfold test_datePart. rewrite H1, H2, H3, H4, H5, H6. reflexivity. }
  rewrite Hdate, Ht. cbn [negb orb].
  rewrite (split_datePart _ _ _ _ _ _ Hd).
  rewrite !parseInt_twoDigits by assumption.
  cbn [lt gt].
  destruct ((twoDigits m1 m2 <? 1) || (12 <? twoDigits m1 m2)
            || (twoDigits d1 d2 <? 1) || (31 <? twoDigits d1 d2));
    [reflexivity|].
  pose proof (twoDigits_range _ _ H1 H2) as Hy.
  assert (Hyear : (if twoDigits y1 y2 <? 50
                   then plus (Some (twoDigits y1 y2)) 2000
                   else plus (Some (twoDigits y1 y2)) 1900)
                  = Some (century (twoDigits y1 y2))).
  { unfold century. destruct (twoDigits y1 y2 <? 50); reflexivity. }
  rewrite Hyear. cbn [lt gt].
  assert (Hrange : (century (twoDigits y1 y2) <? 1900)
                   || (2100 <? century (twoDigits y1 y2)) = false).
  { unfold century. destruct (twoDigits y1 y2 <? 50) eqn:E.
    - apply Z.ltb_lt in E. apply orb_false_iff. split; apply Z.ltb_ge; lia.
    - apply Z.ltb_ge in E. apply orb_false_iff. split; apply Z.ltb_ge; lia. }
  rewrite Hrange.
  cbn [toString].
  rewrite toStringZ_century by assumption.
  rewrite !padStart0_twoDigits by assumption.
  unfold canonical. rewrite <- !app_assoc. reflexivity.
Qed.

Lemma parse_inv (s iso : jsstring) :
  parseTimeTrackerDate (Some s) = Some iso -> accepts Date_getTime s iso.
Proof.
  intros H. pose proof H as H0.
  unfold parseTimeTrackerDate, Main.parseTimeTrackerDate in H.
  destruct (isEmpty s || isEmpty (trim s)); [discriminate|].
  destruct (split SPACE s) as [|dp [|tp [|x l]]] eqn:Hsplit; try discriminate.
  destruct (negb (test_datePart dp) || negb (test_timePart tp)) eqn:Ht;
    [discriminate|].
  clear H. apply orb_false_iff in Ht as [Hdp Htp].
  apply negb_false_iff in Hdp, Htp.
  destruct (split_two _ _ _ _ Hsplit) as (-> & _ & _).
  destruct (test_datePart_inv _ Hdp)
    as (y1 & y2 & m1 & m2 & d1 & d2 & -> & Hd).
  change ([y1; y2; HYPHEN; m1; m2; HYPHEN; d1; d2] ++ SPACE :: tp)
    with ([y1; y2; HYPHEN; m1; m2; HYPHEN; d1; d2; SPACE] ++ tp) in *.
  pose proof (eq_trans (eq_sym (parse_wellformed _ _ _ _ _ _ _ Hd Htp)) H0)
    as H1.
  clear H0.
  destruct ((twoDigits m1 m2 <? 1) || (12 <? twoDigits m1 m2)
            || (twoDigits d1 d2 <? 1) || (31 <? twoDigits d1 d2)) eqn:Hr;
    [discriminate|].
  rewrite !orb_false_iff, !Z.ltb_ge in Hr.
  destruct Hr as (((Hm1 & Hm2) & Hd1) & Hd2).
  destruct (Date_getTime (canonical y1 y2 m1 m2 d1 d2 tp)) eqn:HD;
    [|discriminate].
  injection H1 as <-.
  exists y1, y2, m1, m2, d1, d2, tp.
  repeat split; try assumption.
  rewrite HD. discriminate.
Qed.

Lemma parse_complete (s iso : jsstring) :
  accepts Date_getTime s iso -> parseTimeTrackerDate (Some s) = Some iso.
Proof.
  intros (y1 & y2 & m1 & m2 & d1 & d2 & time
          & -> & Hd & Ht & Hm & Hday & -> & HD).
  refine (eq_trans (parse_wellformed _ _ _ _ _ _ _ Hd Ht) _).
  replace ((twoDigits m1 m2 <? 1) || (12 <? twoDigits m1 m2)
           || (twoDigits d1 d2 <? 1) || (31 <? twoDigits d1 d2))
    with false.
  - destruct (Date_getTime (canonical y1 y2 m1 m2 d1 d2 time));
      [reflexivity|contradiction].
  - symmetry. rewrite !orb_false_iff, !Z.ltb_ge. lia.
Qed.

(** C1, as the code has it, for a [Date] that reads every instant of the
    calendar.  The normalizer is a total function to either null or a
    string.  It returns null for an undefined input, for an input that
    trims to the empty string, for an input that does not split on the
    space into exactly two tokens, when a token does not match its
    pattern, and for a month outside 1..12 or a day outside 1..31, the
    date token being read as [YY-MM-DD], the two-digit year first.  A
    string it returns comes from an input of that form and is its
    canonical string: "20" before a year below 50 and "19" before a year
    from 50, so that the year lies in 1950..2049, then the year, month and
    day digits in this order separated by hyphens, "T", and the time
    token.  For an input of that form that names an instant of the
    calendar it returns this string. *)
Theorem normalizer_reads_year_first :
  readsRealInstants Date_getTime ->
  parseTimeTrackerDate None = None
  /\ (forall s, trim s = [] -> parseTimeTrackerDate (Some s) = None)
  /\ (forall s,
         length (split SPACE s) <> 2%nat ->
         parseTimeTrackerDate (Some s) = None)
  /\ (forall s datePart timePart,
         split SPACE s = [datePart; timePart] ->
         test_datePart datePart && test_timePart timePart = false ->
         parseTimeTrackerDate (Some s) = None)
  /\ (forall y1 y2 m1 m2 d1 d2 time,
         forallb isDigit [y1; y2; m1; m2; d1; d2] = true ->
         test_timePart time = true ->
         ~ (1 <= twoDigits m1 m2 <= 12 /\ 1 <= twoDigits d1 d2 <= 31) ->
         parseTimeTrackerDate
           (Some ([y1; y2; HYPHEN; m1; m2; HYPHEN; d1; d2; SPACE] ++ time))
         = None)
  /\ (forall s iso,
         parseTimeTrackerDate (Some s) = Some iso ->
         readsAs s iso
         /\ exists year,
              1950 <= year <= 2049 /\ firstn 4 iso = toStringZ year)
  /\ (forall y1 y2 m1 m2 d1 d2 time,
         forallb isDigit [y1; y2; m1; m2; d1; d2] = true ->
         test_timePart time = true ->
         realInstant (century (twoDigits y1 y2)) (twoDigits m1 m2)
                     (twoDigits d1 d2) time = true ->
         parseTimeTrackerDate
           (Some ([y1; y2; HYPHEN; m1; m2; HYPHEN; d1; d2; SPACE] ++ time))
         = Some (canonical y1 y2 m1 m2 d1 d2 time)).
Proof.
  intros Hdate.
  split; [reflexivity|].
  split.
  { intros s Hs. unfold parseTimeTrackerDate, Main.parseTimeTrackerDate.
    rewrite Hs. rewrite orb_true_r. reflexivity. }
  split.
  { intros s Hs. unfold parseTimeTrackerDate, Main.parseTimeTrackerDate.
    destruct (isEmpty s || isEmpty (trim s)); [reflexivity|].
    destruct (split SPACE s) as [|dp [|tp [|x l]]]; try reflexivity.
    contradiction Hs. reflexivity. }
  split.
  { intros s dp tp Hs Ht.
    unfold parseTimeTrackerDate, Main.parseTimeTrackerDate.
    destruct (isEmpty s || isEmpty (trim s)); [reflexivity|].
    rewrite Hs.
    apply andb_false_iff in Ht as [Ht|Ht]; rewrite Ht; simpl;
      rewrite ?orb_true_r; reflexivity. }
  split.
  { intros y1 y2 m1 m2 d1 d2 time Hd Ht Hout.
    refine (eq_trans (parse_wellformed _ _ _ _ _ _ _ Hd Ht) _).
    destruct ((twoDigits m1 m2 <? 1) || (12 <? twoDigits m1 m2)
              || (twoDigits d1 d2 <? 1) || (31 <? twoDigits d1 d2)) eqn:Hr;
      [reflexivity|].
    exfalso. apply Hout.
    rewrite !orb_false_iff, !Z.ltb_ge in Hr. lia. }
  split.
  { intros s iso H.
    destruct (parse_inv _ _ H)
      as (y1 & y2 & m1 & m2 & d1 & d2 & time
          & Hs & Hd & Ht & Hm & Hday & Hiso & _).
    split.
    - exists y1, y2, m1, m2, d1, d2, time.
      exact (conj Hs (conj Hd (conj Ht (conj Hm (conj Hday Hiso))))).
    - subst iso. pose proof Hd as Hd'. cbn [forallb] in Hd'.
      rewrite !andb_true_iff in Hd'. destruct Hd' as (H1 & H2 & _).
      pose proof (twoDigits_range _ _ H1 H2) as Hy.
      exists (century (twoDigits y1 y2)). split.
      + unfold century. destruct (twoDigits y1 y2 <? 50) eqn:E;
          [apply Z.ltb_lt in E|apply Z.ltb_ge in E]; lia.
      + rewrite toStringZ_century by assumption.
        unfold canonical.
        destruct (twoDigits y1 y2 <? 50); reflexivity. }
  intros y1 y2 m1 m2 d1 d2 time Hd Ht Hreal.
  refine (eq_trans (parse_wellformed _ _ _ _ _ _ _ Hd Ht) _).
  pose proof (Hdate _ _ _ _ _ _ _ Hd Ht Hreal) as Hvalid.
  unfold realInstant in Hreal. rewrite !andb_true_iff in Hreal.
  destruct Hreal as ((((Hm1 & Hm2) & Hd1) & Hd2) & _).
  apply Z.leb_le in Hm1, Hm2, Hd1, Hd2.
  pose proof (daysInMonth_le_31 (century (twoDigits y1 y2)) (twoDigits m1 m2))
    as H31.
  replace ((twoDigits m1 m2 <? 1) || (12 <? twoDigits m1 m2)
           || (twoDigits d1 d2 <? 1) || (31 <? twoDigits d1 d2))
    with false.
  - destruct (Date_getTime (canonical y1 y2 m1 m2 d1 d2 time));
      [reflexivity|contradiction].
  - symmetry. rewrite !orb_false_iff, !Z.ltb_ge. lia.
Qed.

End Facts.

(** The reference calendar reads every instant of the calendar. *)
Lemma RefDate_readsRealInstants : readsRealInstants RefDate.getTime.
Proof.
  intros y1 y2 m1 m2 d1 d2 time Hd Ht Hreal.
  destruct (test_timePart_inv _ Ht) as (a & b & c & d & e & f & -> & Hf).
  cbn [forallb] in Hd, Hf. rewrite !andb_true_iff in Hd, Hf.
  destruct Hd as (H1 & H2 & H3 & H4 & H5 & H6 & _).
  destruct Hf as (T1 & T2 & T3 & T4 & T5 & T6 & _).
  unfold realInstant in Hreal. rewrite !andb_true_iff in Hreal.
  destruct Hreal as ((((Hm1 & Hm2) & Hd1) & Hd2) & ((HH & HM) & HS)).
  apply Z.leb_le in Hd2.
  pose proof (daysInMonth_le_31 (century (twoDigits y1 y2)) (twoDigits m1 m2))
    as H31.
  assert (Hd3 : (twoDigits d1 d2 <=? 31) = true) by (apply Z.leb_le; lia).
  unfold canonical.
  change (js "-") with [HYPHEN]. change (js "T") with [84%N].
  destruct (twoDigits y1 y2 <? 50);
    [change (js "20") with [50%N; 48%N]|change (js "19") with [49%N; 57%N]];
    cbn [app]; unfold RefDate.getTime; cbn [forallb];
    change RefDate.num2 with twoDigits;
    rewrite H1, H2, H3, H4, H5, H6, T1, T2, T3, T4, T5, T6,
      Hm1, Hm2, Hd1, Hd3, HH, HM, HS;
    discriminate.
Qed.

(** C1, as stated, fails on its own example: the first component is read as
    the year, so "15-06-23 09:30:00" is the 23rd of June 2015. *)
Lemma example_is_read_year_first :
  Main.parseTimeTrackerDate RefDate.getTime (Some (js "15-06-23 09:30:00"))
  = Some (js "2015-06-23T09:30:00")
  /\ Main.parseTimeTrackerDate RefDate.getTime (Some (js "15-06-23 09:30:00"))
     <> Some (js "2023-06-15T09:30:00").
Proof.
  split; [reflexivity|]. vm_compute. discriminate.
Qed.

(** The 15th of June 2023, written year first, is an instant of the
    calendar that the reference calendar reads. *)
Lemma normalizer_reads_year_first_witness :
  readsRealInstants RefDate.getTime
  /\ Main.parseTimeTrackerDate RefDate.getTime (Some (js "23-06-15 09:30:00"))
     = Some (js "2023-06-15T09:30:00").
Proof.
  split; [exact RefDate_readsRealInstants|].
  destruct (normalizer_reads_year_first RefDate.getTime
              RefDate_readsRealInstants) as (_ & _ & _ & _ & _ & _ & H).
  exact (H 50%N 51%N 48%N 54%N 49%N 53%N (js "09:30:00")
           eq_refl eq_refl eq_refl).
Defined.

(** The 31st of February is no instant of the calendar.  The reference
    calendar, like the engine, counts it on into March, so the check of
    [Date] lets it pass and the normalizer returns its canonical string. *)
Example day_past_the_month_is_returned :
  realInstant 2024 2 31 (js "10:00:00") = false
  /\ RefDate.getTime (js "2024-02-31T10:00:00")
     = RefDate.getTime (js "2024-03-02T10:00:00")
  /\ Main.parseTimeTrackerDate RefDate.getTime (Some (js "24-02-31 10:00:00"))
     = Some (js "2024-02-31T10:00:00").
Proof.
  repeat split.
Qed.

End NormalizerFacts.

(* ================================================================== *)
(** * Properties of the table extractor                                 *)
(* ================================================================== *)

Module ExtractorFacts.

Import Main Spec.

Lemma skipn_nth_error_Some {A} (l : list A) (i : nat) (x : A) :
  nth_error l i = Some x -> skipn i l = x :: skipn (S i) l.
Proof.
  revert l. induction i as [|i IH]; intros [|y l]; simpl; try discriminate.
  - intros H. injection H as ->. reflexivity.
  - intros H. rewrite (IH l H). reflexivity.
Qed.

Lemma skipn_nth_error_None {A} (l : list A) (i : nat) :
  nth_error l i = None -> skipn i l = [].
Proof.
  revert l. induction i as [|i IH]; intros [|y l]; simpl;
    try discriminate; auto.
Qed.

Section Facts.

Variable Date_getTime : jsstring -> option Z.

Let extractRow := extractRow Date_getTime.
Let extractEntries := extractEntries Date_getTime.
Let extractDataFromTable := extractDataFromTable Date_getTime.

(** The loop from index [i], for [n] turns, appends the entries of the
    qualifying rows among the next [n] rows. *)
Lemma loop_from (rows : Table) (n i : nat) (acc : list Entry) :
  fold_left
    (fun entries i =>
       match nth_error rows i with
       | Some cells =>
           if (4 <=? length cells)%nat then entries ++ [extractRow cells]
           else entries
       | None => entries
       end)
    (seq i n) acc
  = acc ++ map extractRow (filter qualifies (firstn n (skipn i rows))).
Proof.
  revert i acc. induction n as [|n IH]; intros i acc.
  - simpl. rewrite app_nil_r. reflexivity.
  - cbn [seq fold_left]. rewrite IH.
    destruct (nth_error rows i) as [cells|] eqn:Hi.
    + rewrite (skipn_nth_error_Some _ _ _ Hi). cbn [firstn filter].
      unfold qualifies at 2.
      destruct (4 <=? length cells)%nat; cbn [map].
      * rewrite <- app_assoc. reflexivity.
      * reflexivity.
    + rewrite (skipn_nth_error_None _ _ Hi).
      assert (Hs : skipn (S i) rows = []).
      { apply skipn_all2. apply nth_error_None in Hi. lia. }
      rewrite Hs, !firstn_nil. reflexivity.
Qed.

(** The loop bound [Math.min(rows.length, cap + 1)] selects the first [cap]
    rows after the header. *)
Lemma bound_selects (rows : Table) (cap : nat) :
  firstn (Nat.min (length rows) (S cap) - 1) (skipn 1 rows)
  = firstn cap (tl rows).
Proof.
  destruct rows as [|header rest]; simpl; [rewrite !firstn_nil; reflexivity|].
  rewrite Nat.sub_0_r.
  destruct (Nat.le_ge_cases (length rest) cap) as [H|H].
  - rewrite Nat.min_l by exact H.
    rewrite !firstn_all2 by lia. reflexivity.
  - rewrite Nat.min_r by exact H. reflexivity.
Qed.

Lemma firstn_tl_firstn (rows : Table) (cap : nat) :
  firstn cap (tl (firstn (S cap) rows)) = firstn cap (tl rows).
Proof.
  destruct rows as [|header rest]; cbn [firstn tl]; [reflexivity|].
  rewrite firstn_firstn, Nat.min_id. reflexivity.
Qed.

Lemma extractEntries_filter (rows : Table) :
  extractEntries rows
  = map extractRow (filter qualifies (firstn 1000 (tl rows))).
Proof.
  unfold extractEntries, Main.extractEntries. fold extractRow.
  rewrite loop_from. cbn [app].
  change 1001%nat with (S 1000).
  rewrite bound_selects. reflexivity.
Qed.

(** C6.  The extractor reads the rows after row 0 up to index 1000, at most
    1000 rows: its entries are those of the rows with at least four cells
    among them, one entry per such row and in row order, and none for a row
    with fewer cells.  Row 0 and the rows from index 1001 on have no
    influence.  The result is the entry list when there is an entry and
    null otherwise; no input makes it fail. *)
Theorem extract_skips_header_and_caps (rows : Table) :
  extractEntries rows
  = map extractRow (filter qualifies (firstn 1000 (tl rows)))
  /\ length (extractEntries rows)
     = length (filter qualifies (firstn 1000 (tl rows)))
  /\ (length (extractEntries rows) <= 1000)%nat
  /\ (forall header header' rest,
         extractEntries (header' :: rest) = extractEntries (header :: rest))
  /\ extractEntries (firstn 1001 rows) = extractEntries rows
  /\ extractDataFromTable rows
     = match extractEntries rows with
       | [] => None
       | entries => Some entries
       end.
Proof.
  split; [apply extractEntries_filter|].
  split; [rewrite extractEntries_filter; apply length_map|].
  split.
  { rewrite extractEntries_filter, length_map.
    eapply Nat.le_trans; [apply filter_length_le|].
    apply firstn_le_length. }
  split.
  { intros header header' rest.
    rewrite !extractEntries_filter. reflexivity. }
  split.
  { rewrite !extractEntries_filter. change 1001%nat with (S 1000).
    rewrite firstn_tl_firstn. reflexivity. }
  unfold extractDataFromTable, Main.extractDataFromTable.
  fold extractEntries.
  destruct (extractEntries rows); reflexivity.
Qed.

End Facts.

(** A table of a header, 1000 rows of one cell and 1000 rows of four cells:
    the short rows are skipped without error and fill the cap, so there is
    no entry at all; with the four-cell rows first there are 1000 entries. *)
Example short_rows_fill_the_cap :
  Main.extractDataFromTable RefDate.getTime
    ([] :: repeat [None] 1000 ++ repeat [None; None; None; None] 1000)
  = None
  /\ option_map (@length Entry)
       (Main.extractDataFromTable RefDate.getTime
          ([] :: repeat [None; None; None; None] 1500 ++ repeat [None] 1000))
     = Some 1000%nat.
Proof.
  split; vm_compute; reflexivity.
Qed.

End ExtractorFacts.

(* ================================================================== *)
(** * Properties of the entry tree processor                            *)
(* ================================================================== *)

Module ParserFacts.

Import Parser Spec.

Section Facts.

Variable Date_getTime : jsstring -> option Z.

Let processEntries := processEntries Date_getTime.
Let processEntry := processEntry Date_getTime.
Let annotate := annotate Date_getTime.

Lemma RawEntry_forest_ind (P : RawEntry -> Prop) :
  (forall n s t, P (Raw n s t None)) ->
  (forall n s t l, Forall P l -> P (Raw n s t (Some l))) ->
  forall e, P e.
Proof.
  intros leaf node.
  fix IH 1.
  intros [n s t [l|]]; [|apply leaf].
  apply node.
  induction l as [|x l IHl]; constructor.
  - apply IH.
  - exact IHl.
Qed.

Lemma processEntry_unfold (d : nat) (e : RawEntry) :
  processEntry d e = annotate d e :: processEntries (children e) (d + 1).
Proof.
  destruct e as [n s t [[|x l]|]]; reflexivity.
Qed.

Lemma processEntries_cons (e : RawEntry) (es : list RawEntry) (d : nat) :
  processEntries (e :: es) d
  = annotate d e :: processEntries (children e) (d + 1) ++ processEntries es d.
Proof.
  unfold processEntries, Parser.processEntries. simpl flat_map.
  fold processEntry. rewrite processEntry_unfold. reflexivity.
Qed.

Lemma processEntry_length (e : RawEntry) :
  forall d, length (processEntry d e) = size e.
Proof.
  induction e as [n s t|n s t l IH] using RawEntry_forest_ind;
    intros d; rewrite processEntry_unfold; simpl; f_equal.
  unfold children. simpl.
  unfold processEntries, Parser.processEntries. fold processEntry.
  induction IH as [|x l Hx _ IHl]; simpl.
  - reflexivity.
  - rewrite length_app, Hx, IHl. reflexivity.
Qed.

Lemma processEntry_preorder (e : RawEntry) :
  forall d,
    map (fun t => (name t, level t)) (processEntry d e) = preorder d e.
Proof.
  induction e as [n s t|n s t l IH] using RawEntry_forest_ind;
    intros d; rewrite processEntry_unfold; simpl; f_equal.
  unfold children. simpl.
  unfold processEntries, Parser.processEntries. fold processEntry.
  replace (d + 1)%nat with (S d) by lia.
  induction IH as [|x l Hx _ IHl]; simpl.
  - reflexivity.
  - rewrite map_app, Hx, IHl. reflexivity.
Qed.

(** C4.  [processEntries] is the pre-order flattening: the empty list gives
    the empty list; an entry followed by others gives the entry annotated
    with the current depth, then the flattening of its sub-entries one
    level deeper, then the flattening of the others at the current depth.
    Hence there is one output per input entry, and names and levels come
    out in pre-order; flattening A with the single child B from depth 0
    gives A at level 0 followed by B at level 1. *)
Theorem processEntries_preorder_flatten :
  (forall d, processEntries [] d = [])
  /\ (forall e es d,
         processEntries (e :: es) d
         = annotate d e :: processEntries (children e) (d + 1)
           ++ processEntries es d)
  /\ (forall es d, length (processEntries es d) = forestSize es)
  /\ (forall es d,
         map (fun t => (name t, level t)) (processEntries es d)
         = flat_map (preorder d) es)
  /\ map (fun t => (name t, level t))
         (processEntries
            [Raw (Some (js "A")) None None
                 (Some [Raw (Some (js "B")) None None None])] 0)
     = [(Some (js "A"), 0%nat); (Some (js "B"), 1%nat)].
Proof.
  split; [reflexivity|].
  split; [exact processEntries_cons|].
  split; [|split; [|reflexivity]].
  - intros es d. unfold forestSize, processEntries, Parser.processEntries.
    fold processEntry.
    induction es as [|e es IH]; simpl; [reflexivity|].
    rewrite length_app, processEntry_length, IH. reflexivity.
  - intros es d. unfold processEntries, Parser.processEntries.
    fold processEntry.
    induction es as [|e es IH]; simpl; [reflexivity|].
    rewrite map_app, processEntry_preorder, IH. reflexivity.
Qed.

End Facts.

End ParserFacts.

(* ================================================================== *)
(** * Properties of the invoice generator                               *)
(* ================================================================== *)

Module GeneratorFacts.

Import Generator Modal Spec JSFacts.

Lemma clampHours_bounds (h : Q) : (0 <= clampHours h <= 8760)%Q.
Proof.
  unfold clampHours. split.
  - apply Q.le_max_l.
  - apply Q.max_lub; [discriminate|apply Q.le_min_r].
Qed.

Lemma fold_left_Qplus (f : TimeEntry -> Q) (l : list TimeEntry) (acc : Q) :
  (fold_left (fun total entry => total + f entry) l acc
   == acc + sumQ (map f l))%Q.
Proof.
  revert acc. induction l as [|e l IH]; intros acc; simpl.
  - ring.
  - rewrite IH. ring.
Qed.

Section Durations.

Variable Date_getTime : jsstring -> option Z.
Variable toFixed2 : number -> jsstring.
Variable settings : InvoiceSettings.

(** [new Date("")] is an invalid date. *)
Hypothesis Date_empty_invalid : Date_getTime [] = None.

Let calculateEntryDuration := calculateEntryDuration Date_getTime.
Let calculateTotalHours := calculateTotalHours Date_getTime.

Lemma calculateEntryDuration_cases (entry : TimeEntry) :
  calculateEntryDuration entry
  = match parsed Date_getTime (startTime entry),
          parsed Date_getTime (endTime entry) with
    | Some start, Some end_ => clampHours (hoursBetween start end_)
    | _, _ => 0%Q
    end.
Proof.
  unfold calculateEntryDuration, Generator.calculateEntryDuration, parsed.
  destruct (startTime entry) as [[|a s]|];
    destruct (endTime entry) as [[|b e]|];
    simpl; rewrite ?Date_empty_invalid;
    repeat match goal with
           | |- context [Date_getTime (?c :: ?r)] =>
               destruct (Date_getTime (c :: r))
           end;
    reflexivity.
Qed.

(** C3.  The duration of an entry is 0 when an endpoint is null or does not
    parse as a date, and otherwise the difference of the endpoints in hours
    clamped to [0, 8760]; so it lies in [0, 8760].  The total is the sum of
    the durations of the entries; it is what the summary shows, and each
    row shows the duration of its entry. *)
Theorem calculateEntryDuration_clamped
  (entry : TimeEntry) (entries : list TimeEntry)
  (options : option InvoiceOptions) (y : Q) :
  calculateEntryDuration entry
  = match parsed Date_getTime (startTime entry),
          parsed Date_getTime (endTime entry) with
    | Some start, Some end_ => clampHours (hoursBetween start end_)
    | _, _ => 0%Q
    end
  /\ (0 <= calculateEntryDuration entry <= 8760)%Q
  /\ (calculateTotalHours entries
      == sumQ (map calculateEntryDuration entries))%Q
  /\ In (Text (toFixed2 (Num (calculateTotalHours entries))) 190 y AlignRight)
        (summaryOps Date_getTime toFixed2 settings entries options y)
  /\ (forall toDate toTime flat,
         nth_error (tableRow Date_getTime toDate toTime toFixed2 settings
                             flat entry) 3
         = Some (toFixed2 (Num (calculateEntryDuration entry)))).
Proof.
  split; [apply calculateEntryDuration_cases|].
  split.
  { rewrite calculateEntryDuration_cases.
    destruct (parsed Date_getTime (startTime entry)),
             (parsed Date_getTime (endTime entry));
      try apply clampHours_bounds; split; discriminate. }
  split.
  { unfold calculateTotalHours, Generator.calculateTotalHours.
    rewrite fold_left_Qplus. fold calculateEntryDuration. ring. }
  split.
  { unfold summaryOps. apply in_or_app. left. simpl. auto. }
  intros toDate toTime [|]; reflexivity.
Qed.

End Durations.

Lemma calculateEntryDuration_clamped_witness :
  RefDate.getTime [] = None
  /\ Generator.calculateEntryDuration RefDate.getTime RefHost.sampleEntry
     = clampHours (hoursBetween 1686819600000 1686828600000).
Proof.
  split; [reflexivity|].
  exact (proj1 (calculateEntryDuration_clamped
                  RefDate.getTime RefHost.toFixed2 RefHost.settings
                  (eq_refl : RefDate.getTime [] = None)
                  RefHost.sampleEntry [RefHost.sampleEntry] None 0%Q)).
Defined.

Section RoundTrip.

Variable Date_getTime : jsstring -> option Z.

(** C5.  A string the normalizer returns parses again as a valid date; so
    for an entry whose endpoints are both such strings the duration is the
    clamped difference of two valid time values, not the 0 of the
    invalid-date branch. *)
Theorem normalizer_roundtrip
  (d1 d2 : option jsstring) (s e : jsstring) (entry : TimeEntry) :
  Main.parseTimeTrackerDate Date_getTime d1 = Some s ->
  Main.parseTimeTrackerDate Date_getTime d2 = Some e ->
  startTime entry = Some s ->
  endTime entry = Some e ->
  exists start end_,
    Date_getTime s = Some start
    /\ Date_getTime e = Some end_
    /\ calculateEntryDuration Date_getTime entry
       = clampHours (hoursBetween start end_).
Proof.
  intros H1 H2 Hs He.
  apply NormalizerFacts.parse_accepted in H1 as [[start Hstart] Hs0].
  apply NormalizerFacts.parse_accepted in H2 as [[end_ Hend] He0].
  exists start, end_. repeat split; trivial.
  unfold calculateEntryDuration. rewrite Hs, He.
  destruct s as [|a s]; [contradiction|].
  destruct e as [|b e]; [contradiction|].
  simpl. rewrite Hstart, Hend. reflexivity.
Qed.

End RoundTrip.

Lemma normalizer_roundtrip_witness :
  exists start end_,
    RefDate.getTime (js "2023-06-15T09:00:00") = Some start
    /\ RefDate.getTime (js "2023-06-15T11:30:00") = Some end_
    /\ calculateEntryDuration RefDate.getTime RefHost.sampleEntry
       = clampHours (hoursBetween start end_).
Proof.
  apply (normalizer_roundtrip RefDate.getTime
           (Some (js "23-06-15 09:00:00")) (Some (js "23-06-15 11:30:00")));
    reflexivity.
Defined.

Section InvoiceNumber.

Variable now : Clock.

Lemma Qfloor_scaled_bounds (r : Q) :
  (0 <= r < 1)%Q -> 0 <= Qfloor (r * 10000) <= 9999.
Proof.
  intros [H0 H1]. split.
  - change 0 with (Qfloor 0). apply Qfloor_resp_le.
    apply Qmult_le_0_compat; [exact H0|discriminate].
  - assert (H : (inject_Z (Qfloor (r * 10000)) < inject_Z 10000)%Q).
    { apply Qle_lt_trans with (r * 10000)%Q; [apply Qfloor_le|].
      change (inject_Z 10000) with (1 * 10000)%Q.
      apply Qmult_lt_compat_r; [reflexivity|exact H1]. }
    rewrite <- Zlt_Qlt in H. lia.
Qed.

(** C7, as the code has it.  With a random outcome in [0, 1) and a clock
    showing a four-digit year, the invoice number is the date as
    [YYYY-MM-DD] with month and day zero-padded, a hyphen, and the decimal
    rendering, one to four digits without padding, of the integer
    [floor(r * 10000)], which ranges over 0 .. 9999; every value of that
    range, 9999 included, is the outcome of some draw. *)
Theorem generateInvoiceNumber_format (s : State) :
  (0 <= draws s (drawn s) < 1)%Q ->
  1000 <= getFullYear now <= 9999 ->
  0 <= getMonth now <= 11 ->
  1 <= getDate now <= 31 ->
  (exists stamp n,
      generateInvoiceNumber now s
      = (Ok (stamp ++ js "-" ++ toStringZ n), afterDraw s)
      /\ stamp = toStringZ (getFullYear now) ++ js "-"
                 ++ padStart0 2 (toStringZ (getMonth now + 1)) ++ js "-"
                 ++ padStart0 2 (toStringZ (getDate now))
      /\ isDateStamp stamp = true
      /\ n = Qfloor (draws s (drawn s) * 10000)
      /\ 0 <= n <= 9999
      /\ digits1to4 (toStringZ n) = true)
  /\ (forall k, 0 <= k <= 9999 ->
        exists r, (0 <= r < 1)%Q /\ Qfloor (r * 10000) = k).
Proof.
  intros Hr Hy Hm Hd. split.
  - exists (toStringZ (getFullYear now) ++ js "-"
            ++ padStart0 2 (toStringZ (getMonth now + 1)) ++ js "-"
            ++ padStart0 2 (toStringZ (getDate now))),
           (Qfloor (draws s (drawn s) * 10000)).
    pose proof (Qfloor_scaled_bounds _ Hr) as Hn.
    split.
    { unfold generateInvoiceNumber, bind, Math_random, ret, afterDraw.
      rewrite <- !app_assoc. reflexivity. }
    split; [reflexivity|].
    split.
    { destruct (digits4_inv _ (toStringZ_digits4 _ Hy))
        as (a & b & c & d & -> & Ha & Hb & Hc & Hd').
      destruct (digits2_inv _ (padStart0_digits2 (getMonth now + 1) ltac:(lia)))
        as (m1 & m2 & -> & Hm1 & Hm2).
      destruct (digits2_inv _ (padStart0_digits2 (getDate now) ltac:(lia)))
        as (d1 & d2 & -> & Hd1 & Hd2).
      simpl. rewrite Ha, Hb, Hc, Hd', Hm1, Hm2, Hd1, Hd2. reflexivity. }
    split; [reflexivity|].
    split; [exact Hn|].
    apply toStringZ_digits1to4. exact Hn.
  - intros k Hk. exists (k # 10000)%Q. split.
    + split.
      * unfold Qle. simpl. lia.
      * unfold Qlt. simpl. lia.
    + unfold Qfloor, Qmult. simpl Qnum. simpl Qden.
      change (Z.pos (10000 * 1)) with 10000.
      apply Z.div_mul. discriminate.
Qed.

End InvoiceNumber.

Lemma generateInvoiceNumber_format_witness :
  exists stamp n,
    generateInvoiceNumber RefHost.now (RefHost.initial (fun _ => 1 # 4)%Q)
    = (Ok (stamp ++ js "-" ++ toStringZ n),
       afterDraw (RefHost.initial (fun _ => 1 # 4)%Q))
    /\ stamp = js "2026-11-03"
    /\ isDateStamp stamp = true
    /\ n = 2500
    /\ 0 <= n <= 9999
    /\ digits1to4 (toStringZ n) = true.
Proof.
  apply (generateInvoiceNumber_format RefHost.now
           (RefHost.initial (fun _ => 1 # 4)%Q)); simpl.
  - split; [discriminate|reflexivity].
  - lia.
  - lia.
  - lia.
Defined.

(** C7, as stated, fails: the draw 0.9999 lies in [0, 1) and gives the
    suffix 9999. *)
Lemma generateInvoiceNumber_yields_9999 :
  (0 <= 9999 # 10000 < 1)%Q
  /\ fst (generateInvoiceNumber RefHost.now
            (RefHost.initial (fun _ => 9999 # 10000)%Q))
     = Ok (js "2026-11-03-9999").
Proof.
  split; [split; [discriminate|reflexivity]|reflexivity].
Qed.

Section Invocation.

Variable Date_getTime : jsstring -> option Z.
Variable toLocaleDateString_short : Z -> jsstring.
Variable toLocaleTimeString_12h : Z -> jsstring.
Variable toFixed2 : number -> jsstring.
Variable now : Clock.
Variable toLocaleDateString_now : jsstring.
Variable moment_format : jsstring -> jsstring.
Variable normalizePath : jsstring -> jsstring.
Variable autoTable_finalY : list (list jsstring) -> Q.
Variable jsPDF_load_raises : option jsstring.
Variable jsPDF_raises : list op -> option jsstring.
Variable adapter_exists : jsstring -> list event -> bool.
Variable createFolder_raises : jsstring -> list event -> option jsstring.
Variable createBinary_raises : jsstring -> list event -> option jsstring.
Variable openFile_raises : jsstring -> list event -> option jsstring.
Variable settings : InvoiceSettings.

Let addPDFContent :=
  addPDFContent Date_getTime toLocaleDateString_short toLocaleTimeString_12h
                toFixed2 now toLocaleDateString_now autoTable_finalY settings.
Let generatePDF :=
  generatePDF Date_getTime toLocaleDateString_short toLocaleTimeString_12h
              toFixed2 now toLocaleDateString_now autoTable_finalY
              jsPDF_load_raises jsPDF_raises settings.
Let generateFilePath := generateFilePath now moment_format normalizePath settings.
Let generateInvoice :=
  generateInvoice Date_getTime toLocaleDateString_short toLocaleTimeString_12h
                  toFixed2 now toLocaleDateString_now moment_format
                  normalizePath autoTable_finalY jsPDF_load_raises jsPDF_raises
                  adapter_exists createFolder_raises createBinary_raises
                  openFile_raises settings.

(** Composing the document draws one random number and performs no effect
    on the host. *)
Lemma addPDFContent_runs (entries : list TimeEntry)
  (options : option InvoiceOptions) (s : State) :
  exists ops,
    addPDFContent entries options s = (Ok ops, afterDraw s)
    /\ exists invoiceNumber,
         generateInvoiceNumber now s = (Ok invoiceNumber, afterDraw s)
         /\ In (Text (js "Invoice #: " ++ escapeText invoiceNumber)
                     200 45 AlignRight) ops.
Proof.
  unfold addPDFContent, Generator.addPDFContent, bind, generateInvoiceNumber,
    Math_random, ret, afterDraw.
  eexists. split; [reflexivity|].
  eexists. split; [reflexivity|].
  apply in_or_app. left. unfold headerOps.
  apply in_or_app. right. apply in_or_app. right. simpl. auto.
Qed.

(** An error raised inside [generatePDF] is wrapped there and wrapped again
    by [generateInvoice], which does nothing else. *)
Lemma generatePDF_throw_wrapped
  (entries : list TimeEntry) (options : option InvoiceOptions)
  (s s1 : State) (message : jsstring) :
  generatePDF entries options s = (Throw message, s1) ->
  generateInvoice entries options s
  = (Throw (js "Failed to generate invoice: " ++ message), s1).
Proof.
  intros Hpdf.
  unfold generateInvoice, Generator.generateInvoice, tryCatch, bind.
  fold generatePDF. rewrite Hpdf. reflexivity.
Qed.

Lemma load_failure
  (entries : list TimeEntry) (options : option InvoiceOptions) (s : State)
  (message : jsstring) :
  jsPDF_load_raises = Some message ->
  generatePDF entries options s
  = (Throw (js "PDF generation failed: " ++ message), s).
Proof.
  intros Hload.
  unfold generatePDF, Generator.generatePDF, tryCatch.
  rewrite Hload. reflexivity.
Qed.

Lemma layout_failure
  (entries : list TimeEntry) (options : option InvoiceOptions) (s : State)
  (ops : list op) (s1 : State) (message : jsstring) :
  jsPDF_load_raises = None ->
  addPDFContent entries options s = (Ok ops, s1) ->
  jsPDF_raises ops = Some message ->
  generatePDF entries options s
  = (Throw (js "PDF generation failed: " ++ message), s1).
Proof.
  intros Hload Hadd Hraise.
  unfold generatePDF, Generator.generatePDF, tryCatch, bind.
  fold addPDFContent. rewrite Hload, Hadd, Hraise. reflexivity.
Qed.

(** C9.  When jsPDF raises, while it is loaded or while the document is
    composed, [generatePDF] raises one error whose message is the original
    message after "PDF generation failed: ", and [generateInvoice] raises
    one error whose message is that message after
    "Failed to generate invoice: "; no document is returned, and the host
    has seen no effect: nothing was written. *)
Theorem generation_failure_wrapped
  (entries : list TimeEntry) (options : option InvoiceOptions) (s : State)
  (message : jsstring) :
  jsPDF_load_raises = Some message
  \/ (jsPDF_load_raises = None
      /\ exists ops s1,
           addPDFContent entries options s = (Ok ops, s1)
           /\ jsPDF_raises ops = Some message) ->
  exists s1,
    generatePDF entries options s
    = (Throw (js "PDF generation failed: " ++ message), s1)
    /\ generateInvoice entries options s
       = (Throw (js "Failed to generate invoice: "
                 ++ js "PDF generation failed: " ++ message), s1)
    /\ trace s1 = trace s.
Proof.
  intros [Hload | (Hload & ops & s1 & Hadd & Hraise)].
  - exists s.
    pose proof (load_failure entries options s message Hload) as Hpdf.
    split; [exact Hpdf|]. split; [|reflexivity].
    apply generatePDF_throw_wrapped. exact Hpdf.
  - exists s1.
    pose proof (layout_failure entries options s ops s1 message
                  Hload Hadd Hraise) as Hpdf.
    split; [exact Hpdf|]. split.
    + apply generatePDF_throw_wrapped. exact Hpdf.
    + destruct (addPDFContent_runs entries options s) as (ops' & Hops & _).
      rewrite Hops in Hadd. injection Hadd as _ <-. reflexivity.
Qed.

(** C10.  The number printed on the invoice and the number in the file
    name come from two successive calls of [generateInvoiceNumber], each
    with its own random draw: there are outcomes of [Math.random], all in
    [0, 1), for which the two numbers differ.  In [generateInvoice] the
    document is composed first and, when jsPDF raises nothing, the path is
    generated next, on the state the composition left, and the document is
    written under that path. *)
Theorem invoice_numbers_may_differ
  (entries : list TimeEntry) (options : option InvoiceOptions)
  (t0 : list event) :
  exists outcomes,
    (forall k, 0 <= outcomes k < 1)%Q
    /\ let s := {| draws := outcomes; drawn := 0; trace := t0 |} in
       exists ops s1 path s2 printed named,
         addPDFContent entries options s = (Ok ops, s1)
         /\ In (Text (js "Invoice #: " ++ escapeText printed) 200 45 AlignRight)
               ops
         /\ generateFilePath s1 = (Ok path, s2)
         /\ path
            = normalizePath
                (moment_format
                   (orElse (invoiceDirectory settings) (js "Invoices/YYYY/MM"))
                 ++ js "/"
                 ++ sanitizeFilename (orElse (companyName settings) (js "Company"))
                 ++ js "-invoice-" ++ named ++ js ".pdf")
         /\ generateInvoiceNumber now s = (Ok printed, s1)
         /\ generateInvoiceNumber now s1 = (Ok named, s2)
         /\ printed <> named
         /\ generateInvoice entries options s
            = match jsPDF_load_raises, jsPDF_raises ops with
              | Some message, _ =>
                  (Throw (js "Failed to generate invoice: "
                          ++ js "PDF generation failed: " ++ message), s)
              | None, Some message =>
                  (Throw (js "Failed to generate invoice: "
                          ++ js "PDF generation failed: " ++ message), s1)
              | None, None =>
                  tryCatch
                    (bind (ensureDirectoryExists normalizePath adapter_exists
                             createFolder_raises path)
                       (fun _ =>
                          bind (hostCall (createBinary_raises path)
                                  (CreateBinary path ops))
                            (fun _ =>
                               bind (emit (ShowNotice
                                             (js "Invoice saved to: " ++ path)))
                                 (fun _ =>
                                    hostCall (openFile_raises path)
                                             (OpenFile path)))))
                    (fun message =>
                       throw (js "Failed to generate invoice: " ++ message))
                    s2
              end.
Proof.
  exists (fun k => match k with O => 0 | _ => 1 # 2 end)%Q.
  split.
  { intros [|k]; split; try discriminate; reflexivity. }
  intros s.
  destruct (addPDFContent_runs entries options s)
    as (ops & Hops & printed & Hprinted & Hin).
  exists ops, (afterDraw s).
  eexists. exists (afterDraw (afterDraw s)). exists printed. eexists.
  split; [exact Hops|].
  split; [exact Hin|].
  split; [reflexivity|].
  split; [reflexivity|].
  split; [exact Hprinted|].
  split; [reflexivity|].
  split.
  - unfold generateInvoiceNumber, bind, Math_random, ret in Hprinted.
    injection Hprinted as <-.
    intros H. subst s. simpl in H.
    repeat first [apply app_inv_head in H | injection H as H].
    vm_compute in H. discriminate H.
  - case_eq jsPDF_load_raises; [intros message Hload|intros Hload].
    { apply generatePDF_throw_wrapped.
      apply load_failure. exact Hload. }
    destruct (jsPDF_raises ops) as [message|] eqn:Hraise.
    + apply generatePDF_throw_wrapped.
      apply (layout_failure entries options s ops _ message Hload Hops Hraise).
    + unfold generateInvoice, Generator.generateInvoice.
      unfold tryCatch at 1. unfold bind at 1.
      fold generatePDF.
      assert (Hpdf : generatePDF entries options s = (Ok ops, afterDraw s)).
      { unfold generatePDF, Generator.generatePDF, tryCatch, bind.
        fold addPDFContent. rewrite Hload, Hops, Hraise. reflexivity. }
      rewrite Hpdf. unfold bind at 1. reflexivity.
Qed.

End Invocation.

Lemma generation_failure_wrapped_witness :
  exists s1,
    Generator.generatePDF
      RefDate.getTime RefHost.toLocaleDateString_short
      RefHost.toLocaleTimeString_12h RefHost.toFixed2 RefHost.now
      RefHost.toLocaleDateString_now RefHost.autoTable_finalY
      None RefHost.jsPDF_fails RefHost.settings
      [RefHost.sampleEntry] None (RefHost.initial (fun _ => 1 # 4)%Q)
    = (Throw (js "PDF generation failed: "
              ++ js "Invalid argument passed to jsPDF.text"), s1)
    /\ Generator.generateInvoice
         RefDate.getTime RefHost.toLocaleDateString_short
         RefHost.toLocaleTimeString_12h RefHost.toFixed2 RefHost.now
         RefHost.toLocaleDateString_now RefHost.moment_format
         RefHost.normalizePath RefHost.autoTable_finalY
         None RefHost.jsPDF_fails RefHost.adapter_exists
         RefHost.noRaise RefHost.noRaise RefHost.noRaise RefHost.settings
         [RefHost.sampleEntry] None (RefHost.initial (fun _ => 1 # 4)%Q)
       = (Throw (js "Failed to generate invoice: "
                 ++ js "PDF generation failed: "
                 ++ js "Invalid argument passed to jsPDF.text"), s1)
    /\ trace s1 = trace (RefHost.initial (fun _ => 1 # 4)%Q).
Proof.
  apply (generation_failure_wrapped
    RefDate.getTime RefHost.toLocaleDateString_short
    RefHost.toLocaleTimeString_12h RefHost.toFixed2 RefHost.now
    RefHost.toLocaleDateString_now RefHost.moment_format RefHost.normalizePath
    RefHost.autoTable_finalY None RefHost.jsPDF_fails RefHost.adapter_exists
    RefHost.noRaise RefHost.noRaise RefHost.noRaise RefHost.settings
    [RefHost.sampleEntry] None (RefHost.initial (fun _ => 1 # 4)%Q)).
  right. split; [reflexivity|].
  eexists. eexists. split; reflexivity.
Defined.

Section Mode.

Variable Date_getTime : jsstring -> option Z.
Variable toLocaleDateString_short : Z -> jsstring.
Variable toLocaleTimeString_12h : Z -> jsstring.
Variable toFixed2 : number -> jsstring.
Variable now : Clock.
Variable toLocaleDateString_now : jsstring.
Variable autoTable_finalY : list (list jsstring) -> Q.
Variable settings : InvoiceSettings.
Variable parseFloat : jsstring -> number.

Let tableRow :=
  tableRow Date_getTime toLocaleDateString_short toLocaleTimeString_12h
           toFixed2 settings.
Let summaryOps := summaryOps Date_getTime toFixed2 settings.
Let calculateEntryDuration := calculateEntryDuration Date_getTime.
Let calculateTotalHours := calculateTotalHours Date_getTime.

(** C2, as the code has it.  The engine is in flat-rate mode exactly when
    [flatRateAmount] is defined, whatever its value.  The table of the
    document has one row per entry, rendered in that mode.  In flat-rate
    mode the rate and amount cells of every row are a single dash, and the
    rate line and the total line of the summary show the flat amount; with
    no amount the cells show the hourly rate and the duration times the
    hourly rate, and the summary shows the hourly rate and the total hours
    times the hourly rate.  The dialog defines the amount exactly when the
    parsed text is not NaN and is greater than 0. *)
Theorem flat_rate_mode_by_presence
  (entries : list TimeEntry) (options : option InvoiceOptions)
  (entry : TimeEntry) (y : Q) (value : jsstring) (result : InvoiceOptions)
  (s : State) :
  (isFlateRate options = true <-> exists amount, flatRateOf options = Some amount)
  /\ (exists ops,
         fst (addPDFContent Date_getTime toLocaleDateString_short
                toLocaleTimeString_12h toFixed2 now toLocaleDateString_now
                autoTable_finalY settings entries options s) = Ok ops
         /\ In (AutoTable tableHead
                  (map (tableRow (isFlateRate options)) entries) 70) ops
         /\ incl (summaryOps entries options
                    (autoTable_finalY
                       (map (tableRow (isFlateRate options)) entries) + 20)%Q)
                 ops)
  /\ match flatRateOf options with
     | Some amount =>
         nth_error (tableRow (isFlateRate options) entry) 4 = Some (js "-")
         /\ nth_error (tableRow (isFlateRate options) entry) 5 = Some (js "-")
         /\ In (Text (toFixed2 amount) 190 (y + 7) AlignRight)
               (summaryOps entries options y)
         /\ In (Text (toFixed2 amount) 190 (y + 20) AlignRight)
               (summaryOps entries options y)
     | None =>
         nth_error (tableRow (isFlateRate options) entry) 4
         = Some (toFixed2 (Num (hourlyRate settings)))
         /\ nth_error (tableRow (isFlateRate options) entry) 5
            = Some (toFixed2 (Num (calculateEntryDuration entry
                                   * hourlyRate settings)))
         /\ In (Text (toFixed2 (Num (hourlyRate settings))) 190 (y + 7)
                     AlignRight)
               (summaryOps entries options y)
         /\ In (Text (toFixed2 (Num (calculateTotalHours entries
                                     * hourlyRate settings)))
                     190 (y + 20) AlignRight)
               (summaryOps entries options y)
     end
  /\ (forall amount,
         flatRateAmount (onChange parseFloat value result) = Some amount
         <-> parseFloat value = amount
             /\ isNaN amount = false /\ positive amount = true).
Proof.
  split.
  { unfold isFlateRate. destruct (flatRateOf options) as [a|].
    - split; eauto.
    - split; [discriminate|intros [a H]; discriminate H]. }
  split.
  { unfold addPDFContent, bind, generateInvoiceNumber, Math_random, ret.
    cbn [fst]. eexists. split; [reflexivity|]. split.
    - apply in_or_app. right. apply in_or_app. left. left. reflexivity.
    - intros o Ho. apply in_or_app. right. apply in_or_app. right.
      apply in_or_app. left. exact Ho. }
  split.
  { unfold isFlateRate, summaryOps, Generator.summaryOps, subtotal.
    destruct (flatRateOf options) as [a|].
    - repeat split; try reflexivity.
      + apply in_or_app. right. apply in_or_app. left. simpl. auto.
      + apply in_or_app. right. apply in_or_app. right. simpl. auto 6.
    - repeat split; try reflexivity.
      + apply in_or_app. right. apply in_or_app. left. simpl. auto.
      + apply in_or_app. right. apply in_or_app. right. simpl. auto 6. }
  intros amount. unfold onChange.
  destruct (parseFloat value) as [q| | |] eqn:Hp; simpl.
  - destruct (Qle_bool q 0) eqn:Hq; simpl; split.
    + discriminate.
    + intros (<- & _ & H). simpl in H. rewrite Hq in H. discriminate H.
    + intros H. injection H as <-. simpl. rewrite Hq. auto.
    + intros (<- & _). reflexivity.
  - split; [discriminate|]. intros (<- & H & _). discriminate H.
  - split.
    + intros H. injection H as <-. auto.
    + intros (<- & _). reflexivity.
  - split; [discriminate|]. intros (<- & _ & H). discriminate H.
Qed.

End Mode.

(** C2, as stated, fails: an amount of 0 is defined but not positive, and
    the engine is in flat-rate mode all the same; its rows show dashes
    where the rows rendered without an amount show the rate and the
    amount. *)
Lemma zero_flat_rate_selects_flat_mode :
  isFinite (Num 0) = true
  /\ positive (Num 0) = false
  /\ isFlateRate RefHost.zeroFlatRate = true
  /\ skipn 4 (tableRow RefDate.getTime RefHost.toLocaleDateString_short
                RefHost.toLocaleTimeString_12h RefHost.toFixed2
                RefHost.settings (isFlateRate RefHost.zeroFlatRate)
                RefHost.sampleEntry)
     = [js "-"; js "-"]
  /\ skipn 4 (tableRow RefDate.getTime RefHost.toLocaleDateString_short
                RefHost.toLocaleTimeString_12h RefHost.toFixed2
                RefHost.settings (isFlateRate None) RefHost.sampleEntry)
     = [js "100.00"; js "250.00"].
Proof.
  repeat split; vm_compute; reflexivity.
Qed.

(** ** The file-name sanitizer *)

Lemma collapse_noDoubleHyphen (s : jsstring) :
  noDoubleHyphen (replaceRuns isHyphen (js "-") s) = true.
Proof.
  induction s as [|c s IH]; [reflexivity|].
  cbn [replaceRuns].
  destruct (isHyphen c) eqn:Hc.
  - destruct s as [|c' s']; [reflexivity|].
    destruct (isHyphen c') eqn:Hc'; [exact IH|].
    cbn [replaceRuns] in IH |- *. rewrite Hc' in IH |- *.
    change (js "-" ++ c' :: replaceRuns isHyphen (js "-") s')
      with (45%N :: c' :: replaceRuns isHyphen (js "-") s').
    cbn [noDoubleHyphen] in IH |- *.
    rewrite Hc' in IH |- *. rewrite andb_false_r. exact IH.
  - cbn [noDoubleHyphen]. rewrite IH, Hc.
    destruct (replaceRuns isHyphen (js "-") s); reflexivity.
Qed.

Lemma noDoubleHyphen_tail (c : char) (r : jsstring) :
  noDoubleHyphen (c :: r) = true -> noDoubleHyphen r = true.
Proof.
  cbn [noDoubleHyphen]. intros H. apply andb_prop in H. apply H.
Qed.

Lemma stripTrailingHyphen_head (c : char) (r : jsstring) :
  stripTrailingHyphen (c :: r) = []
  \/ exists r', stripTrailingHyphen (c :: r) = c :: r'.
Proof.
  destruct r as [|c' r]; cbn [stripTrailingHyphen].
  - destruct (isHyphen c); eauto.
  - eauto.
Qed.

Lemma stripTrailingHyphen_noDouble (s : jsstring) :
  noDoubleHyphen s = true -> noDoubleHyphen (stripTrailingHyphen s) = true.
Proof.
  induction s as [|c s IH]; [reflexivity|].
  destruct s as [|c' s'].
  - cbn [stripTrailingHyphen]. destruct (isHyphen c); reflexivity.
  - intros H.
    change (stripTrailingHyphen (c :: c' :: s'))
      with (c :: stripTrailingHyphen (c' :: s')).
    pose proof (IH (noDoubleHyphen_tail _ _ H)) as IH'.
    cbn [noDoubleHyphen] in H. apply andb_prop in H as [Hcc _].
    destruct (stripTrailingHyphen_head c' s') as [E | [r' E]]; rewrite E in *.
    + reflexivity.
    + cbn [noDoubleHyphen] in IH' |- *. rewrite Hcc. exact IH'.
Qed.

Lemma stripTrailingHyphen_ends (s : jsstring) :
  noDoubleHyphen s = true -> endsWithHyphen (stripTrailingHyphen s) = false.
Proof.
  induction s as [|c s IH]; [reflexivity|].
  destruct s as [|c' s'].
  - intros _. cbn [stripTrailingHyphen].
    destruct (isHyphen c) eqn:Hc; [reflexivity|]. exact Hc.
  - intros H.
    change (stripTrailingHyphen (c :: c' :: s'))
      with (c :: stripTrailingHyphen (c' :: s')).
    pose proof (IH (noDoubleHyphen_tail _ _ H)) as IH'.
    destruct (stripTrailingHyphen (c' :: s')) as [|x r] eqn:E.
    + (* the tail was a lone hyphen *)
      destruct s' as [|c'' s''].
      * cbn [stripTrailingHyphen] in E.
        destruct (isHyphen c') eqn:Hc'; [|discriminate E].
        cbn [noDoubleHyphen] in H. rewrite Hc' in H.
        cbn [endsWithHyphen].
        destruct (isHyphen c); [discriminate H|reflexivity].
      * discriminate E.
    + exact IH'.
Qed.

Lemma stripTrailingHyphen_starts (s : jsstring) :
  startsWithHyphen s = false ->
  startsWithHyphen (stripTrailingHyphen s) = false.
Proof.
  destruct s as [|c r]; [reflexivity|].
  intros H.
  destruct (stripTrailingHyphen_head c r) as [E | [r' E]]; rewrite E.
  - reflexivity.
  - exact H.
Qed.

Lemma stripTrailingHyphen_length (s : jsstring) :
  (length (stripTrailingHyphen s) <= length s)%nat.
Proof.
  induction s as [|c s IH]; [reflexivity|].
  destruct s as [|c' s'].
  - cbn [stripTrailingHyphen]. destruct (isHyphen c); simpl; lia.
  - change (stripTrailingHyphen (c :: c' :: s'))
      with (c :: stripTrailingHyphen (c' :: s')).
    simpl length in *. lia.
Qed.

Lemma stripTrailingHyphen_Forall (P : char -> Prop) (s : jsstring) :
  Forall P s -> Forall P (stripTrailingHyphen s).
Proof.
  induction s as [|c s IH]; [auto|].
  intros H. inversion H as [|? ? Hc Hs]; subst.
  destruct s as [|c' s'].
  - cbn [stripTrailingHyphen]. destruct (isHyphen c); auto.
  - change (stripTrailingHyphen (c :: c' :: s'))
      with (c :: stripTrailingHyphen (c' :: s')).
    constructor; auto.
Qed.

Lemma stripHyphens_shape (s : jsstring) :
  noDoubleHyphen s = true ->
  noDoubleHyphen (stripHyphens s) = true
  /\ startsWithHyphen (stripHyphens s) = false
  /\ endsWithHyphen (stripHyphens s) = false.
Proof.
  intros H. destruct s as [|c r]; [auto|].
  cbn [stripHyphens].
  destruct (isHyphen c) eqn:Hc.
  - pose proof (noDoubleHyphen_tail _ _ H) as Hr.
    split; [apply stripTrailingHyphen_noDouble; exact Hr|].
    split; [|apply stripTrailingHyphen_ends; exact Hr].
    apply stripTrailingHyphen_starts.
    destruct r as [|c' r']; [reflexivity|].
    cbn [noDoubleHyphen] in H. rewrite Hc in H. cbn [startsWithHyphen].
    destruct (isHyphen c'); [discriminate H|reflexivity].
  - split; [apply stripTrailingHyphen_noDouble; exact H|].
    split; [|apply stripTrailingHyphen_ends; exact H].
    apply stripTrailingHyphen_starts. exact Hc.
Qed.

Lemma firstn_noDoubleHyphen (n : nat) (s : jsstring) :
  noDoubleHyphen s = true -> noDoubleHyphen (firstn n s) = true.
Proof.
  revert s. induction n as [|n IH]; intros [|c r] H; try reflexivity.
  cbn [firstn]. pose proof (IH r (noDoubleHyphen_tail _ _ H)) as IHr.
  cbn [noDoubleHyphen] in H |- *. rewrite IHr, andb_true_r.
  destruct n as [|n]; [destruct r; reflexivity|].
  destruct r as [|c' r']; [reflexivity|].
  cbn [firstn]. apply andb_prop in H. apply H.
Qed.

Lemma firstn_Forall (P : char -> Prop) (n : nat) (s : jsstring) :
  Forall P s -> Forall P (firstn n s).
Proof.
  revert s. induction n as [|n IH]; intros s H; [constructor|].
  destruct H; cbn [firstn]; constructor; auto.
Qed.

Lemma firstn_startsWithHyphen (n : nat) (s : jsstring) :
  startsWithHyphen s = false -> startsWithHyphen (firstn n s) = false.
Proof.
  destruct n, s; auto.
Qed.

Lemma replaceClass_Forall (P Q : char -> Prop) (cls : char -> bool)
  (s : jsstring) :
  P 45%N ->
  (forall c, Q c -> cls c = false -> P c) ->
  Forall Q s -> Forall P (replaceClass cls (js "-") s).
Proof.
  intros Hh Hstep. induction 1 as [|c s Hc _ IH]; cbn [replaceClass].
  - constructor.
  - destruct (cls c) eqn:E.
    + constructor; assumption.
    + constructor; auto.
Qed.

Lemma replaceRuns_Forall (P Q : char -> Prop) (cls : char -> bool)
  (s : jsstring) :
  P 45%N ->
  (forall c, Q c -> cls c = false -> P c) ->
  Forall Q s -> Forall P (replaceRuns cls (js "-") s).
Proof.
  intros Hh Hstep. induction 1 as [|c s Hc Hs IH]; cbn [replaceRuns].
  - constructor.
  - destruct (cls c) eqn:E.
    + destruct s as [|c' s'].
      * constructor; [assumption|constructor].
      * destruct (cls c'); [exact IH|].
        constructor; assumption.
    + constructor; auto.
Qed.

Lemma replaceClass_length (cls : char -> bool) (s : jsstring) :
  length (replaceClass cls (js "-") s) = length s.
Proof.
  induction s as [|c s IH]; [reflexivity|].
  cbn [replaceClass]. destruct (cls c); simpl; rewrite IH; reflexivity.
Qed.

Lemma replaceRuns_length (cls : char -> bool) (s : jsstring) :
  (length (replaceRuns cls (js "-") s) <= length s)%nat.
Proof.
  induction s as [|c s IH]; [reflexivity|].
  cbn [replaceRuns]. destruct (cls c).
  - destruct s as [|c' s']; [reflexivity|].
    destruct (cls c'); simpl length in *; lia.
  - simpl length. lia.
Qed.

Lemma stripHyphens_length (s : jsstring) :
  (length (stripHyphens s) <= length s)%nat.
Proof.
  destruct s as [|c r]; [reflexivity|].
  cbn [stripHyphens]. destruct (isHyphen c).
  - pose proof (stripTrailingHyphen_length r). simpl length. lia.
  - apply stripTrailingHyphen_length.
Qed.

(** A character from U+007F to U+009F is none of those replaced. *)
Lemma sanitizeFilename_keeps_C1 (c : char) :
  (127 <= c <= 159)%N -> sanitizeFilename [c] = [c].
Proof.
  intros Hc.
  assert (HU : isUnsafe c = false).
  { unfold isUnsafe, between. rewrite !orb_false_iff.
    repeat split; try (apply N.eqb_neq; lia).
    apply andb_false_iff. right. apply N.leb_gt. lia. }
  assert (HW : isWhiteSpace c = false).
  { unfold isWhiteSpace, between. rewrite !orb_false_iff.
    repeat split; try (apply N.eqb_neq; lia).
    - apply andb_false_iff. right. apply N.leb_gt. lia.
    - apply andb_false_iff. left. apply N.leb_gt. lia. }
  assert (HH : isHyphen c = false) by (apply N.eqb_neq; lia).
  unfold sanitizeFilename. cbn [replaceClass]. rewrite HU.
  cbn [replaceRuns]. rewrite HW. cbn [replaceRuns]. rewrite HH.
  cbn [stripHyphens]. rewrite HH. cbn [stripTrailingHyphen]. rewrite HH.
  reflexivity.
Qed.

(** X13.  What holds of every sanitized name: at most 50 characters, none
    of them a character the function replaces, which are the nine
    characters unsafe in a file name, the characters U+0000 to U+001F and
    white space; no two hyphens in a row and no hyphen in front; and no
    hyphen at the end either when the name has at most 50 characters, so
    that nothing is cut.  The characters U+007F to U+009F are none of
    those replaced: a name that is one of them is returned as it is. *)
Lemma sanitizeFilename_shape (filename : jsstring) :
  (length (sanitizeFilename filename) <= 50)%nat
  /\ forallb isPlain (sanitizeFilename filename) = true
  /\ noDoubleHyphen (sanitizeFilename filename) = true
  /\ startsWithHyphen (sanitizeFilename filename) = false
  /\ ((length filename <= 50)%nat ->
      endsWithHyphen (sanitizeFilename filename) = false)
  /\ (forall c, (127 <= c <= 159)%N -> sanitizeFilename [c] = [c]).
Proof.
  unfold sanitizeFilename, substring0.
  set (t := replaceRuns isHyphen (js "-")
              (replaceRuns isWhiteSpace (js "-")
                 (replaceClass isUnsafe (js "-") filename))).
  destruct (stripHyphens_shape t (collapse_noDoubleHyphen _))
    as (Hnd & Hst & Hen).
  split; [apply firstn_le_length|].
  split.
  { apply forallb_forall. apply Forall_forall.
    apply firstn_Forall.
    assert (Ht : Forall (fun c => isPlain c = true) t).
    { unfold t.
      apply replaceRuns_Forall with (Q := fun c => isPlain c = true);
        [reflexivity|auto|].
      apply replaceRuns_Forall with (Q := fun c => isUnsafe c = false).
      - reflexivity.
      - intros c H1 H2. unfold isPlain. rewrite H1, H2. reflexivity.
      - apply replaceClass_Forall with (Q := fun _ => True);
          [reflexivity|auto|].
        apply Forall_forall. auto. }
    destruct t as [|c r]; [constructor|].
    cbn [stripHyphens]. inversion Ht; subst.
    destruct (isHyphen c); apply stripTrailingHyphen_Forall; auto. }
  split; [apply firstn_noDoubleHyphen; exact Hnd|].
  split; [apply firstn_startsWithHyphen; exact Hst|].
  split; [|exact sanitizeFilename_keeps_C1].
  intros Hlen. rewrite firstn_all2; [exact Hen|].
  eapply Nat.le_trans; [apply stripHyphens_length|].
  unfold t.
  eapply Nat.le_trans; [apply replaceRuns_length|].
  eapply Nat.le_trans; [apply replaceRuns_length|].
  rewrite replaceClass_length. exact Hlen.
Qed.

(** With a flat amount of 500 the rows show dashes and the summary shows
    500.00 twice, whatever the hours; the sample entry lasts 2.50 hours. *)
Example flat_rate_500 :
  skipn 3 (tableRow RefDate.getTime RefHost.toLocaleDateString_short
             RefHost.toLocaleTimeString_12h RefHost.toFixed2
             RefHost.settings (isFlateRate RefHost.flatRate500)
             RefHost.sampleEntry)
  = [js "2.50"; js "-"; js "-"]
  /\ filter (fun o => match o with
                      | Text _ _ _ AlignRight => true
                      | _ => false
                      end)
         (summaryOps RefDate.getTime RefHost.toFixed2 RefHost.settings
            [RefHost.sampleEntry] RefHost.flatRate500 0)
     = [Text (js "2.50") 190 0 AlignRight;
        Text (js "500.00") 190 (0 + 7) AlignRight;
        Text (js "500.00") 190 (0 + 20) AlignRight].
Proof.
  split; vm_compute; reflexivity.
Qed.

(** C8: the company name of 49 letters, a space and a letter is cut after
    its hyphen, so the result ends with a hyphen; the name of the
    specification is cleaned as expected. *)
Theorem sanitizeFilename_trailing_hyphen :
  sanitizeFilename RefHost.longCompanyName = repeat 97%N 49 ++ js "-"
  /\ last (sanitizeFilename RefHost.longCompanyName) 0%N = HYPHEN
  /\ sanitizeFilename (js "My / Co: LLC***") = js "My-Co-LLC".
Proof.
  repeat split; vm_compute; reflexivity.
Qed.

End GeneratorFacts.

(* ================================================================== *)
(** * Properties of the two text sanitizers                             *)
(* ================================================================== *)

Module TextFacts.

(** Replacing a class by the empty string keeps the other characters. *)
Lemma replaceClass_nil_filter (cls : char -> bool) (s : jsstring) :
  replaceClass cls [] s = filter (fun c => negb (cls c)) s.
Proof.
  induction s as [|c s IH]; [reflexivity|].
  cbn [replaceClass filter]. destruct (cls c); cbn [negb app]; rewrite IH;
    reflexivity.
Qed.

Lemma filter_all (P : char -> bool) (s : jsstring) :
  forallb P s = true -> filter P s = s.
Proof.
  induction s as [|c s IH]; [reflexivity|].
  cbn [forallb filter]. intros H. apply andb_prop in H as [Hc Hs].
  rewrite Hc, (IH Hs). reflexivity.
Qed.

Lemma forallb_filter_sub (P Q : char -> bool) (s : jsstring) :
  forallb P s = true -> forallb P (filter Q s) = true.
Proof.
  induction s as [|c s IH]; [reflexivity|].
  cbn [forallb filter]. intros H. apply andb_prop in H as [Hc Hs].
  destruct (Q c); cbn [forallb]; rewrite ?Hc; auto.
Qed.

Lemma forallb_filter_self (P : char -> bool) (s : jsstring) :
  forallb P (filter P s) = true.
Proof.
  induction s as [|c s IH]; [reflexivity|].
  cbn [filter]. destruct (P c) eqn:E; cbn [forallb]; rewrite ?E; auto.
Qed.

Lemma forallb_firstn (P : char -> bool) (n : nat) (s : jsstring) :
  forallb P s = true -> forallb P (firstn n s) = true.
Proof.
  revert s. induction n as [|n IH]; intros [|c s]; try reflexivity.
  cbn [forallb firstn]. intros H. apply andb_prop in H as [Hc Hs].
  rewrite Hc, (IH s Hs). reflexivity.
Qed.

Lemma forallb_and (P Q : char -> bool) (s : jsstring) :
  forallb P s = true -> forallb Q s = true ->
  forallb (fun c => P c && Q c) s = true.
Proof.
  induction s as [|c s IH]; [reflexivity|].
  cbn [forallb]. intros HP HQ.
  apply andb_prop in HP as [-> HP]. apply andb_prop in HQ as [-> HQ].
  rewrite (IH HP HQ). reflexivity.
Qed.

Lemma forallb_and_inv (P Q : char -> bool) (s : jsstring) :
  forallb (fun c => P c && Q c) s = true ->
  forallb P s = true /\ forallb Q s = true.
Proof.
  induction s as [|c s IH]; [auto|].
  cbn [forallb]. intros H. apply andb_prop in H as [Hc Hs].
  apply andb_prop in Hc as [-> ->]. destruct (IH Hs) as [-> ->]. auto.
Qed.

Lemma sanitizeText_length (t : jsstring) :
  (length (Main.sanitizeText t) <= 500)%nat.
Proof.
  unfold Main.sanitizeText, substring0.
  destruct (Main.isEmpty t); [simpl; lia|apply firstn_le_length].
Qed.

Lemma sanitizeText_clean (t : jsstring) :
  forallb (fun c => negb (Main.isControl c) && negb (Main.isAngle c))
          (Main.sanitizeText t) = true.
Proof.
  unfold Main.sanitizeText, substring0.
  destruct (Main.isEmpty t); [reflexivity|].
  rewrite !replaceClass_nil_filter.
  apply forallb_firstn, forallb_and.
  - apply forallb_filter_sub, forallb_filter_self.
  - apply forallb_filter_self.
Qed.

Lemma sanitizeText_fixed (t : jsstring) :
  (length t <= 500)%nat ->
  forallb (fun c => negb (Main.isControl c) && negb (Main.isAngle c)) t = true ->
  Main.sanitizeText t = t.
Proof.
  intros Hl Hc. unfold Main.sanitizeText, substring0.
  destruct t as [|c t]; [reflexivity|]. cbn [Main.isEmpty].
  rewrite !replaceClass_nil_filter.
  destruct (forallb_and_inv _ _ _ Hc) as [H1 H2].
  rewrite (filter_all _ _ H1), (filter_all _ _ H2).
  apply firstn_all2. exact Hl.
Qed.

(** X1.  The text [sanitizeText] returns has at most 500 characters and
    holds no control character and no angle bracket; a text that is
    already so is returned unchanged, so sanitizing twice is sanitizing
    once. *)
Theorem sanitizeText_clean_and_idempotent (text : jsstring) :
  (length (Main.sanitizeText text) <= 500)%nat
  /\ forallb (fun c => negb (Main.isControl c) && negb (Main.isAngle c))
             (Main.sanitizeText text) = true
  /\ ((length text <= 500)%nat ->
      forallb (fun c => negb (Main.isControl c) && negb (Main.isAngle c)) text
      = true ->
      Main.sanitizeText text = text)
  /\ Main.sanitizeText (Main.sanitizeText text) = Main.sanitizeText text.
Proof.
  split; [apply sanitizeText_length|].
  split; [apply sanitizeText_clean|].
  split; [apply sanitizeText_fixed|].
  apply sanitizeText_fixed; [apply sanitizeText_length|apply sanitizeText_clean].
Qed.

(** X2.  The text [escapeText] returns has at most 1000 characters and
    holds no control character; a text that is already so is returned
    unchanged, so escaping twice is escaping once. *)
Theorem escapeText_clean_and_idempotent (text : jsstring) :
  (length (Generator.escapeText text) <= 1000)%nat
  /\ forallb (fun c => negb (Generator.isControl c)) (Generator.escapeText text)
     = true
  /\ ((length text <= 1000)%nat ->
      forallb (fun c => negb (Generator.isControl c)) text = true ->
      Generator.escapeText text = text)
  /\ Generator.escapeText (Generator.escapeText text) = Generator.escapeText text.
Proof.
  assert (Hlen : forall t, (length (Generator.escapeText t) <= 1000)%nat).
  { intros t. unfold Generator.escapeText, substring0.
    destruct t; [simpl; lia|apply firstn_le_length]. }
  assert (Hclean : forall t,
             forallb (fun c => negb (Generator.isControl c))
                     (Generator.escapeText t) = true).
  { intros t. unfold Generator.escapeText, substring0.
    destruct t as [|c t]; [reflexivity|].
    rewrite replaceClass_nil_filter.
    apply forallb_firstn, forallb_filter_self. }
  assert (Hid : forall t,
             (length t <= 1000)%nat ->
             forallb (fun c => negb (Generator.isControl c)) t = true ->
             Generator.escapeText t = t).
  { intros t Hl Hc. unfold Generator.escapeText, substring0.
    destruct t as [|c t]; [reflexivity|].
    rewrite replaceClass_nil_filter, (filter_all _ _ Hc).
    apply firstn_all2. exact Hl. }
  split; [apply Hlen|]. split; [apply Hclean|]. split; [apply Hid|].
  apply Hid; [apply Hlen|apply Hclean].
Qed.

End TextFacts.

(* ================================================================== *)
(** * More on the date/time normalizer                                  *)
(* ================================================================== *)

Module NormalizerShape.

Import Main Spec JSFacts NormalizerFacts.

Section Facts.

Variable Date_getTime : jsstring -> option Z.

Let parseTimeTrackerDate := parseTimeTrackerDate Date_getTime.

Lemma canonical_shape (y1 y2 m1 m2 d1 d2 : char) (time : jsstring) :
  forallb isDigit [y1; y2; m1; m2; d1; d2] = true ->
  test_timePart time = true ->
  isIsoDateTime (canonical y1 y2 m1 m2 d1 d2 time) = true
  /\ nth 8 (canonical y1 y2 m1 m2 d1 d2 time) 0%N = d1
  /\ firstn 4 (canonical y1 y2 m1 m2 d1 d2 time)
     = toStringZ (century (twoDigits y1 y2)).
Proof.
  intros Hd Ht.
  pose proof Hd as Hd'. cbn [forallb] in Hd'. rewrite !andb_true_iff in Hd'.
  destruct Hd' as (H1 & H2 & H3 & H4 & H5 & H6 & _).
  destruct (test_timePart_inv _ Ht) as (a & b & c & d & e & f & -> & Hf).
  cbn [forallb] in Hf. rewrite !andb_true_iff in Hf.
  destruct Hf as (T1 & T2 & T3 & T4 & T5 & T6 & _).
  rewrite (toStringZ_century _ _ H1 H2).
  unfold canonical.
  destruct (twoDigits y1 y2 <? 50); cbn [js app isIsoDateTime forallb nth firstn
    List.map String.list_ascii_of_string Ascii.N_of_ascii];
    simpl; rewrite H1, H2, H3, H4, H5, H6, T1, T2, T3, T4, T5, T6;
    repeat split; reflexivity.
Qed.

Lemma parse_isIso (d : option jsstring) (iso : jsstring) :
  parseTimeTrackerDate d = Some iso -> isIsoDateTime iso = true.
Proof.
  intros H.
  destruct d as [s|]; [|discriminate H].
  destruct (parse_inv Date_getTime s iso H)
    as (y1 & y2 & m1 & m2 & d1 & d2 & time
        & _ & Hd & Ht & _ & _ & -> & _).
  apply (canonical_shape y1 y2 m1 m2 d1 d2 time Hd Ht).
Qed.

(** X3.  A string the normalizer returns has the 19 characters of
    [YYYY-MM-DDTHH:MM:SS], all fields digits, and begins with the year
    1950 + k for some k from 0 to 99; given back to the normalizer it is
    rejected, since it has no space. *)
Theorem normalizer_output_shape (d : option jsstring) (iso : jsstring) :
  parseTimeTrackerDate d = Some iso ->
  isIsoDateTime iso = true
  /\ length iso = 19%nat
  /\ (exists year, 1950 <= year <= 2049 /\ firstn 4 iso = toStringZ year)
  /\ parseTimeTrackerDate (Some iso) = None.
Proof.
  intros H.
  destruct d as [s|]; [|discriminate H].
  destruct (parse_inv Date_getTime s iso H)
    as (y1 & y2 & m1 & m2 & d1 & d2 & time
        & _ & Hd & Ht & _ & _ & -> & _).
  destruct (canonical_shape y1 y2 m1 m2 d1 d2 time Hd Ht)
    as (Hshape & H8 & Hyear).
  split; [exact Hshape|]. split.
  { destruct (canonical y1 y2 m1 m2 d1 d2 time)
      as [|? [|? [|? [|? [|? [|? [|? [|? [|? [|? [|? [|? [|? [|? [|? [|?
          [|? [|? [|? [|? ?]]]]]]]]]]]]]]]]]]]];
      try discriminate Hshape. reflexivity. }
  split.
  { exists (century (twoDigits y1 y2)). split; [|exact Hyear].
    pose proof Hd as Hd'. cbn [forallb] in Hd'. rewrite !andb_true_iff in Hd'.
    destruct Hd' as (H1 & H2 & _).
    pose proof (twoDigits_range _ _ H1 H2).
    unfold century. destruct (twoDigits y1 y2 <? 50) eqn:E.
    - apply Z.ltb_lt in E. lia.
    - apply Z.ltb_ge in E. lia. }
  destruct (parseTimeTrackerDate (Some (canonical y1 y2 m1 m2 d1 d2 time)))
    as [again|] eqn:Hagain; [|reflexivity].
  exfalso.
  destruct (parse_inv Date_getTime _ _ Hagain)
    as (a1 & a2 & b1 & b2 & c1 & c2 & time'
        & Hform & _).
  pose proof (eq_trans (eq_sym H8) (f_equal (fun l => nth 8 l 0%N) Hform))
    as Hspace.
  cbn in Hspace.
  cbn [forallb] in Hd. rewrite !andb_true_iff in Hd.
  destruct Hd as (_ & _ & _ & _ & H5 & _).
  pose proof (digit_not_space _ H5) as Hns.
  rewrite Hspace in Hns. discriminate Hns.
Qed.

(** X4.  The normalizer is injective on the inputs it accepts: two inputs
    with the same canonical string are the same input. *)
Theorem normalizer_injective (d1 d2 : option jsstring) (iso : jsstring) :
  parseTimeTrackerDate d1 = Some iso ->
  parseTimeTrackerDate d2 = Some iso ->
  d1 = d2.
Proof.
  intros H1 H2.
  destruct d1 as [s1|]; [|discriminate H1].
  destruct d2 as [s2|]; [|discriminate H2].
  destruct (parse_inv Date_getTime s1 iso H1)
    as (y1 & y2 & m1 & m2 & e1 & e2 & time & -> & _ & _ & _ & _ & -> & _).
  destruct (parse_inv Date_getTime s2 _ H2)
    as (y1' & y2' & m1' & m2' & e1' & e2' & time'
        & -> & _ & _ & _ & _ & Hiso & _).
  unfold canonical in Hiso.
  destruct (twoDigits y1 y2 <? 50), (twoDigits y1' y2' <? 50);
    cbn in Hiso; try discriminate Hiso;
    injection Hiso as -> -> -> -> -> -> ->; reflexivity.
Qed.

End Facts.

Lemma normalizer_output_shape_witness :
  isIsoDateTime (js "2023-06-15T09:00:00") = true
  /\ length (js "2023-06-15T09:00:00") = 19%nat
  /\ (exists year,
         1950 <= year <= 2049
         /\ firstn 4 (js "2023-06-15T09:00:00") = toStringZ year)
  /\ Main.parseTimeTrackerDate RefDate.getTime
       (Some (js "2023-06-15T09:00:00")) = None.
Proof.
  apply (normalizer_output_shape RefDate.getTime
           (Some (js "23-06-15 09:00:00"))).
  reflexivity.
Defined.

Lemma normalizer_injective_witness :
  Some (js "23-06-15 09:00:00") = Some (js "23-06-15 09:00:00").
Proof.
  apply (normalizer_injective RefDate.getTime
           (Some (js "23-06-15 09:00:00")) (Some (js "23-06-15 09:00:00"))
           (js "2023-06-15T09:00:00"));
    reflexivity.
Defined.

End NormalizerShape.

(* ================================================================== *)
(** * More on the table extractor                                       *)
(* ================================================================== *)

Module ExtractorInvariants.

Import Main Spec.

Section Facts.

Variable Date_getTime : jsstring -> option Z.

Let extractRow := extractRow Date_getTime.
Let extractEntries := extractEntries Date_getTime.
Let extractDataFromTable := extractDataFromTable Date_getTime.

Lemma parse_canonicalOrNull (d : option jsstring) :
  canonicalOrNull Date_getTime (parseTimeTrackerDate Date_getTime d).
Proof.
  unfold canonicalOrNull.
  destruct (parseTimeTrackerDate Date_getTime d) as [iso|] eqn:H; [|exact I].
  split.
  - exact (NormalizerShape.parse_isIso Date_getTime d iso H).
  - destruct (NormalizerFacts.parse_accepted Date_getTime d iso H)
      as [[t Ht] _].
    rewrite Ht. discriminate.
Qed.

Lemma extractRow_wellFormed (cells : Row) :
  wellFormedEntry Date_getTime (extractRow cells).
Proof.
  unfold wellFormedEntry, extractRow, Main.extractRow. cbn [level name
    startTime endTime].
  split; [lia|].
  split; [apply TextFacts.sanitizeText_length|].
  split; [apply TextFacts.sanitizeText_clean|].
  split; apply parse_canonicalOrNull.
Qed.

(** X5.  Every entry the extractor produces has a level from 0 to 10, a
    name of at most 500 characters without control characters or angle
    brackets, and endpoints that are null or strings of the form
    [YYYY-MM-DDTHH:MM:SS] that [Date] takes for valid dates.  The name is
    "Unknown Task" when the first cell has no span or its text trims to
    nothing; the level is 0 when the first cell has no span. *)
Theorem extracted_entries_wellFormed (rows : Table) (cells : Row) :
  Forall (wellFormedEntry Date_getTime) (extractEntries rows)
  /\ wellFormedEntry Date_getTime (extractRow cells)
  /\ (match spanOf cells 0 with
      | None => True
      | Some span => trim (textContent span) = []
      end ->
      name (extractRow cells) = js "Unknown Task")
  /\ (spanOf cells 0 = None -> level (extractRow cells) = 0).
Proof.
  split.
  { unfold extractEntries.
    rewrite (ExtractorFacts.extractEntries_filter Date_getTime rows).
    apply Forall_forall. intros e He.
    apply in_map_iff in He as (cells' & <- & _).
    apply extractRow_wellFormed. }
  split; [apply extractRow_wellFormed|].
  split.
  - unfold extractRow, Main.extractRow. cbn [name].
    destruct (spanOf cells 0) as [span|]; cbn [option_map orString].
    + intros ->. reflexivity.
    + intros _. reflexivity.
  - unfold extractRow, Main.extractRow. cbn [level].
    intros ->. reflexivity.
Qed.

(** X6.  The extractor returns null exactly when none of the first 1000
    rows after the header has four cells, in particular for a table with
    no row or with its header only; what it returns otherwise is never the
    empty list. *)
Theorem extract_null_iff_no_row (rows : Table) :
  (extractDataFromTable rows = None
   <-> forallb (fun cells => negb (qualifies cells)) (firstn 1000 (tl rows))
       = true)
  /\ (forall entries,
         extractDataFromTable rows = Some entries ->
         entries <> [] /\ entries = extractEntries rows)
  /\ extractDataFromTable [] = None
  /\ (forall header, extractDataFromTable [header] = None).
Proof.
  assert (Hdata : extractDataFromTable rows
                  = match extractEntries rows with
                    | [] => None
                    | entries => Some entries
                    end).
  { unfold extractDataFromTable, Main.extractDataFromTable.
    fold extractEntries. destruct (extractEntries rows); reflexivity. }
  assert (Hnil : forall l : list Row,
             map extractRow (filter qualifies l) = []
             <-> forallb (fun cells => negb (qualifies cells)) l = true).
  { induction l as [|c l IH]; [split; reflexivity|].
    cbn [filter forallb]. destruct (qualifies c); cbn [map negb andb].
    - split; discriminate.
    - exact IH. }
  split.
  { rewrite Hdata. unfold extractEntries.
    rewrite (ExtractorFacts.extractEntries_filter Date_getTime rows).
    fold extractRow. rewrite <- Hnil.
    destruct (map extractRow (filter qualifies (firstn 1000 (tl rows))));
      split; try reflexivity; discriminate. }
  split.
  { intros entries. rewrite Hdata.
    destruct (extractEntries rows) as [|e l]; [discriminate|].
    intros H. injection H as <-. split; [discriminate|reflexivity]. }
  split; [reflexivity|].
  intros header. reflexivity.
Qed.

End Facts.

End ExtractorInvariants.

(* ================================================================== *)
(** * More on the entry tree processor                                  *)
(* ================================================================== *)

Module ParserLaws.

Import Parser Spec.

Section Facts.

Variable Date_getTime : jsstring -> option Z.

Let calculateDuration := calculateDuration Date_getTime.
Let processEntry := processEntry Date_getTime.
Let processEntries := processEntries Date_getTime.
Let annotate := annotate Date_getTime.

Lemma processEntries_unfold (e : RawEntry) (es : list RawEntry) (d : nat) :
  processEntries (e :: es) d
  = annotate d e :: processEntries (children e) (d + 1)
    ++ processEntries es d.
Proof.
  exact (ParserFacts.processEntries_cons Date_getTime e es d).
Qed.

(** What holds of every annotated entry holds of every output entry. *)
Lemma processEntries_Forall (P : TimeEntry -> Prop) :
  (forall d e, P (annotate d e)) ->
  forall es d, Forall P (processEntries es d).
Proof.
  intros HP.
  assert (Hentry : forall e d, Forall P (processEntry d e)).
  { induction e as [n s t|n s t l IH] using ParserFacts.RawEntry_forest_ind;
      intros d.
    - constructor; [apply (HP d (Raw n s t None))|constructor].
    - unfold processEntry.
      rewrite (ParserFacts.processEntry_unfold Date_getTime).
      constructor; [apply HP|].
      unfold children. cbn [rawSubEntries].
      unfold Parser.processEntries. fold processEntry.
      induction IH as [|x l Hx _ IHl]; cbn [flat_map]; [constructor|].
      apply Forall_app. split; [apply Hx|exact IHl]. }
  intros es d. unfold processEntries, Parser.processEntries.
  fold processEntry.
  induction es as [|e es IH]; cbn [flat_map]; [constructor|].
  apply Forall_app. split; [apply Hentry|exact IH].
Qed.

Lemma processEntry_deepen (e : RawEntry) :
  forall d k, processEntry (d + k) e = map (deepen k) (processEntry d e).
Proof.
  induction e as [n s t|n s t l IH] using ParserFacts.RawEntry_forest_ind;
    intros d k.
  - reflexivity.
  - unfold processEntry.
    rewrite !(ParserFacts.processEntry_unfold Date_getTime).
    cbn [map]. f_equal.
    unfold children. cbn [rawSubEntries].
    unfold Parser.processEntries. fold processEntry.
    replace (d + k + 1)%nat with (d + 1 + k)%nat by lia.
    induction IH as [|x l Hx _ IHl]; cbn [flat_map]; [reflexivity|].
    rewrite map_app, Hx, IHl. reflexivity.
Qed.

Lemma processEntries_deepen (es : list RawEntry) (d k : nat) :
  processEntries es (d + k) = map (deepen k) (processEntries es d).
Proof.
  unfold processEntries, Parser.processEntries. fold processEntry.
  induction es as [|e es IH]; cbn [flat_map]; [reflexivity|].
  rewrite map_app, processEntry_deepen, IH. reflexivity.
Qed.

(** X7.  Flattening distributes over concatenation; flattening from a
    greater depth only adds the difference to every level and changes no
    other field; and no output level is below the starting depth. *)
Theorem processEntries_compositional (a b es : list RawEntry) (d k : nat) :
  processEntries (a ++ b) d = processEntries a d ++ processEntries b d
  /\ processEntries es (d + k) = map (deepen k) (processEntries es d)
  /\ Forall (fun t => (d <= level t)%nat) (processEntries es d).
Proof.
  split; [apply flat_map_app|].
  split; [apply processEntries_deepen|].
  change d with (0 + d)%nat at 2.
  rewrite processEntries_deepen.
  apply Forall_forall. intros t Ht.
  apply in_map_iff in Ht as (t0 & <- & _). cbn [deepen level]. lia.
Qed.

(** X8.  The duration of every output entry is derived from its own
    endpoints: it is [calculateDuration] of them, hence 0 when an endpoint
    is null or empty, and it is a finite number or [NaN], never infinite. *)
Theorem processed_duration_derived (es : list RawEntry) (d : nat) :
  Forall (fun t =>
            duration t = calculateDuration (startTime t) (endTime t)
            /\ (falsy (startTime t) || falsy (endTime t) = true ->
                duration t = Num 0)
            /\ duration t <> Infinity
            /\ duration t <> NegInfinity)
         (processEntries es d).
Proof.
  apply processEntries_Forall. clear es d.
  intros d [n s t subs]. cbn [annotate Spec.annotate duration startTime endTime].
  split; [reflexivity|].
  unfold Parser.calculateDuration.
  destruct s as [[|a s]|], t as [[|b t]|]; cbn [falsy orb];
    try (repeat split; (reflexivity || discriminate)).
  destruct (Date_getTime (a :: s)), (Date_getTime (b :: t));
    repeat split; discriminate.
Qed.

Lemma annotate_not_infinite (d : nat) (e : RawEntry) :
  duration (annotate d e) <> Infinity
  /\ duration (annotate d e) <> NegInfinity.
Proof.
  destruct e as [n s t subs]. cbn [annotate Spec.annotate duration].
  unfold Parser.calculateDuration.
  destruct s as [[|a s]|], t as [[|b t]|];
    try (split; discriminate).
  destruct (Date_getTime (a :: s)), (Date_getTime (b :: t));
    split; discriminate.
Qed.

Lemma getTotalHours_from (entries : list TimeEntry) (acc : Q) :
  Forall (fun t => duration t <> Infinity /\ duration t <> NegInfinity)
         entries ->
  exists total,
    fold_left (fun total entry => add total (orZero (duration entry)))
              entries (Num acc) = Num total
    /\ (total == acc + sumQ (map (fun t => hoursOrZero (duration t)) entries))%Q.
Proof.
  intros H. revert acc.
  induction H as [|t l [Hp Hn] _ IH]; intros acc; cbn [fold_left map sumQ
    fold_right].
  - exists acc. split; [reflexivity|]. symmetry. apply Qplus_0_r.
  - destruct (duration t) as [q| | |] eqn:E; try contradiction;
      cbn [orZero add hoursOrZero].
    + destruct (Qeq_bool q 0) eqn:Hq; cbn [add].
      * destruct (IH (acc + 0)%Q) as (total & -> & Ht).
        exists total. split; [reflexivity|].
        apply Qeq_bool_eq in Hq. rewrite Ht, Hq, Qplus_assoc. reflexivity.
      * destruct (IH (acc + q)%Q) as (total & -> & Ht).
        exists total. split; [reflexivity|].
        rewrite Ht, Qplus_assoc. reflexivity.
    + destruct (IH (acc + 0)%Q) as (total & -> & Ht).
      exists total. split; [reflexivity|].
      rewrite Ht, Qplus_assoc. reflexivity.
Qed.

(** X9.  The total hours of flattened entries is a finite number, never
    [NaN]: it is the sum of the durations, an entry whose dates do not
    parse counting for 0. *)
Theorem getTotalHours_finite (es : list RawEntry) (d : nat) :
  exists total,
    getTotalHours (processEntries es d) = Num total
    /\ (total
        == sumQ (map (fun t => hoursOrZero (duration t)) (processEntries es d)))%Q.
Proof.
  destruct (getTotalHours_from (processEntries es d) 0) as (total & H & Ht).
  { apply processEntries_Forall. apply annotate_not_infinite. }
  exists total. split; [exact H|]. rewrite Ht. apply Qplus_0_l.
Qed.

End Facts.

End ParserLaws.

(* ================================================================== *)
(** * Properties of the options dialog and of the settings tab          *)
(* ================================================================== *)

Module FormFacts.

Import Spec.

Section Dialog.

Import Modal.

Variable parseFloat : jsstring -> number.

Let onChange := onChange parseFloat.
Let interact := interact parseFloat.
Let open := open parseFloat.

Lemma onChange_valid (value : jsstring) (result : InvoiceOptions) :
  validOptions (onChange value result).
Proof.
  unfold validOptions, onChange, Modal.onChange.
  destruct (negb (isNaN (parseFloat value)) && positive (parseFloat value))
    eqn:E; cbn [flatRateAmount]; [|exact I].
  apply andb_prop in E as [E1 E2].
  apply negb_true_iff in E1. auto.
Qed.

Lemma onChange_forgets (value : jsstring) (r r' : InvoiceOptions) :
  onChange value r = onChange value r'.
Proof. reflexivity. Qed.

Lemma interact_typed (values : list jsstring) (rest : list action)
  (result : InvoiceOptions) :
  interact (map Change values ++ rest) result
  = interact rest
      (match rev values with
       | [] => result
       | value :: _ => onChange value {| flatRateAmount := None |}
       end).
Proof.
  revert result. induction values as [|v values IH]; intros result;
    [reflexivity|].
  cbn [map app]. unfold interact. cbn [Modal.interact]. fold interact.
  fold onChange. rewrite IH. cbn [rev].
  destruct (rev values) as [|w ws]; reflexivity.
Qed.

(** X10.  What the dialog submits depends on the last text typed only:
    after any texts and then Generate Invoice it submits the amount of the
    last text when that is a number greater than 0 and no amount
    otherwise, or when nothing was typed; after Cancel, or with no button
    pressed, it submits nothing.  So a submitted amount is never [NaN],
    zero or negative. *)
Theorem dialog_submits_last_text
  (values : list jsstring) (rest actions : list action) :
  open (map Change values ++ Generate :: rest)
  = Some (match rev values with
          | [] => {| flatRateAmount := None |}
          | value :: _ => onChange value {| flatRateAmount := None |}
          end)
  /\ open (map Change values ++ Cancel :: rest) = None
  /\ open (map Change values) = None
  /\ (forall options, open actions = Some options -> validOptions options).
Proof.
  split; [apply interact_typed|].
  split; [unfold open, Modal.open; fold interact; rewrite interact_typed;
          reflexivity|].
  split.
  { rewrite <- (app_nil_r (map Change values)).
    unfold open, Modal.open. fold interact. rewrite interact_typed.
    reflexivity. }
  unfold open, Modal.open. fold interact.
  assert (H : forall result,
             validOptions result ->
             forall options,
               interact actions result = Some options -> validOptions options).
  { induction actions as [|a l IH]; intros result Hr options;
      [discriminate|].
    destruct a as [value| |]; unfold interact; cbn [Modal.interact];
      fold interact; fold onChange.
    - apply IH. apply onChange_valid.
    - discriminate.
    - intros E. injection E as <-. exact Hr. }
  apply H. exact I.
Qed.

End Dialog.

Section Tab.

Import Settings.

Variable parseFloat : jsstring -> number.

Let onChange := onChange parseFloat.
Let afterEdits := afterEdits parseFloat.

Lemma onChange_keeps_valid (e : edit) (settings : InvoiceSettings) :
  validSettings settings -> validSettings (fst (onChange e settings)).
Proof.
  intros (Hn & Hp & Hd). unfold validSettings.
  destruct e as [v|v|v|v|v|v]; unfold onChange, Settings.onChange;
    cbn [fst hourlyRate invoiceDirectory]; auto.
  - destruct (negb (isNaN (parseFloat v)) && nonNegative (parseFloat v))
      eqn:E; cbn [fst hourlyRate invoiceDirectory]; auto.
    apply andb_prop in E as [E1 E2]. apply negb_true_iff in E1. auto.
  - repeat split; auto. destruct v; discriminate.
Qed.

(** X11.  Whatever is typed into the settings tab, starting from valid
    settings and in particular from the defaults, the hourly rate stays a
    number that is not negative and the invoice directory stays non-empty.
    A text that is not such a rate changes nothing and saves nothing;
    every other change is saved; an empty directory becomes
    "Invoices/YYYY/MM". *)
Theorem settings_stay_valid (edits : list edit) (e : edit)
  (settings : InvoiceSettings) :
  (validSettings settings -> validSettings (afterEdits edits settings))
  /\ validSettings (afterEdits edits DEFAULT_SETTINGS)
  /\ (snd (onChange e settings) = false
      <-> exists v,
            e = HourlyRate v
            /\ (isNaN (parseFloat v) = true \/ nonNegative (parseFloat v) = false))
  /\ (snd (onChange e settings) = false -> fst (onChange e settings) = settings)
  /\ invoiceDirectory (fst (onChange (InvoiceDirectory []) settings))
     = js "Invoices/YYYY/MM".
Proof.
  assert (Hall : forall l s, validSettings s -> validSettings (afterEdits l s)).
  { induction l as [|x l IH]; intros s Hs; [exact Hs|].
    unfold afterEdits, Settings.afterEdits. cbn [fold_left].
    apply IH. apply onChange_keeps_valid. exact Hs. }
  split; [apply Hall|].
  split.
  { apply Hall. repeat split; discriminate. }
  split.
  { destruct e as [v|v|v|v|v|v]; unfold onChange, Settings.onChange;
      cbn [snd];
      try (split; [discriminate|intros (w & Hw & _); discriminate Hw]).
    destruct (isNaN (parseFloat v)) eqn:E1,
             (nonNegative (parseFloat v)) eqn:E2; cbn [negb andb snd];
      split; try discriminate; eauto.
    intros (w & Hw & [H|H]); injection Hw as <-;
      rewrite ?E1, ?E2 in H; discriminate H. }
  split; [|reflexivity].
  destruct e as [v|v|v|v|v|v]; unfold onChange, Settings.onChange;
    cbn [snd]; try discriminate.
  destruct (negb (isNaN (parseFloat v)) && nonNegative (parseFloat v));
    cbn [snd fst]; [discriminate|reflexivity].
Qed.

End Tab.

End FormFacts.

(* ================================================================== *)
(** * Properties of the directory creation                              *)
(* ================================================================== *)

Module VaultFacts.

Import Generator Spec.

Lemma withEvents_nil (s : State) : withEvents s [] = s.
Proof.
  destruct s. unfold withEvents. cbn. rewrite app_nil_r. reflexivity.
Qed.

Lemma withEvents_app (s : State) (a b : list event) :
  withEvents (withEvents s a) b = withEvents s (a ++ b).
Proof.
  unfold withEvents. cbn. rewrite app_assoc. reflexivity.
Qed.

(** A string without the separator is not split. *)
Lemma split_none (sep : char) (s : jsstring) :
  forallb (fun c => negb (char_eqb c sep)) s = true -> split sep s = [s].
Proof.
  induction s as [|c s IH]; [reflexivity|].
  cbn [forallb split]. intros H. apply andb_prop in H as [Hc Hs].
  apply negb_true_iff in Hc. rewrite Hc, (IH Hs). reflexivity.
Qed.

Section Facts.

Variable normalizePath : jsstring -> jsstring.
Variable adapter_exists : jsstring -> list event -> bool.
Variable createFolder_raises : jsstring -> list event -> option jsstring.

Let createFolders := createFolders normalizePath adapter_exists createFolder_raises.
Let createDirectoryRecursive :=
  createDirectoryRecursive normalizePath adapter_exists createFolder_raises.
Let ensureDirectoryExists :=
  ensureDirectoryExists normalizePath adapter_exists createFolder_raises.

Lemma createFolders_foldersOnly (parts : list jsstring) :
  forall currentPath, foldersOnly (createFolders currentPath parts).
Proof.
  induction parts as [|part rest IH]; intros currentPath s.
  - exists []. cbn. rewrite withEvents_nil. auto.
  - unfold createFolders. cbn [Generator.createFolders]. fold createFolders.
    set (cur := match currentPath with
                | [] => part
                | _ :: _ => currentPath ++ js "/" ++ part
                end).
    unfold bind, vault_exists, tryCatch, hostCall, ret, throw, emit.
    destruct (adapter_exists (normalizePath cur) (trace s)); cbn [negb].
    + exact (IH cur s).
    + destruct (createFolder_raises (normalizePath cur) (trace s))
        as [message|].
      * destruct (includes (js "already exists") message) eqn:Hinc;
          cbn [negb].
        -- exact (IH cur s).
        -- exists []. cbn [fst snd map].
           rewrite withEvents_nil, Hinc. auto.
      * destruct (IH cur (withEvents s [CreateFolder (normalizePath cur)]))
          as (created & Hs & Hr).
        exists (normalizePath cur :: created).
        change {| draws := draws s; drawn := drawn s;
                  trace := trace s ++ [CreateFolder (normalizePath cur)] |}
          with (withEvents s [CreateFolder (normalizePath cur)]).
        rewrite Hs, withEvents_app. split; [reflexivity|exact Hr].
Qed.

(** X12.  [ensureDirectoryExists] changes the vault by creating folders
    only and never raises an error that says "already exists": such an
    error of the vault counts as success.  It does nothing when the
    directory of the file exists, and nothing when the path has no
    directory part. *)
Theorem ensureDirectoryExists_tolerant (filePath : jsstring) (s : State) :
  (exists created,
      snd (ensureDirectoryExists filePath s)
      = withEvents s (map CreateFolder created)
      /\ match fst (ensureDirectoryExists filePath s) with
         | Ok _ => True
         | Throw message => includes (js "already exists") message = false
         end)
  /\ (adapter_exists
        (normalizePath (join (js "/") (removelast (split SLASH filePath))))
        (trace s) = true ->
      ensureDirectoryExists filePath s = (Ok tt, s))
  /\ (forallb (fun c => negb (char_eqb c SLASH)) filePath = true ->
      ensureDirectoryExists filePath s = (Ok tt, s)).
Proof.
  split.
  { unfold ensureDirectoryExists, Generator.ensureDirectoryExists.
    destruct (removelast (split SLASH filePath)) as [|p ps].
    - exists []. cbn. rewrite withEvents_nil. auto.
    - unfold bind, vault_exists.
      destruct (adapter_exists _ (trace s)).
      + exists []. cbn. rewrite withEvents_nil. auto.
      + unfold tryCatch. fold createDirectoryRecursive.
        unfold createDirectoryRecursive, Generator.createDirectoryRecursive.
        fold createFolders.
        match goal with
        | |- context [createFolders [] ?parts s] =>
            destruct (createFolders_foldersOnly parts [] s)
              as (created & Hs & Hr);
            destruct (createFolders [] parts s) as [[u|message] s'] eqn:E
        end; cbn [fst snd] in Hs, Hr.
        * exists created. cbn [fst snd]. auto.
        * rewrite Hr. cbn [negb]. unfold throw. exists created.
          cbn [fst snd]. auto. }
  split.
  { intros Hex.
    unfold ensureDirectoryExists, Generator.ensureDirectoryExists.
    destruct (removelast (split SLASH filePath)) as [|p ps]; [reflexivity|].
    unfold bind, vault_exists. rewrite Hex. reflexivity. }
  intros Hns.
  unfold ensureDirectoryExists, Generator.ensureDirectoryExists.
  rewrite (split_none _ _ Hns). reflexivity.
Qed.

End Facts.

End VaultFacts.

(* ================================================================== *)
(** * Properties of one invoice generation                              *)
(* ================================================================== *)

Module InvoiceRunFacts.

Import Generator Modal Spec.

Lemma startsWith_app (p m : jsstring) : startsWith p (p ++ m) = true.
Proof.
  induction p as [|c p IH]; [reflexivity|].
  cbn [app startsWith]. unfold char_eqb. rewrite N.eqb_refl. exact IH.
Qed.

Lemma two_events (t : list event) (a b : event) :
  (t ++ [a]) ++ [b] = t ++ [a; b].
Proof. rewrite <- app_assoc. reflexivity. Qed.

Lemma three_events (t : list event) (a b c : event) :
  ((t ++ [a]) ++ [b]) ++ [c] = t ++ [a; b; c].
Proof. rewrite <- !app_assoc. reflexivity. Qed.

Lemma trace_two (s : State) (a b : event) :
  trace (withEvents s [a; b]) = (trace s ++ [a]) ++ [b].
Proof. unfold withEvents. cbn [trace]. symmetry. apply two_events. Qed.

Section Facts.

Variable Date_getTime : jsstring -> option Z.
Variable toLocaleDateString_short : Z -> jsstring.
Variable toLocaleTimeString_12h : Z -> jsstring.
Variable toFixed2 : number -> jsstring.
Variable now : Clock.
Variable toLocaleDateString_now : jsstring.
Variable moment_format : jsstring -> jsstring.
Variable normalizePath : jsstring -> jsstring.
Variable autoTable_finalY : list (list jsstring) -> Q.
Variable jsPDF_load_raises : option jsstring.
Variable jsPDF_raises : list op -> option jsstring.
Variable adapter_exists : jsstring -> list event -> bool.
Variable createFolder_raises : jsstring -> list event -> option jsstring.
Variable createBinary_raises : jsstring -> list event -> option jsstring.
Variable openFile_raises : jsstring -> list event -> option jsstring.
Variable settings : InvoiceSettings.

Let addPDFContent :=
  addPDFContent Date_getTime toLocaleDateString_short toLocaleTimeString_12h
                toFixed2 now toLocaleDateString_now autoTable_finalY settings.
Let generatePDF :=
  generatePDF Date_getTime toLocaleDateString_short toLocaleTimeString_12h
              toFixed2 now toLocaleDateString_now autoTable_finalY
              jsPDF_load_raises jsPDF_raises settings.
Let generateFilePath := generateFilePath now moment_format normalizePath settings.
Let ensureDirectoryExists :=
  ensureDirectoryExists normalizePath adapter_exists createFolder_raises.
Let generateInvoice :=
  generateInvoice Date_getTime toLocaleDateString_short toLocaleTimeString_12h
                  toFixed2 now toLocaleDateString_now moment_format
                  normalizePath autoTable_finalY jsPDF_load_raises jsPDF_raises
                  adapter_exists createFolder_raises createBinary_raises
                  openFile_raises settings.

(** [generateInvoice] once the document is composed, the path generated
    and the directory ensured. *)
Lemma after_directory
  (entries : list TimeEntry) (options : option InvoiceOptions)
  (s s1 s2 s3 : State) (ops : list op) (path : jsstring) :
  jsPDF_load_raises = None ->
  addPDFContent entries options s = (Ok ops, s1) ->
  jsPDF_raises ops = None ->
  generateFilePath s1 = (Ok path, s2) ->
  ensureDirectoryExists path s2 = (Ok tt, s3) ->
  generateInvoice entries options s
  = tryCatch
      (bind (hostCall (createBinary_raises path) (CreateBinary path ops))
         (fun _ =>
            bind (emit (ShowNotice (js "Invoice saved to: " ++ path)))
              (fun _ => hostCall (openFile_raises path) (OpenFile path))))
      (fun message => throw (js "Failed to generate invoice: " ++ message))
      s3.
Proof.
  intros Hload Hadd Hraise Hpath Hdir.
  assert (Hpdf : generatePDF entries options s = (Ok ops, s1)).
  { unfold generatePDF, Generator.generatePDF, tryCatch, bind.
    fold addPDFContent. rewrite Hload, Hadd, Hraise. reflexivity. }
  unfold generateInvoice, Generator.generateInvoice.
  fold generatePDF. fold generateFilePath. fold ensureDirectoryExists.
  unfold tryCatch at 1. unfold bind at 1. rewrite Hpdf.
  unfold bind at 1. rewrite Hpath.
  unfold bind at 1. rewrite Hdir.
  reflexivity.
Qed.

(** X14.  When jsPDF raises nothing, the directory is ensured and the
    vault accepts the file, one invocation writes exactly one file, the
    composed document under the generated path, then shows the notice
    naming that path, then opens the file, and returns normally. *)
Theorem generateInvoice_success
  (entries : list TimeEntry) (options : option InvoiceOptions)
  (s s1 s2 s3 : State) (ops : list op) (path : jsstring) :
  jsPDF_load_raises = None ->
  addPDFContent entries options s = (Ok ops, s1) ->
  jsPDF_raises ops = None ->
  generateFilePath s1 = (Ok path, s2) ->
  ensureDirectoryExists path s2 = (Ok tt, s3) ->
  createBinary_raises path (trace s3) = None ->
  openFile_raises path
    (trace (withEvents s3
              [CreateBinary path ops;
               ShowNotice (js "Invoice saved to: " ++ path)])) = None ->
  generateInvoice entries options s
  = (Ok tt,
     withEvents s3
       [CreateBinary path ops;
        ShowNotice (js "Invoice saved to: " ++ path);
        OpenFile path]).
Proof.
  intros Hload Hadd Hraise Hpath Hdir Hbin Hopen.
  rewrite (after_directory entries options s s1 s2 s3 ops path
             Hload Hadd Hraise Hpath Hdir).
  rewrite trace_two in Hopen.
  unfold tryCatch, bind, hostCall, emit. rewrite Hbin.
  cbn [trace]. rewrite Hopen.
  unfold withEvents. cbn [trace draws drawn].
  rewrite three_events. reflexivity.
Qed.

(** X15.  Whatever goes wrong, the message of the error [generateInvoice]
    raises begins with "Failed to generate invoice: ". *)
Theorem generateInvoice_errors_prefixed
  (entries : list TimeEntry) (options : option InvoiceOptions) (s : State) :
  match fst (generateInvoice entries options s) with
  | Ok _ => True
  | Throw message =>
      startsWith (js "Failed to generate invoice: ") message = true
  end.
Proof.
  unfold generateInvoice, Generator.generateInvoice, tryCatch.
  match goal with
  | |- context [match ?body s with _ => _ end] =>
      destruct (body s) as [[u|message] s']
  end; cbn [fst]; [exact I|].
  unfold throw. cbn [fst]. apply startsWith_app.
Qed.

(** X16.  An error of the vault after the document is composed is raised
    wrapped, and what was done before it stays done: when the vault
    refuses the file nothing is written and no notice is shown; when
    opening the written file fails, the error is raised although the file
    is written and the notice shown. *)
Theorem generateInvoice_vault_failure
  (entries : list TimeEntry) (options : option InvoiceOptions)
  (s s1 s2 s3 : State) (ops : list op) (path message : jsstring) :
  jsPDF_load_raises = None ->
  addPDFContent entries options s = (Ok ops, s1) ->
  jsPDF_raises ops = None ->
  generateFilePath s1 = (Ok path, s2) ->
  ensureDirectoryExists path s2 = (Ok tt, s3) ->
  (createBinary_raises path (trace s3) = Some message ->
   generateInvoice entries options s
   = (Throw (js "Failed to generate invoice: " ++ message), s3))
  /\ (createBinary_raises path (trace s3) = None ->
      openFile_raises path
        (trace (withEvents s3
                  [CreateBinary path ops;
                   ShowNotice (js "Invoice saved to: " ++ path)]))
      = Some message ->
      generateInvoice entries options s
      = (Throw (js "Failed to generate invoice: " ++ message),
         withEvents s3
           [CreateBinary path ops;
            ShowNotice (js "Invoice saved to: " ++ path)])).
Proof.
  intros Hload Hadd Hraise Hpath Hdir.
  rewrite (after_directory entries options s s1 s2 s3 ops path
             Hload Hadd Hraise Hpath Hdir).
  split.
  - intros Hbin. unfold tryCatch, bind, hostCall. rewrite Hbin. reflexivity.
  - intros Hbin Hopen. rewrite trace_two in Hopen.
    unfold tryCatch, bind, hostCall, emit. rewrite Hbin.
    cbn [trace]. rewrite Hopen.
    unfold withEvents, throw. cbn [trace draws drawn].
    rewrite two_events. reflexivity.
Qed.

End Facts.

Lemma generateInvoice_success_witness :
  exists ops path s3,
    Generator.generateInvoice
      RefDate.getTime RefHost.toLocaleDateString_short
      RefHost.toLocaleTimeString_12h RefHost.toFixed2 RefHost.now
      RefHost.toLocaleDateString_now RefHost.moment_format
      RefHost.normalizePath RefHost.autoTable_finalY
      None RefHost.jsPDF_works RefHost.adapter_exists
      RefHost.noRaise RefHost.noRaise RefHost.noRaise RefHost.settings
      [RefHost.sampleEntry] None (RefHost.initial (fun _ => 1 # 4)%Q)
    = (Ok tt,
       withEvents s3
         [CreateBinary path ops;
          ShowNotice (js "Invoice saved to: " ++ path);
          OpenFile path])
    /\ path = js "Invoices/2026/11/Acme-invoice-2026-11-03-2500.pdf"
    /\ trace s3 = [CreateFolder (js "Invoices");
                   CreateFolder (js "Invoices/2026");
                   CreateFolder (js "Invoices/2026/11")].
Proof.
  eexists. eexists. eexists. split.
  - eapply (generateInvoice_success
              RefDate.getTime RefHost.toLocaleDateString_short
              RefHost.toLocaleTimeString_12h RefHost.toFixed2 RefHost.now
              RefHost.toLocaleDateString_now RefHost.moment_format
              RefHost.normalizePath RefHost.autoTable_finalY
              None RefHost.jsPDF_works RefHost.adapter_exists
              RefHost.noRaise RefHost.noRaise RefHost.noRaise
              RefHost.settings);
      lazy; reflexivity.
  - split; reflexivity.
Defined.

Lemma generateInvoice_vault_failure_witness :
  exists s3,
    Generator.generateInvoice
      RefDate.getTime RefHost.toLocaleDateString_short
      RefHost.toLocaleTimeString_12h RefHost.toFixed2 RefHost.now
      RefHost.toLocaleDateString_now RefHost.moment_format
      RefHost.normalizePath RefHost.autoTable_finalY
      None RefHost.jsPDF_works RefHost.adapter_exists
      RefHost.noRaise RefHost.vault_refuses RefHost.noRaise RefHost.settings
      [RefHost.sampleEntry] None (RefHost.initial (fun _ => 1 # 4)%Q)
    = (Throw (js "Failed to generate invoice: " ++ js "File already exists."),
       s3)
    /\ trace s3 = [CreateFolder (js "Invoices");
                   CreateFolder (js "Invoices/2026");
                   CreateFolder (js "Invoices/2026/11")].
Proof.
  eexists. split.
  - edestruct (generateInvoice_vault_failure
                 RefDate.getTime RefHost.toLocaleDateString_short
                 RefHost.toLocaleTimeString_12h RefHost.toFixed2 RefHost.now
                 RefHost.toLocaleDateString_now RefHost.moment_format
                 RefHost.normalizePath RefHost.autoTable_finalY
                 None RefHost.jsPDF_works RefHost.adapter_exists
                 RefHost.noRaise RefHost.vault_refuses RefHost.noRaise
                 RefHost.settings
                 [RefHost.sampleEntry] None
                 (RefHost.initial (fun _ => 1 # 4)%Q))
      as [refused _];
      [lazy; reflexivity ..|apply refused];
      lazy; reflexivity.
  - reflexivity.
Defined.

End InvoiceRunFacts.

(* ================================================================== *)
(** * Properties of the table rows and of the totals                    *)
(* ================================================================== *)

Module RenderFacts.

Import Generator Modal Spec.

Lemma concat_repeat_spaces (n : nat) :
  concat (repeat (js "  ") n) = repeat SPACE (2 * n).
Proof.
  induction n as [|n IH]; [reflexivity|].
  replace (2 * S n)%nat with (S (S (2 * n))) by lia.
  cbn [repeat concat]. rewrite IH. reflexivity.
Qed.

Lemma filter_repeat_space (k : nat) :
  filter (fun c => negb (isControl c)) (repeat SPACE k) = repeat SPACE k.
Proof.
  induction k as [|k IH]; [reflexivity|].
  cbn [repeat filter]. change (negb (isControl SPACE)) with true.
  cbn iota. rewrite IH. reflexivity.
Qed.

Lemma escapeText_filter (t : jsstring) :
  escapeText t = firstn 1000 (filter (fun c => negb (isControl c)) t).
Proof.
  unfold escapeText, substring0. destruct t as [|c t].
  - rewrite firstn_nil. reflexivity.
  - rewrite TextFacts.replaceClass_nil_filter. reflexivity.
Qed.

Lemma sumQ_app (a b : list Q) : (sumQ (a ++ b) == sumQ a + sumQ b)%Q.
Proof.
  induction a as [|x a IH]; cbn [app sumQ fold_right].
  - symmetry. apply Qplus_0_l.
  - fold (sumQ (a ++ b)). fold (sumQ a). rewrite IH. apply Qplus_assoc.
Qed.

Section Facts.

Variable Date_getTime : jsstring -> option Z.
Variable toLocaleDateString_short : Z -> jsstring.
Variable toLocaleTimeString_12h : Z -> jsstring.
Variable toFixed2 : number -> jsstring.
Variable settings : InvoiceSettings.

Let tableRow :=
  tableRow Date_getTime toLocaleDateString_short toLocaleTimeString_12h
           toFixed2 settings.
Let calculateEntryDuration := calculateEntryDuration Date_getTime.
Let calculateTotalHours := calculateTotalHours Date_getTime.

(** X17.  Every row of the table has six cells.  Its label is the name
    without control characters, after two spaces per level up to level
    10, so after at most 20 spaces, the whole cut at 1000 characters; its
    start and end cells are a dash when the endpoint is null, empty or not
    a date. *)
Theorem table_rows_shape (flat : bool) (entry : TimeEntry) :
  let depth := Nat.min (match level entry with Some l => l | None => 0%nat end)
                       10 in
  length (tableRow flat entry) = 6%nat
  /\ nth_error (tableRow flat entry) 0
     = Some (firstn 1000
               (repeat SPACE (2 * depth)
                ++ filter (fun c => negb (isControl c)) (name entry)))
  /\ (2 * depth <= 20)%nat
  /\ (parsed Date_getTime (startTime entry) = None ->
      nth_error (tableRow flat entry) 1 = Some (js "-"))
  /\ (parsed Date_getTime (endTime entry) = None ->
      nth_error (tableRow flat entry) 2 = Some (js "-")).
Proof.
  intros depth.
  assert (Hlabel : escapeText (concat (repeat (js "  ") depth) ++ name entry)
                   = firstn 1000
                       (repeat SPACE (2 * depth)
                        ++ filter (fun c => negb (isControl c)) (name entry))).
  { rewrite escapeText_filter, filter_app, concat_repeat_spaces,
      filter_repeat_space. reflexivity. }
  assert (Hdash : forall t,
             parsed Date_getTime t = None ->
             formatTime Date_getTime toLocaleDateString_short
               toLocaleTimeString_12h t = js "-").
  { intros [[|c r]|]; cbn [parsed formatTime]; try reflexivity.
    intros ->. reflexivity. }
  assert (Hsix : forall f e, length (tableRow f e) = 6%nat).
  { intros [|] e; reflexivity. }
  split; [apply Hsix|].
  split.
  { unfold tableRow, Generator.tableRow. fold depth.
    destruct flat; cbn [nth_error]; rewrite Hlabel; reflexivity. }
  split; [unfold depth; lia|].
  split.
  { intros H. unfold tableRow, Generator.tableRow.
    destruct flat; cbn [nth_error]; rewrite (Hdash _ H); reflexivity. }
  intros H. unfold tableRow, Generator.tableRow.
  destruct flat; cbn [nth_error]; rewrite (Hdash _ H); reflexivity.
Qed.

Lemma duration_bounds (entry : TimeEntry) :
  (0 <= calculateEntryDuration entry <= 8760)%Q.
Proof.
  unfold calculateEntryDuration, Generator.calculateEntryDuration.
  destruct (falsy (startTime entry) || falsy (endTime entry));
    [split; discriminate|].
  destruct (startTime entry) as [a|], (endTime entry) as [b|];
    try (split; discriminate).
  destruct (Date_getTime a), (Date_getTime b); try (split; discriminate).
  apply GeneratorFacts.clampHours_bounds.
Qed.

Lemma total_is_sum (entries : list TimeEntry) :
  (calculateTotalHours entries == sumQ (map calculateEntryDuration entries))%Q.
Proof.
  unfold calculateTotalHours, Generator.calculateTotalHours.
  rewrite GeneratorFacts.fold_left_Qplus. apply Qplus_0_l.
Qed.

Lemma sum_bounds (entries : list TimeEntry) :
  (0 <= sumQ (map calculateEntryDuration entries)
   <= 8760 * inject_Z (Z.of_nat (length entries)))%Q.
Proof.
  induction entries as [|e l [IH0 IH1]].
  - split; cbn; discriminate.
  - cbn [map sumQ fold_right length]. fold (sumQ (map calculateEntryDuration l)).
    destruct (duration_bounds e) as [H0 H1]. split.
    + change 0%Q with (0 + 0)%Q. apply Qplus_le_compat; assumption.
    + rewrite Nat2Z.inj_succ, <- Z.add_1_l, inject_Z_plus.
      rewrite Qmult_plus_distr_r.
      apply Qplus_le_compat; [|exact IH1].
      rewrite Qmult_1_r. exact H1.
Qed.

(** The total only grows along the list. *)
Lemma total_grows (a b : list TimeEntry) :
  (calculateTotalHours a <= calculateTotalHours (a ++ b))%Q.
Proof.
  rewrite !total_is_sum, map_app, sumQ_app.
  destruct (sum_bounds b) as [H0 _].
  rewrite <- (Qplus_0_r (sumQ (map calculateEntryDuration a))) at 1.
  apply Qplus_le_compat; [apply Qle_refl|exact H0].
Qed.

(** X18.  The total hours of an invoice is never negative and never more
    than 8760 hours per entry, and entries added at the end never lower
    it. *)
Theorem totals_bounded (a b entries : list TimeEntry) :
  (0 <= calculateTotalHours entries
   <= 8760 * inject_Z (Z.of_nat (length entries)))%Q
  /\ (calculateTotalHours a <= calculateTotalHours (a ++ b))%Q.
Proof.
  split; [|apply total_grows].
  rewrite total_is_sum. apply sum_bounds.
Qed.

End Facts.

End RenderFacts.

(* ================================================================== *)
(** * Properties of the post-processor and of the invoice button        *)
(* ================================================================== *)

Module PluginFacts.

Import Generator Plugin Spec.

Section Facts.

Variable Date_getTime : jsstring -> option Z.
Variable toLocaleDateString_short : Z -> jsstring.
Variable toLocaleTimeString_12h : Z -> jsstring.
Variable toFixed2 : number -> jsstring.
Variable now : Clock.
Variable toLocaleDateString_now : jsstring.
Variable moment_format : jsstring -> jsstring.
Variable normalizePath : jsstring -> jsstring.
Variable autoTable_finalY : list (list jsstring) -> Q.
Variable jsPDF_load_raises : option jsstring.
Variable jsPDF_raises : list op -> option jsstring.
Variable adapter_exists : jsstring -> list event -> bool.
Variable createFolder_raises : jsstring -> list event -> option jsstring.
Variable createBinary_raises : jsstring -> list event -> option jsstring.
Variable openFile_raises : jsstring -> list event -> option jsstring.
Variable parseFloat : jsstring -> number.
Variable settings : InvoiceSettings.

Let processContainer := processContainer Date_getTime.
Let generateInvoice :=
  generateInvoice Date_getTime toLocaleDateString_short toLocaleTimeString_12h
                  toFixed2 now toLocaleDateString_now moment_format
                  normalizePath autoTable_finalY jsPDF_load_raises jsPDF_raises
                  adapter_exists createFolder_raises createBinary_raises
                  openFile_raises settings.
Let onSubmit :=
  onSubmit Date_getTime toLocaleDateString_short toLocaleTimeString_12h
           toFixed2 now toLocaleDateString_now moment_format normalizePath
           autoTable_finalY jsPDF_load_raises jsPDF_raises adapter_exists
           createFolder_raises createBinary_raises openFile_raises settings.
Let onClick :=
  onClick Date_getTime toLocaleDateString_short toLocaleTimeString_12h
          toFixed2 now toLocaleDateString_now moment_format normalizePath
          autoTable_finalY jsPDF_load_raises jsPDF_raises adapter_exists
          createFolder_raises createBinary_raises openFile_raises parseFloat
          settings.

Lemma flat_entries (jsonData : list Main.Entry) (d : nat) :
  Parser.processEntries Date_getTime (map toRaw jsonData) d
  = map (fun e => annotate Date_getTime d (toRaw e)) jsonData.
Proof.
  induction jsonData as [|e l IH]; [reflexivity|].
  cbn [map].
  rewrite (ParserFacts.processEntries_cons Date_getTime), IH.
  reflexivity.
Qed.

(** X19.  The entries of a table reach the generator one for one and in
    order, with their names and endpoints, and all at level 0: the level
    the extractor read from the margin is not used, so no label of the
    invoice is indented. *)
Theorem extracted_levels_dropped (jsonData : list Main.Entry) (flat : bool)
  (e : Main.Entry) :
  (exists entries,
      Parser.parse Date_getTime (Some (Some (map toRaw jsonData))) = Ok entries
      /\ map toInvoiceEntry entries = map invoiceEntryOf jsonData
      /\ Forall (fun t => Parser.level t = 0%nat) entries)
  /\ nth_error
       (tableRow Date_getTime toLocaleDateString_short toLocaleTimeString_12h
                 toFixed2 settings flat (invoiceEntryOf e)) 0
     = Some (escapeText (Main.name e)).
Proof.
  split; [|destruct flat; reflexivity].
  exists (map (fun e => annotate Date_getTime 0 (toRaw e)) jsonData).
  split.
  { unfold Parser.parse. rewrite flat_entries. reflexivity. }
  split.
  { rewrite map_map. apply map_ext. intros x. reflexivity. }
  apply Forall_forall. intros t Ht.
  apply in_map_iff in Ht as (x & <- & _). reflexivity.
Qed.

(** X20.  The handlers of the button never raise.  The callback of the
    dialog ends with exactly one notice more than [generateInvoice] left:
    the success notice when it returned, and otherwise the error notice
    carrying the message raised.  A click followed by no Generate Invoice
    does nothing at all, and a click on data without entries only shows
    that no entries were found. *)
Theorem button_handlers_never_raise
  (jsonData : list Main.Entry) (actions : list Modal.action)
  (entries : list Parser.TimeEntry) (options : Modal.InvoiceOptions)
  (s : State) :
  fst (onClick jsonData actions s) = Ok tt
  /\ onSubmit entries options s
     = match generateInvoice (map toInvoiceEntry entries) (Some options) s with
       | (Ok _, s') =>
           (Ok tt,
            withEvents s' [ShowNotice (js "Invoice generated successfully!")])
       | (Throw message, s') =>
           (Ok tt,
            withEvents s'
              [ShowNotice (js "Error generating invoice: " ++ message)])
       end
  /\ (jsonData <> [] ->
      Modal.open parseFloat actions = None ->
      onClick jsonData actions s = (Ok tt, s))
  /\ onClick [] actions s
     = (Ok tt,
        withEvents s
          [ShowNotice (js "No time entries found to generate invoice")]).
Proof.
  assert (Hsubmit : forall l o st,
             onSubmit l o st
             = match generateInvoice (map toInvoiceEntry l) (Some o) st with
               | (Ok _, s') =>
                   (Ok tt,
                    withEvents s'
                      [ShowNotice (js "Invoice generated successfully!")])
               | (Throw message, s') =>
                   (Ok tt,
                    withEvents s'
                      [ShowNotice (js "Error generating invoice: " ++ message)])
               end).
  { intros l o st. unfold onSubmit, Plugin.onSubmit, tryCatch, bind.
    fold generateInvoice.
    destruct (generateInvoice (map toInvoiceEntry l) (Some o) st)
      as [[u|message] s']; reflexivity. }
  assert (Hclick : forall st,
             onClick jsonData actions st
             = match jsonData with
               | [] =>
                   (Ok tt,
                    withEvents st
                      [ShowNotice
                         (js "No time entries found to generate invoice")])
               | _ =>
                   match Modal.open parseFloat actions with
                   | Some o =>
                       onSubmit
                         (map (fun e => annotate Date_getTime 0 (toRaw e))
                              jsonData) o st
                   | None => (Ok tt, st)
                   end
               end).
  { intros st. unfold onClick, Plugin.onClick, Parser.parse.
    rewrite flat_entries. fold onSubmit.
    destruct jsonData as [|e l]; [reflexivity|].
    cbn [map]. unfold tryCatch.
    destruct (Modal.open parseFloat actions) as [o|]; [|reflexivity].
    match goal with
    | |- context [onSubmit ?l o st] =>
        rewrite (Hsubmit l o st);
        destruct (generateInvoice (map toInvoiceEntry l) (Some o) st)
          as [[u|message] s']
    end; reflexivity. }
  split.
  { rewrite Hclick. destruct jsonData as [|e l]; [reflexivity|].
    destruct (Modal.open parseFloat actions) as [o|]; [|reflexivity].
    rewrite Hsubmit.
    match goal with
    | |- context [generateInvoice ?l ?o s] =>
        destruct (generateInvoice l o s) as [[u|message] s']
    end; reflexivity. }
  split; [apply Hsubmit|].
  split.
  { intros Hne Hopen. rewrite Hclick, Hopen.
    destruct jsonData; [contradiction|reflexivity]. }
  unfold onClick, Plugin.onClick. reflexivity.
Qed.

(** X21.  The post-processor attaches at most one invoice button to a
    container: a container with a button is left as it is, so processing
    twice is processing once; a button is attached only with the data
    extracted from the table of the parent, which is never empty. *)
Theorem processContainer_idempotent (c : Container) :
  processContainer (processContainer c) = processContainer c
  /\ (invoiceButtons c <> [] -> processContainer c = c)
  /\ (invoiceButtons c = [] ->
      (length (invoiceButtons (processContainer c)) <= 1)%nat
      /\ forall jsonData,
           In jsonData (invoiceButtons (processContainer c)) ->
           jsonData <> []
           /\ exists table,
                parentTable c = Some (Some table)
                /\ Main.extractDataFromTable Date_getTime table = Some jsonData).
Proof.
  assert (Hdata : forall table jsonData,
             Main.extractDataFromTable Date_getTime table = Some jsonData ->
             jsonData <> []).
  { intros table jsonData. unfold Main.extractDataFromTable.
    destruct (Main.extractEntries Date_getTime table); [discriminate|].
    cbn. intros H. injection H as <-. discriminate. }
  destruct c as [buttons parent].
  unfold processContainer, Plugin.processContainer.
  cbn [invoiceButtons parentTable].
  destruct buttons as [|b bs].
  - destruct parent as [[table|]|]; cbn [invoiceButtons parentTable app].
    + destruct (Main.extractDataFromTable Date_getTime table) as [jsonData|]
        eqn:E; cbn [invoiceButtons parentTable app].
      * split; [reflexivity|]. split; [intros H; contradiction H; reflexivity|].
        intros _. split; [cbn; lia|].
        intros j [<-|[]]. split; [exact (Hdata table _ E)|eauto].
      * rewrite E. split; [reflexivity|].
        split; [intros H; contradiction H; reflexivity|].
        intros _. split; [cbn; lia|]. intros j [].
    + split; [reflexivity|]. split; [reflexivity|].
      intros _. split; [cbn; lia|]. intros j [].
    + split; [reflexivity|]. split; [reflexivity|].
      intros _. split; [cbn; lia|]. intros j [].
  - split; [reflexivity|]. split; [reflexivity|]. discriminate.
Qed.

End Facts.

End PluginFacts.

(* ================================================================== *)
(** * Creating a directory path; parsed and billed hours                *)
(* ================================================================== *)

Module PathFacts.

Import Generator Spec.

Lemma join_nonempty (done : list jsstring) :
  done <> [] -> forallb nonEmpty done = true -> join (js "/") done <> [].
Proof.
  destruct done as [|w ws]; [contradiction|]. intros _ H.
  cbn [forallb] in H. apply andb_prop in H as [Hw _].
  destruct w as [|c w]; [discriminate Hw|].
  destruct ws; discriminate.
Qed.

Lemma join_snoc (done : list jsstring) (part : jsstring) :
  done <> [] ->
  join (js "/") (done ++ [part]) = join (js "/") done ++ js "/" ++ part.
Proof.
  induction done as [|w ws IH]; [contradiction|]. intros _.
  destruct ws as [|w' ws']; [reflexivity|].
  change (join (js "/") ((w :: w' :: ws') ++ [part]))
    with (w ++ js "/" ++ join (js "/") ((w' :: ws') ++ [part])).
  rewrite IH by discriminate.
  change (join (js "/") (w :: w' :: ws'))
    with (w ++ js "/" ++ join (js "/") (w' :: ws')).
  rewrite <- !app_assoc. reflexivity.
Qed.

Section Facts.

Variable normalizePath : jsstring -> jsstring.
Variable adapter_exists : jsstring -> list event -> bool.
Variable createFolder_raises : jsstring -> list event -> option jsstring.

Let createFolders := createFolders normalizePath adapter_exists createFolder_raises.
Let createDirectoryRecursive :=
  createDirectoryRecursive normalizePath adapter_exists createFolder_raises.

Lemma prefixPath_cons (done rest : list jsstring) (part : jsstring) (k : nat) :
  prefixPath normalizePath done (part :: rest) (S k)
  = prefixPath normalizePath (done ++ [part]) rest k.
Proof.
  unfold prefixPath. cbn [firstn]. rewrite <- app_assoc. reflexivity.
Qed.

Lemma prefixPaths_cons (done rest : list jsstring) (part : jsstring) (n : nat) :
  prefixPaths normalizePath done (part :: rest) (S n)
  = normalizePath (join (js "/") (done ++ [part]))
    :: prefixPaths normalizePath (done ++ [part]) rest n.
Proof.
  unfold prefixPaths. cbn [seq map]. f_equal.
  rewrite <- (seq_shift n 1), map_map.
  apply map_ext. intros k. apply prefixPath_cons.
Qed.

(** The loop from [done]: every folder is missing when its turn comes, and
    its creation raises nothing. *)
Lemma createFolders_chain (parts : list jsstring) :
  forall done s,
    forallb nonEmpty done = true ->
    forallb nonEmpty parts = true ->
    (forall k, (k < length parts)%nat ->
       adapter_exists (prefixPath normalizePath done parts (S k))
         (trace s ++ map CreateFolder (prefixPaths normalizePath done parts k))
       = false) ->
    (forall k, (k < length parts)%nat ->
       createFolder_raises (prefixPath normalizePath done parts (S k))
         (trace s ++ map CreateFolder (prefixPaths normalizePath done parts k))
       = None) ->
    createFolders (join (js "/") done) parts s
    = (Ok tt,
       withEvents s
         (map CreateFolder (prefixPaths normalizePath done parts (length parts)))).
Proof.
  induction parts as [|part rest IH]; intros done s Hdone Hparts Hex Hraise.
  - unfold prefixPaths. cbn. rewrite VaultFacts.withEvents_nil. reflexivity.
  - cbn [forallb] in Hparts. apply andb_prop in Hparts as [Hpart Hrest].
    assert (Hcur : match join (js "/") done with
                   | [] => part
                   | _ :: _ => join (js "/") done ++ js "/" ++ part
                   end = join (js "/") (done ++ [part])).
    { destruct done as [|w ws]; [reflexivity|].
      rewrite join_snoc by discriminate.
      destruct (join (js "/") (w :: ws)) eqn:E; [|reflexivity].
      exfalso. revert E. apply join_nonempty; [discriminate|exact Hdone]. }
    pose proof (Hex 0%nat (Nat.lt_0_succ _)) as Hex0.
    pose proof (Hraise 0%nat (Nat.lt_0_succ _)) as Hraise0.
    unfold prefixPaths, prefixPath in Hex0, Hraise0.
    cbn [seq map firstn] in Hex0, Hraise0.
    rewrite app_nil_r in Hex0, Hraise0.
    unfold createFolders. cbn [Generator.createFolders]. fold createFolders.
    rewrite Hcur.
    unfold bind, vault_exists, tryCatch, hostCall, ret, throw, emit.
    rewrite Hex0. cbn [negb]. rewrite Hraise0.
    change {| draws := draws s; drawn := drawn s;
              trace := trace s
                       ++ [CreateFolder
                             (normalizePath (join (js "/") (done ++ [part])))] |}
      with (withEvents s
              [CreateFolder (normalizePath (join (js "/") (done ++ [part])))]).
    rewrite IH.
    + rewrite VaultFacts.withEvents_app. cbn [length].
      rewrite prefixPaths_cons. reflexivity.
    + rewrite forallb_app, Hdone. cbn [forallb andb].
      rewrite Hpart. reflexivity.
    + exact Hrest.
    + intros k Hk. rewrite <- prefixPath_cons.
      unfold withEvents. cbn [trace]. rewrite <- app_assoc. cbn [app].
      specialize (Hex (S k)). rewrite prefixPaths_cons in Hex.
      apply Hex. cbn [length]. lia.
    + intros k Hk. rewrite <- prefixPath_cons.
      unfold withEvents. cbn [trace]. rewrite <- app_assoc. cbn [app].
      specialize (Hraise (S k)). rewrite prefixPaths_cons in Hraise.
      apply Hraise. cbn [length]. lia.
Qed.

Lemma filter_forallb (A : Type) (f : A -> bool) (l : list A) :
  forallb f (filter f l) = true.
Proof.
  induction l as [|a l IH]; [reflexivity|].
  cbn [filter]. destruct (f a) eqn:E; [|exact IH].
  cbn [forallb]. rewrite E. exact IH.
Qed.

(** X22.  [createDirectoryRecursive] creates, from the outermost inwards,
    one folder per non-empty component of the path, under the normalized
    join of each successive prefix of the components, and returns
    normally, when each of these folders is missing at its turn and its
    creation raises nothing.  A leading, trailing or doubled slash adds no
    folder. *)
Theorem createDirectoryRecursive_creates_prefixes
  (dirPath : jsstring) (s : State) :
  let parts := filter nonEmpty (split SLASH dirPath) in
  let path := fun k => normalizePath (join (js "/") (firstn k parts)) in
  (forall k, (k < length parts)%nat ->
     adapter_exists (path (S k))
       (trace s ++ map CreateFolder (map path (seq 1 k))) = false) ->
  (forall k, (k < length parts)%nat ->
     createFolder_raises (path (S k))
       (trace s ++ map CreateFolder (map path (seq 1 k))) = None) ->
  createDirectoryRecursive dirPath s
  = (Ok tt,
     withEvents s (map CreateFolder (map path (seq 1 (length parts))))).
Proof.
  intros parts path Hex Hraise.
  unfold createDirectoryRecursive, Generator.createDirectoryRecursive.
  fold createFolders.
  exact (createFolders_chain parts [] s eq_refl (filter_forallb _ _ _)
           Hex Hraise).
Qed.

End Facts.

(** The path Invoices/2026/11 in a vault that is empty at first: three
    folders. *)
Lemma createDirectoryRecursive_creates_prefixes_witness :
  Generator.createDirectoryRecursive RefHost.normalizePath
    RefHost.created_exists RefHost.noRaise (js "Invoices/2026/11")
    (RefHost.initial (fun _ => 0%Q))
  = (Ok tt,
     withEvents (RefHost.initial (fun _ => 0%Q))
       [CreateFolder (js "Invoices"); CreateFolder (js "Invoices/2026");
        CreateFolder (js "Invoices/2026/11")]).
Proof.
  etransitivity;
    [apply (createDirectoryRecursive_creates_prefixes RefHost.normalizePath
              RefHost.created_exists RefHost.noRaise
              (js "Invoices/2026/11") (RefHost.initial (fun _ => 0%Q)));
     intros [|[|[|k]]] Hk;
     try (vm_compute; reflexivity); vm_compute in Hk; lia|].
  vm_compute. reflexivity.
Defined.

End PathFacts.

(* ================================================================== *)
(** * Hours as parsed and hours as billed                               *)
(* ================================================================== *)

Module HoursFacts.

Import Spec.

Section Facts.

Variable Date_getTime : jsstring -> option Z.


End Facts.

End HoursFacts.
